(** * Banking API client: the gateway and the data collector

    A shallow embedding of [banking_api_client.py]: the class
    [BankingAPIClient] (authentication, header construction and the
    per-resource fetches, in blocking and suspending flavour) and the class
    [BankingDataCollector] (the aggregation loop), together with the
    properties of the aggregation workflow.

    Python objects are modelled as the code uses them. Decoded JSON is a
    [value]; a dict is an object with identity, held in a [store] and
    referred to by address, because the collector assigns into the account
    dicts it was handed. Exceptions are an explicit [outcome]; a method is a
    state transformer over the object it is bound to. *)

From Stdlib Require Import Ascii.
From stdpp Require Import gmap strings list pretty.

Open Scope string_scope.
Open Scope list_scope.

(** ** Values, dict objects and the object store *)

Definition loc := positive.

(** What [response.json()] can produce. A float is kept as its [repr] text:
    the client never computes with numbers, it only passes them through,
    tests them for truth and formats them. A dict is a reference into the
    store. *)
#[warnings="-register-all"]
Inductive value : Type :=
| VNone
| VBool (b : bool)
| VInt (z : Z)
| VFloat (lit : string)
| VStr (s : string)
| VList (items : list value)
| VRef (l : loc).
Arguments VRef l%_positive.

Abbreviation dict := (gmap string value).
Abbreviation store := (gmap loc (gmap string value)).

(** The dict object at an address (an address never written holds the empty
    dict). *)
Definition deref (st : store) (l : loc) : dict := default ∅ (st !! l).
Arguments deref st l%_positive.

(** ** Exceptions and outcomes *)

Inductive exn : Type :=
| RuntimeError (msg : string)
| ValueError (msg : string)
| AttributeError (msg : string)
| TypeError (msg : string)
| HTTPError (msg : string)
| ConnectionError (msg : string)
| JSONDecodeError (msg : string).

Inductive outcome (A : Type) : Type :=
| Returns (a : A)
| Raises (e : exn).
Arguments Returns {A} a.
Arguments Raises {A} e.

(** A method bound to an object of type [S]: it returns or raises, and
    leaves the object in a new state either way. *)
Definition M (S A : Type) : Type := S → outcome A * S.

Definition ret {S A} (a : A) : M S A := λ s, (Returns a, s).
Definition raise {S A} (e : exn) : M S A := λ s, (Raises e, s).
Definition bind {S A B} (m : M S A) (k : A → M S B) : M S B :=
  λ s, match m s with
       | (Returns a, s') => k a s'
       | (Raises e, s') => (Raises e, s')
       end.
Definition this {S} : M S S := λ s, (Returns s, s).
Definition put {S} (s : S) : M S unit := λ _, (Returns tt, s).
Definition lift_outcome {S A} (o : outcome A) : M S A := λ s, (o, s).

Declare Scope py_scope.
Delimit Scope py_scope with py.
Notation "'let!' x ':=' m 'in' k" := (bind m (λ x, k))
  (at level 10, x name, m at level 100, k at level 200) : py_scope.
Notation "'let!' ' p ':=' m 'in' k" := (bind m (λ x, match x with p => k end))
  (at level 10, p pattern, m at level 100, k at level 200) : py_scope.
Notation "m1 ';;' m2" := (bind m1 (λ _, m2))
  (at level 100, m2 at level 200, right associativity) : py_scope.
Open Scope py_scope.

(** ** The builtins the client relies on *)

(** [repr] of a container ([list], [dict]) is Python's own and is not part of
    the client; it is taken as given. It sees the store, since a dict prints
    its current contents. *)
Class Builtins := { py_repr : store → value → string }.

Definition type_name (v : value) : string :=
  match v with
  | VNone => "NoneType"
  | VBool _ => "bool"
  | VInt _ => "int"
  | VFloat _ => "float"
  | VStr _ => "str"
  | VList _ => "list"
  | VRef _ => "dict"
  end.

(** [bool(v)], as tested by [if not self.token]. *)
Definition truthy (st : store) (v : value) : bool :=
  match v with
  | VNone => false
  | VBool b => b
  | VInt z => negb (z =? 0)%Z
  | VFloat lit => negb (String.eqb lit "0.0" || String.eqb lit "-0.0")
  | VStr s => negb (String.eqb s "")
  | VList items => match items with [] => false | _ => true end
  | VRef l => negb (bool_decide (deref st l = ∅))
  end.

(** [str(v)], as spliced into an f-string by [{v}]. *)
Definition py_str {PY : Builtins} (st : store) (v : value) : string :=
  match v with
  | VNone => "None"
  | VBool true => "True"
  | VBool false => "False"
  | VInt z => pretty z
  | VFloat lit => lit
  | VStr s => s
  | VList _ | VRef _ => py_repr st v
  end.

(** [v.get(key, default)]: only a dict has the method. *)
Definition py_get (st : store) (v : value) (key : string) (default : value)
  : outcome value :=
  match v with
  | VRef l => Returns (match deref st l !! key with
                       | Some x => x
                       | None => default
                       end)
  | _ => Raises (AttributeError
                   ("'" +:+ type_name v +:+ "' object has no attribute 'get'"))
  end.

(** [v[key] = x] with a string key: in-place update of a dict object. *)
Definition py_setitem (st : store) (v : value) (key : string) (x : value)
  : outcome store :=
  match v with
  | VRef l => Returns (<[l := <[key := x]> (deref st l)]> st)
  | VList _ =>
      Raises (TypeError "list indices must be integers or slices, not str")
  | _ => Raises (TypeError
                   ("'" +:+ type_name v +:+
                    "' object does not support item assignment"))
  end.

(** The items a [for] loop draws from [v]: the elements of a list, the keys
    of a dict, the characters of a string. *)
Definition py_iter (st : store) (v : value) : outcome (list value) :=
  match v with
  | VList items => Returns items
  | VRef l => Returns (VStr <$> (map_to_list (deref st l)).*1)
  | VStr s => Returns ((λ c, VStr (String c "")) <$> String.list_ascii_of_string s)
  | _ => Raises (TypeError
                   ("'" +:+ type_name v +:+ "' object is not iterable"))
  end.

(** [s.rstrip(c)] for a single character [c]. *)
Fixpoint rstrip (c : Ascii.ascii) (s : string) : string :=
  match s with
  | "" => ""
  | String a s' =>
      match rstrip c s' with
      | "" => if Ascii.eqb a c then "" else String a ""
      | r => String a r
      end
  end.

(** ** The transport

    What the client sees of [requests] / [aiohttp]: a response answers
    [raise_for_status()] (by raising, or not) and [json()]; a session object
    answers [post] and [get], by a response or by raising, and moves to a new
    state of its own. The client never inspects a status code itself.

    The dict objects a decoded body refers to are objects of the store. A
    session may hand out the same object again (the stubbed sessions of the
    unit tests return their fixtures) or a different one on every call (a
    real session decodes afresh); it has no access to the store itself, so
    only the collector's assignments change an object. *)

Record response : Type := {
  raise_for_status : option exn;
  json : outcome value
}.

Abbreviation headers := (list (string * string)).

Class Session (W : Type) : Type := {
  new_session : W;
  session_post : string → list (string * string) → headers → W →
                 outcome response * W;
  session_get : string → headers → W → outcome response * W;
  session_close : W → W
}.

(** ** class BankingAPIClient *)

Record BankingAPIClient (W : Type) : Type := {
  base_url : string;
  username : string;
  password : string;
  use_async : bool;
  session : option W;
  token : value;
  token_type : value
}.
Arguments base_url {W} _.
Arguments username {W} _.
Arguments password {W} _.
Arguments use_async {W} _.
Arguments session {W} _.
Arguments token {W} _.
Arguments token_type {W} _.

Definition set_session {W} (self : BankingAPIClient W) (x : option W)
  : BankingAPIClient W :=
  {| base_url := base_url self; username := username self;
     password := password self; use_async := use_async self;
     session := x; token := token self; token_type := token_type self |}.

Definition set_token {W} (self : BankingAPIClient W) (x : value)
  : BankingAPIClient W :=
  {| base_url := base_url self; username := username self;
     password := password self; use_async := use_async self;
     session := session self; token := x; token_type := token_type self |}.

Definition set_token_type {W} (self : BankingAPIClient W) (x : value)
  : BankingAPIClient W :=
  {| base_url := base_url self; username := username self;
     password := password self; use_async := use_async self;
     session := session self; token := token self; token_type := x |}.

Section Client.
Context {W : Type} {SE : Session W} {PY : Builtins}.

Definition __init__ (base_url username password : string) (use_async : bool)
  : BankingAPIClient W :=
  {| base_url := rstrip "/"%char base_url;
     username := username;
     password := password;
     use_async := use_async;
     session := None;
     token := VNone;
     token_type := VStr "bearer" |}.

Definition __enter__ : M (BankingAPIClient W) unit :=
  let! self := this in
  if negb (use_async self) then put (set_session self (Some new_session))
  else ret tt.

Definition __exit__ : M (BankingAPIClient W) unit :=
  let! self := this in
  match session self with
  | Some w =>
      if negb (use_async self)
      then put (set_session self (Some (session_close w)))
      else ret tt
  | None => ret tt
  end.

Definition __aenter__ : M (BankingAPIClient W) unit :=
  let! self := this in
  if use_async self then put (set_session self (Some new_session))
  else ret tt.

Definition __aexit__ : M (BankingAPIClient W) unit :=
  let! self := this in
  match session self with
  | Some w =>
      if use_async self
      then put (set_session self (Some (session_close w)))
      else ret tt
  | None => ret tt
  end.

(** [response.raise_for_status()] *)
Definition check_status (r : response) : M (BankingAPIClient W) unit :=
  match raise_for_status r with
  | Some e => raise e
  | None => ret tt
  end.

(** [self.session.post(url, data=data, headers=headers)]: the attribute
    [post] is looked up on [self.session] first, so a client whose session
    is still [None] raises [AttributeError]. *)
Definition call_post (url : string) (data : list (string * string))
    (hdrs : headers) : M (BankingAPIClient W) response :=
  let! self := this in
  match session self with
  | None => raise (AttributeError
                     "'NoneType' object has no attribute 'post'")
  | Some w =>
      let '(r, w') := session_post url data hdrs w in
      put (set_session self (Some w')) ;;
      lift_outcome r
  end.

Definition _get_headers (st : store) : M (BankingAPIClient W) headers :=
  let! self := this in
  if negb (truthy st (token self))
  then raise (ValueError "Not authenticated. Call authenticate() first")
  else
    let token_type := token_type self in
    ret [("Authorization",
          py_str st token_type +:+ " " +:+ py_str st (token self));
         ("Content-Type", "application/json")].

(** [self.session.get(url, headers=self._get_headers())]: Python evaluates
    the callee [self.session.get] before the argument
    [self._get_headers()]. *)
Definition call_get (st : store) (url : string)
  : M (BankingAPIClient W) response :=
  let! self := this in
  match session self with
  | None => raise (AttributeError
                     "'NoneType' object has no attribute 'get'")
  | Some w =>
      let! hdrs := _get_headers st in
      let '(r, w') := session_get url hdrs w in
      put (set_session self (Some w')) ;;
      lift_outcome r
  end.

Definition authenticate (st : store) : M (BankingAPIClient W) value :=
  let! self := this in
  if use_async self
  then raise (RuntimeError "Use authenticate_async for async mode")
  else
    let auth_url := base_url self +:+ "/oauth/token" in
    let auth_data := [("username", username self);
                      ("password", password self);
                      ("scope", "stet")] in
    let hdrs := [("Content-Type", "application/x-www-form-urlencoded")] in
    let! response := call_post auth_url auth_data hdrs in
    check_status response ;;
    let! data := lift_outcome (json response) in
    let! access_token := lift_outcome (py_get st data "access_token" VNone) in
    (let! self := this in put (set_token self access_token)) ;;
    let! tt := lift_outcome (py_get st data "token_type" (VStr "bearer")) in
    (let! self := this in put (set_token_type self tt)) ;;
    let! self := this in
    ret (token self).

Definition authenticate_async (st : store) : M (BankingAPIClient W) value :=
  let! self := this in
  if negb (use_async self)
  then raise (RuntimeError "Use authenticate for sync mode")
  else
    let auth_url := base_url self +:+ "/oauth/token" in
    let auth_data := [("username", username self);
                      ("password", password self);
                      ("scope", "stet")] in
    let hdrs := [("Content-Type", "application/x-www-form-urlencoded")] in
    let! response := call_post auth_url auth_data hdrs in
    check_status response ;;
    let! data := lift_outcome (json response) in
    let! access_token := lift_outcome (py_get st data "access_token" VNone) in
    (let! self := this in put (set_token self access_token)) ;;
    let! tt := lift_outcome (py_get st data "token_type" (VStr "bearer")) in
    (let! self := this in put (set_token_type self tt)) ;;
    let! self := this in
    ret (token self).

Definition get_identity (st : store) : M (BankingAPIClient W) value :=
  let! self := this in
  if use_async self
  then raise (RuntimeError "Use get_identity_async for async mode")
  else
    let url := base_url self +:+ "/stet/identity" in
    let! response := call_get st url in
    check_status response ;;
    lift_outcome (json response).

Definition get_identity_async (st : store) : M (BankingAPIClient W) value :=
  let! self := this in
  if negb (use_async self)
  then raise (RuntimeError "Use get_identity for sync mode")
  else
    let url := base_url self +:+ "/stet/identity" in
    let! response := call_get st url in
    check_status response ;;
    lift_outcome (json response).

Definition get_accounts (st : store) : M (BankingAPIClient W) value :=
  let! self := this in
  if use_async self
  then raise (RuntimeError "Use get_accounts_async for async mode")
  else
    let url := base_url self +:+ "/stet/account" in
    let! response := call_get st url in
    check_status response ;;
    lift_outcome (json response).

Definition get_accounts_async (st : store) : M (BankingAPIClient W) value :=
  let! self := this in
  if negb (use_async self)
  then raise (RuntimeError "Use get_accounts for sync mode")
  else
    let url := base_url self +:+ "/stet/account" in
    let! response := call_get st url in
    check_status response ;;
    lift_outcome (json response).

Definition get_account (account_id : value) (st : store)
  : M (BankingAPIClient W) value :=
  let! self := this in
  if use_async self
  then raise (RuntimeError "Use get_account_async for async mode")
  else
    let url := base_url self +:+ "/stet/account/" +:+ py_str st account_id in
    let! response := call_get st url in
    check_status response ;;
    lift_outcome (json response).

Definition get_account_async (account_id : value) (st : store)
  : M (BankingAPIClient W) value :=
  let! self := this in
  if negb (use_async self)
  then raise (RuntimeError "Use get_account for sync mode")
  else
    let url := base_url self +:+ "/stet/account/" +:+ py_str st account_id in
    let! response := call_get st url in
    check_status response ;;
    lift_outcome (json response).

Definition get_balances (account_id : value) (st : store)
  : M (BankingAPIClient W) value :=
  let! self := this in
  if use_async self
  then raise (RuntimeError "Use get_balances_async for async mode")
  else
    let url := base_url self +:+ "/stet/account/" +:+ py_str st account_id
               +:+ "/balance" in
    let! response := call_get st url in
    check_status response ;;
    lift_outcome (json response).

Definition get_balances_async (account_id : value) (st : store)
  : M (BankingAPIClient W) value :=
  let! self := this in
  if negb (use_async self)
  then raise (RuntimeError "Use get_balances for sync mode")
  else
    let url := base_url self +:+ "/stet/account/" +:+ py_str st account_id
               +:+ "/balance" in
    let! response := call_get st url in
    check_status response ;;
    lift_outcome (json response).

Definition get_transactions (account_id : value) (st : store)
  : M (BankingAPIClient W) value :=
  let! self := this in
  if use_async self
  then raise (RuntimeError "Use get_transactions_async for async mode")
  else
    let url := base_url self +:+ "/stet/account/" +:+ py_str st account_id
               +:+ "/transaction" in
    let! response := call_get st url in
    check_status response ;;
    lift_outcome (json response).

Definition get_transactions_async (account_id : value) (st : store)
  : M (BankingAPIClient W) value :=
  let! self := this in
  if negb (use_async self)
  then raise (RuntimeError "Use get_transactions for sync mode")
  else
    let url := base_url self +:+ "/stet/account/" +:+ py_str st account_id
               +:+ "/transaction" in
    let! response := call_get st url in
    check_status response ;;
    lift_outcome (json response).

End Client.

(** ** The gateway as the collector sees it

    [BankingDataCollector] is handed a client object and only ever reads its
    [use_async] attribute and calls its fetch methods, so any object with
    these members can stand in for [BankingAPIClient]. A fetch may read the
    object store but cannot write to it. *)

Class Gateway (G : Type) : Type := {
  gw_use_async : G → bool;
  gw_get_identity : store → M G value;
  gw_get_accounts : store → M G value;
  gw_get_balances : value → store → M G value;
  gw_get_transactions : value → store → M G value;
  gw_get_identity_async : store → M G value;
  gw_get_accounts_async : store → M G value;
  gw_get_balances_async : value → store → M G value;
  gw_get_transactions_async : value → store → M G value
}.

#[export] Instance BankingAPIClient_Gateway {W : Type}
    {SE : Session W} {PY : Builtins} : Gateway (BankingAPIClient W) := {
  gw_use_async := use_async;
  gw_get_identity := get_identity;
  gw_get_accounts := get_accounts;
  gw_get_balances := get_balances;
  gw_get_transactions := get_transactions;
  gw_get_identity_async := get_identity_async;
  gw_get_accounts_async := get_accounts_async;
  gw_get_balances_async := get_balances_async;
  gw_get_transactions_async := get_transactions_async
}.

(** ** class BankingDataCollector *)

(** The collector runs against the object store and its [self.client]. *)
Record BankingDataCollector (G : Type) : Type := {
  objects : store;
  client : G
}.
Arguments objects {G} _.
Arguments client {G} _.

Section Collector.
Context {G : Type} {GW : Gateway G}.

(** [self.client.m(...)] *)
Definition call {A} (m : store → M G A) : M (BankingDataCollector G) A :=
  λ self, let '(o, g) := m (objects self) (client self) in
          (o, {| objects := objects self; client := g |}).

(** [account.get(key)] *)
Definition get_item (account : value) (key : string)
  : M (BankingDataCollector G) value :=
  λ self, (py_get (objects self) account key VNone, self).

(** [account[key] = x] *)
Definition set_item (account : value) (key : string) (x : value)
  : M (BankingDataCollector G) unit :=
  λ self, match py_setitem (objects self) account key x with
          | Returns st => (Returns tt,
                           {| objects := st; client := client self |})
          | Raises e => (Raises e, self)
          end.

(** the items of [for account in accounts] *)
Definition iterate (accounts : value)
  : M (BankingDataCollector G) (list value) :=
  λ self, (py_iter (objects self) accounts, self).

(** The body of [for account in accounts:], over the items still to come.
    The blocking and the suspending collector run the same loop, each
    with its own pair of fetch methods; an [await] completes before the
    next statement runs. *)
Fixpoint for_each_account (get_balances get_transactions :
                             value → store → M G value)
    (accounts : list value) : M (BankingDataCollector G) unit :=
  match accounts with
  | [] => ret tt
  | account :: rest =>
      let! account_id := get_item account "id" in
      let! balances := call (get_balances account_id) in
      set_item account "balances" balances ;;
      let! transactions := call (get_transactions account_id) in
      set_item account "transactions" transactions ;;
      for_each_account get_balances get_transactions rest
  end.

Definition collect_all_data : M (BankingDataCollector G) dict :=
  let! self := this in
  if gw_use_async (client self)
  then raise (RuntimeError "Use collect_all_data_async for async mode")
  else
    let! identity := call gw_get_identity in
    let! accounts := call gw_get_accounts in
    let! items := iterate accounts in
    for_each_account gw_get_balances gw_get_transactions items ;;
    ret {[ "identity" := identity; "accounts" := accounts ]}.

Definition collect_all_data_async : M (BankingDataCollector G) dict :=
  let! self := this in
  if negb (gw_use_async (client self))
  then raise (RuntimeError "Use collect_all_data for sync mode")
  else
    let! identity := call gw_get_identity_async in
    let! accounts := call gw_get_accounts_async in
    let! items := iterate accounts in
    for_each_account gw_get_balances_async gw_get_transactions_async items ;;
    ret {[ "identity" := identity; "accounts" := accounts ]}.

End Collector.

(** ** Observing a run

    Call-order properties are stated against a gateway that keeps a journal:
    it forwards every fetch to the gateway it wraps and notes which fetch it
    was and how it ended. Network properties are stated against a session
    that notes every request sent through it. *)

Inductive fetch : Type :=
| Identity
| Accounts
| Balances (account_id : value)
| Transactions (account_id : value).

Record Recorder (G : Type) : Type := {
  inner : G;
  journal : list (fetch * outcome value)
}.
Arguments inner {G} _.
Arguments journal {G} _.

Definition recorded {G} (f : fetch) (m : store → M G value)
  : store → M (Recorder G) value :=
  λ st r, let '(o, g) := m st (inner r) in
          (o, {| inner := g; journal := journal r ++ [(f, o)] |}).

#[export] Instance Recorder_Gateway {G : Type} {GW : Gateway G}
  : Gateway (Recorder G) := {
  gw_use_async r := gw_use_async (inner r);
  gw_get_identity := recorded Identity gw_get_identity;
  gw_get_accounts := recorded Accounts gw_get_accounts;
  gw_get_balances id := recorded (Balances id) (gw_get_balances id);
  gw_get_transactions id := recorded (Transactions id) (gw_get_transactions id);
  gw_get_identity_async := recorded Identity gw_get_identity_async;
  gw_get_accounts_async := recorded Accounts gw_get_accounts_async;
  gw_get_balances_async id :=
    recorded (Balances id) (gw_get_balances_async id);
  gw_get_transactions_async id :=
    recorded (Transactions id) (gw_get_transactions_async id)
}.

Inductive request : Type :=
| POST (url : string) (data : list (string * string)) (hdrs : headers)
| GET (url : string) (hdrs : headers).

Record Wiretap (W : Type) : Type := {
  wire : W;
  sent : list request
}.
Arguments wire {W} _.
Arguments sent {W} _.

#[export] Instance Wiretap_Session {W : Type} {SE : Session W}
  : Session (Wiretap W) := {
  new_session := {| wire := new_session; sent := [] |};
  session_post url data hdrs t :=
    let '(r, w) := session_post url data hdrs (wire t) in
    (r, {| wire := w; sent := sent t ++ [POST url data hdrs] |});
  session_get url hdrs t :=
    let '(r, w) := session_get url hdrs (wire t) in
    (r, {| wire := w; sent := sent t ++ [GET url hdrs] |});
  session_close t := {| wire := session_close (wire t); sent := sent t |}
}.

(** ** Test doubles

    A scripted gateway answers each fetch with the next canned outcome, and a
    scripted session each request with the next canned response, whatever
    was asked; once the script is used up they raise [ConnectionError]. *)

Record Scripted : Type := {
  scripted_async : bool;
  replies : list (outcome value)
}.

Definition scripted_fetch : store → M Scripted value :=
  λ _ g, match replies g with
         | [] => (Raises (ConnectionError "script exhausted"), g)
         | o :: rest => (o, {| scripted_async := scripted_async g;
                               replies := rest |})
         end.

Definition Scripted_Gateway : Gateway Scripted := {|
  gw_use_async := scripted_async;
  gw_get_identity := scripted_fetch;
  gw_get_accounts := scripted_fetch;
  gw_get_balances _ := scripted_fetch;
  gw_get_transactions _ := scripted_fetch;
  gw_get_identity_async := scripted_fetch;
  gw_get_accounts_async := scripted_fetch;
  gw_get_balances_async _ := scripted_fetch;
  gw_get_transactions_async _ := scripted_fetch
|}.

Definition scripted_request (w : list (outcome response))
  : outcome response * list (outcome response) :=
  match w with
  | [] => (Raises (ConnectionError "script exhausted"), [])
  | o :: rest => (o, rest)
  end.

Definition Scripted_Session : Session (list (outcome response)) := {|
  new_session := [];
  session_post _ _ _ := scripted_request;
  session_get _ _ := scripted_request;
  session_close w := w
|}.

(** A [repr] that does not look inside containers; enough for examples whose
    ids and tokens are strings or [None]. *)
Definition Opaque_Builtins : Builtins := {| py_repr _ _ := "<object>" |}.

(** ** Vocabulary of the properties *)

(** The error raised by [_get_headers] when there is no token. *)
Definition NotAuthenticated : exn :=
  ValueError "Not authenticated. Call authenticate() first".

(** The headers of an authenticated request. *)
Definition auth_headers {PY : Builtins} (st : store) (token_type token : value)
  : headers :=
  [("Authorization", py_str st token_type +:+ " " +:+ py_str st token);
   ("Content-Type", "application/json")].

(** The fetch methods of either mode, for a given account id. *)
Definition blocking_fetches {W} {SE : Session W} {PY : Builtins}
    (account_id : value) : list (store → M (BankingAPIClient W) value) :=
  [get_identity; get_accounts; get_account account_id;
   get_balances account_id; get_transactions account_id].

Definition suspending_fetches {W} {SE : Session W} {PY : Builtins}
    (account_id : value) : list (store → M (BankingAPIClient W) value) :=
  [get_identity_async; get_accounts_async; get_account_async account_id;
   get_balances_async account_id; get_transactions_async account_id].

(** What every fetch method does once past its mode guard. *)
Definition fetch_with {W} {SE : Session W} {PY : Builtins}
    (st : store) (url : string) : M (BankingAPIClient W) value :=
  let! response := call_get st url in
  check_status response ;;
  lift_outcome (json response).

(** The form data and headers of the token request. *)
Definition auth_data {W} (c : BankingAPIClient W) : list (string * string) :=
  [("username", username c); ("password", password c); ("scope", "stet")].

Definition form_headers : headers :=
  [("Content-Type", "application/x-www-form-urlencoded")].

(** The requests that went through a client's wiretapped session. *)
Definition requests_sent {W} (c : BankingAPIClient (Wiretap W))
  : list request :=
  match session c with
  | Some t => sent t
  | None => []
  end.

(** What [account.get("id")] yields on an account record. *)
Definition account_id (st : store) (account : value) : value :=
  match account with
  | VRef l => default VNone (deref st l !! "id")
  | _ => VNone
  end.

(** The store after [d[key] = x] on the dict object at [l]. *)
Definition attach (st : store) (l : loc) (key : string) (x : value) : store :=
  <[l := <[key := x]> (deref st l)]> st.
Arguments attach st l%_positive key x.

(** How the store may differ after the loop has run over [items]: objects
    that are not among the items are untouched, no key other than
    [balances] and [transactions] changes, and no key disappears. *)
Definition grows (items : list value) (st st' : store) : Prop :=
  ∀ l, (VRef l ∉ items → st' !! l = st !! l) ∧
       (∀ k, k ≠ "balances" → k ≠ "transactions" →
             deref st' l !! k = deref st l !! k) ∧
       (∀ k, is_Some (deref st l !! k) → is_Some (deref st' l !! k)).

(** The two fetches made for one account, and the fetches of a complete
    run, in order. *)
Definition account_fetches (st : store) (account : value) : list fetch :=
  [Balances (account_id st account); Transactions (account_id st account)].

Definition fetch_order (st : store) (items : list value) : list fetch :=
  Identity :: Accounts :: (items ≫= account_fetches st).

(** The journal entries of a loop in which every fetch returned, given what
    the two fetches of each account returned. *)
Fixpoint fetch_log (st : store) (items : list value)
    (fetched : list (value * value)) : list (fetch * outcome value) :=
  match items, fetched with
  | account :: items', (balances, transactions) :: fetched' =>
      (Balances (account_id st account), Returns balances)
      :: (Transactions (account_id st account), Returns transactions)
      :: fetch_log st items' fetched'
  | _, _ => []
  end.

(** A journal in which a failed fetch can only be the last entry, and is
    then the outcome of the whole run. *)
Definition aborts_on_first_failure {A} (new : list (fetch * outcome value))
    (out : outcome A) : Prop :=
  ∀ pre f e post, new = pre ++ (f, Raises e) :: post →
                  post = [] ∧ out = Raises e.

(** The statements after the mode guard, which the two collectors share up
    to the fetch methods they call. *)
Definition aggregate {G} (get_identity get_accounts : store → M G value)
    (get_balances get_transactions : value → store → M G value)
  : M (BankingDataCollector G) dict :=
  let! identity := call get_identity in
  let! accounts := call get_accounts in
  let! items := iterate accounts in
  for_each_account get_balances get_transactions items ;;
  ret {[ "identity" := identity; "accounts" := accounts ]}.

(** The loop and the run of a collector on a recording gateway. *)
Abbreviation recorded_loop gb gt :=
  (for_each_account (λ id, recorded (Balances id) (gb id))
                    (λ id, recorded (Transactions id) (gt id))).

Abbreviation recorded_run gi ga gb gt :=
  (aggregate (recorded Identity gi) (recorded Accounts ga)
             (λ id, recorded (Balances id) (gb id))
             (λ id, recorded (Transactions id) (gt id))).

(** ** Scenarios

    The round trip of the specification: identity [{id: u1}], accounts
    [{id: a1}] and [{id: a2}], balances [[{amount: 100, currency: EUR}]] and
    no transactions for each. The gateway hands out the dict objects at
    addresses 1 to 4, as the stubbed session of the unit tests hands out its
    fixtures. *)

Definition roundtrip_objects : store :=
  <[1%positive := {[ "id" := VStr "u1" ]}]>
  (<[2%positive := {[ "id" := VStr "a1" ]}]>
  (<[3%positive := {[ "id" := VStr "a2" ]}]>
  (<[4%positive := {[ "amount" := VInt 100; "currency" := VStr "EUR" ]}]> ∅))).

Definition roundtrip_gateway : Scripted := {|
  scripted_async := false;
  replies := [Returns (VRef 1); Returns (VList [VRef 2; VRef 3]);
              Returns (VList [VRef 4]); Returns (VList []);
              Returns (VList [VRef 4]); Returns (VList [])]
|}.

Definition roundtrip : BankingDataCollector Scripted :=
  {| objects := roundtrip_objects; client := roundtrip_gateway |}.

Definition roundtrip_recorded : BankingDataCollector (Recorder Scripted) :=
  {| objects := roundtrip_objects;
     client := {| inner := roundtrip_gateway; journal := [] |} |}.

(** Three accounts; the balances fetch of the second one fails. *)
Definition three_accounts : store :=
  <[5%positive := {[ "id" := VStr "a3" ]}]> roundtrip_objects.

Definition second_balances_fail : BankingDataCollector (Recorder Scripted) :=
  {| objects := three_accounts;
     client := {|
       inner := {|
         scripted_async := false;
         replies := [Returns (VRef 1);
                     Returns (VList [VRef 2; VRef 3; VRef 5]);
                     Returns (VList [VRef 4]); Returns (VList []);
                     Raises (HTTPError "500 Server Error")] |};
       journal := [] |} |}.

(** A token endpoint that answers 200 with [{token_type: bearer}] (the
    object at address 1) and no [access_token]. *)
Definition tokenless_objects : store :=
  <[1%positive := {[ "token_type" := VStr "bearer" ]}]> ∅.

Definition tokenless_session : list (outcome response) :=
  [Returns {| raise_for_status := None; json := Returns (VRef 1) |}].

Definition tokenless_client : BankingAPIClient (list (outcome response)) :=
  set_session (__init__ "https://bank.example/" "mdupuis" "111111" false)
              (Some tokenless_session).

(** A token endpoint that answers with [{access_token: tok-1}] (the object
    at address 1), then an identity endpoint that answers with the object at
    address 2. *)
Definition login_objects : store :=
  <[1%positive := {[ "access_token" := VStr "tok-1" ]}]>
  (<[2%positive := {[ "id" := VStr "u1" ]}]> ∅).

Definition login_session : Wiretap (list (outcome response)) := {|
  wire := [Returns {| raise_for_status := None; json := Returns (VRef 1) |};
           Returns {| raise_for_status := None; json := Returns (VRef 2) |}];
  sent := []
|}.

Definition login_client : BankingAPIClient (Wiretap (list (outcome response))) :=
  set_session (__init__ "https://bank.example/" "mdupuis" "111111" false)
              (Some login_session).

(** A client that is constructed and used without entering its context, and
    a suspending-mode client inside its context. *)
Definition unentered_client : BankingAPIClient (list (outcome response)) :=
  __init__ "https://bank.example/" "mdupuis" "111111" false.

Definition suspending_client : BankingAPIClient (list (outcome response)) :=
  (__aenter__ (SE := Scripted_Session)
     (__init__ "https://bank.example/" "agribard" "222222" true)).2.

(** An authenticated blocking client whose account list holds a record
    without [id] (the object at address 1); the session answers the balances
    request with [[]] and the transactions request with [[]]. *)
Definition anonymous_account : BankingDataCollector
                                 (BankingAPIClient
                                    (Wiretap (list (outcome response)))) := {|
  objects := <[1%positive := {[ "name" := VStr "Compte Carte" ]}]> ∅;
  client :=
    set_token
      (set_session (__init__ "https://bank.example/" "mdupuis" "111111" false)
         (Some {| wire := [Returns {| raise_for_status := None;
                                      json := Returns (VList []) |};
                           Returns {| raise_for_status := None;
                                      json := Returns (VList []) |}];
                  sent := [] |}))
      (VStr "tok-1")
|}.

(** A whole run over such a record: an authenticated blocking client whose
    session answers the identity request with the object at address 2, the
    account request with the one-record list [[{name: Compte Carte}]] (the
    object at address 1, without [id]), and the two requests for that
    account with [[]]. *)
Definition anonymous_roundtrip
  : BankingDataCollector
      (BankingAPIClient (Wiretap (list (outcome response)))) := {|
  objects := <[1%positive := {[ "name" := VStr "Compte Carte" ]}]>
             (<[2%positive := {[ "id" := VStr "u1" ]}]> ∅);
  client :=
    set_token
      (set_session (__init__ "https://bank.example/" "mdupuis" "111111" false)
         (Some {| wire := (λ v, Returns {| raise_for_status := None;
                                           json := Returns v |})
                          <$> [VRef 2; VList [VRef 1]; VList []; VList []];
                  sent := [] |}))
      (VStr "tok-1")
|}.

(** ** Further vocabulary *)

(** [n] copies of one character. *)
Fixpoint repeat_char (c : Ascii.ascii) (n : nat) : string :=
  match n with
  | O => ""
  | S n' => String c (repeat_char c n')
  end.

(** The path of each fetch method, in the order of [blocking_fetches] and
    [suspending_fetches]. *)
Definition fetch_paths {PY : Builtins} (st : store) (account_id : value)
  : list string :=
  ["/stet/identity";
   "/stet/account";
   "/stet/account/" +:+ py_str st account_id;
   "/stet/account/" +:+ py_str st account_id +:+ "/balance";
   "/stet/account/" +:+ py_str st account_id +:+ "/transaction"].

(** What a fetch makes of the session's answer. *)
Definition fetch_result (o : outcome response) : outcome value :=
  match o with
  | Raises e => Raises e
  | Returns r => match raise_for_status r with
                 | Some e => Raises e
                 | None => json r
                 end
  end.

(** The same client in the other mode. *)
Definition set_use_async {W} (self : BankingAPIClient W) (x : bool)
  : BankingAPIClient W :=
  {| base_url := base_url self; username := username self;
     password := password self; use_async := x;
     session := session self; token := token self;
     token_type := token_type self |}.

(** Values whose [str] does not depend on the store. *)
Definition scalar (v : value) : bool :=
  match v with
  | VList _ | VRef _ => false
  | _ => true
  end.

(** The two requests made for one account. *)
Definition account_requests {PY : Builtins} (base : string) (hdrs : headers)
    (st : store) (account : value) : list request :=
  [GET (base +:+ "/stet/account/" +:+ py_str st (account_id st account)
        +:+ "/balance") hdrs;
   GET (base +:+ "/stet/account/" +:+ py_str st (account_id st account)
        +:+ "/transaction") hdrs].

(** Two methods, on two kinds of client, that end alike from clients related
    by [R] and leave them related. *)
Definition simulates {G G' : Type} (R : G → G' → Prop)
    (m : store → M G value) (m' : store → M G' value) : Prop :=
  ∀ st g g', R g g' →
             (m st g).1 = (m' st g').1 ∧ R (m st g).2 (m' st g').2.

(** A blocking client and the same client in suspending mode. *)
Definition mirror {W} (c c' : BankingAPIClient W) : Prop :=
  use_async c = false ∧ c' = set_use_async c true.

(** A blocking client that holds the token [tok] of type [kind], both
    strings, and has base URL [base]. *)
Definition ready {W} (base kind tok : string) (c : BankingAPIClient W)
  : Prop :=
  use_async c = false ∧ base_url c = base ∧
  token_type c = VStr kind ∧ token c = VStr tok.

(** A token endpoint that answers 200 with [{access_token: ""}] (the object
    at address 1). *)
Definition empty_token_objects : store :=
  <[1%positive := {[ "access_token" := VStr "" ]}]> ∅.

(** A token endpoint that answers 200 with
    [{access_token: tok-1, token_type: null}] (the object at address 1). *)
Definition null_type_objects : store :=
  <[1%positive := {[ "access_token" := VStr "tok-1";
                     "token_type" := VNone ]}]> ∅.

(** The client of [anonymous_account]: authenticated, blocking, its session
    open. *)
Definition authenticated_client
  : BankingAPIClient (Wiretap (list (outcome response))) :=
  client anonymous_account.

(** The round trip and the failing run, in suspending mode. *)
Definition roundtrip_async : BankingDataCollector Scripted :=
  {| objects := roundtrip_objects;
     client := {| scripted_async := true;
                  replies := replies roundtrip_gateway |} |}.

Definition roundtrip_async_recorded : BankingDataCollector (Recorder Scripted) :=
  {| objects := roundtrip_objects;
     client := {| inner := client roundtrip_async; journal := [] |} |}.

Definition second_balances_fail_async
  : BankingDataCollector (Recorder Scripted) :=
  {| objects := three_accounts;
     client := {|
       inner := {| scripted_async := true;
                   replies := replies (inner (client second_balances_fail)) |};
       journal := [] |} |}.

(** One account; its balances are fetched, its transactions fetch fails. *)
Definition transactions_fail : BankingDataCollector Scripted :=
  {| objects := roundtrip_objects;
     client := {| scripted_async := false;
                  replies := [Returns (VRef 1); Returns (VList [VRef 2]);
                              Returns (VList [VRef 4]);
                              Raises (HTTPError "500 Server Error")] |} |}.

(** An account list whose second element is a string, not an object. *)
Definition string_in_list : BankingDataCollector Scripted :=
  {| objects := roundtrip_objects;
     client := {| scripted_async := false;
                  replies := [Returns (VRef 1);
                              Returns (VList [VRef 2; VStr "a2"]);
                              Returns (VList [VRef 4]);
                              Returns (VList [])] |} |}.

(** An account endpoint that answers [null]. *)
Definition null_account_list : BankingDataCollector Scripted :=
  {| objects := roundtrip_objects;
     client := {| scripted_async := false;
                  replies := [Returns (VRef 1); Returns VNone] |} |}.

(** The round trip on a real client: authenticated, blocking, its session
    answering the six requests of the run in turn. *)
Definition wired_roundtrip
  : BankingDataCollector
      (BankingAPIClient (Wiretap (list (outcome response)))) := {|
  objects := roundtrip_objects;
  client :=
    set_token
      (set_session (__init__ "https://bank.example/" "mdupuis" "111111" false)
         (Some {| wire := (λ v, Returns {| raise_for_status := None;
                                           json := Returns v |})
                          <$> [VRef 1; VList [VRef 2; VRef 3];
                               VList [VRef 4]; VList [];
                               VList [VRef 4]; VList []];
                  sent := [] |}))
      (VStr "tok-1")
|}.

(** * Properties *)


Section Loop.
Context {G : Type} {GW : Gateway G}.
Implicit Types (s : BankingDataCollector G) (gb gt : value → store → M G value).

Lemma for_each_account_cons gb gt a rest s out s' :
  for_each_account gb gt (a :: rest) s = (out, s') →
  (∃ e, py_get (objects s) a "id" VNone = Raises e ∧ out = Raises e ∧ s' = s)
  ∨ ∃ l, a = VRef l ∧
      let st := objects s in
      let id := account_id st a in
      (∃ e g1, gb id st (client s) = (Raises e, g1) ∧ out = Raises e ∧
               s' = {| objects := st; client := g1 |})
      ∨ ∃ b g1, gb id st (client s) = (Returns b, g1) ∧
          let st1 := attach st l "balances" b in
          (∃ e g2, gt id st1 g1 = (Raises e, g2) ∧ out = Raises e ∧
                   s' = {| objects := st1; client := g2 |})
          ∨ ∃ t g2, gt id st1 g1 = (Returns t, g2) ∧
              for_each_account gb gt rest
                {| objects := attach st1 l "transactions" t; client := g2 |}
              = (out, s').
Proof.
  intros Hrun. cbn [for_each_account] in Hrun.
  unfold bind at 1 in Hrun. unfold get_item in Hrun.
  destruct (py_get (objects s) a "id" VNone) as [id|e] eqn:Hid.
  2:{ left. exists e. by inversion Hrun. }
  right. destruct a; try discriminate Hid. exists l. split; [done|].
  cbn in Hid. injection Hid as <-. cbn zeta.
  unfold bind at 1 in Hrun. unfold call at 1 in Hrun.
  change (account_id (objects s) (VRef l)) with (default VNone (deref (objects s) l !! "id")).
  unfold default.
  destruct (gb _ (objects s) (client s)) as [[b|e] g1] eqn:Hb.
  2:{ left. exists e, g1. by inversion Hrun. }
  right. exists b, g1. split; [done|].
  unfold bind at 1 in Hrun. unfold set_item at 1 in Hrun. cbn in Hrun.
  unfold bind at 1 in Hrun. unfold call at 1 in Hrun. cbn in Hrun.
  fold (attach (objects s) l "balances" b) in Hrun.
  destruct (gt _ _ g1) as [[t|e] g2] eqn:Ht.
  2:{ left. exists e, g2. by inversion Hrun. }
  right. exists t, g2. split; [done|].
  exact Hrun.
Qed.

Lemma call_inv {A} (m : store → M G A) s o s' :
  call m s = (o, s') →
  ∃ g, m (objects s) (client s) = (o, g) ∧
       s' = {| objects := objects s; client := g |}.
Proof.
  unfold call. destruct (m (objects s) (client s)) as [o' g] eqn:Hm.
  intros [= <- <-]. by exists g.
Qed.
End Loop.

Lemma deref_attach_eq st l key x :
  deref (attach st l key x) l = <[key := x]> (deref st l).
Proof. unfold attach, deref at 1. by rewrite lookup_insert_eq. Qed.

Lemma deref_attach_ne st l l' key x :
  l ≠ l' → deref (attach st l key x) l' = deref st l'.
Proof. intros. unfold attach, deref at 1. by rewrite lookup_insert_ne. Qed.

Lemma grows_refl items st : grows items st st.
Proof. by intros l. Qed.

Lemma grows_attach st l key x :
  key = "balances" ∨ key = "transactions" →
  grows [VRef l] st (attach st l key x).
Proof.
  intros Hkey l'. split_and!.
  - intros Hl. unfold attach. rewrite lookup_insert_ne; [done|].
    intros ->. apply Hl. by left.
  - intros k Hb Ht. destruct (decide (l = l')) as [->|Hne].
    + rewrite deref_attach_eq, lookup_insert_ne; [done|].
      by destruct Hkey as [-> | ->].
    + by rewrite deref_attach_ne.
  - intros k Hk. destruct (decide (l = l')) as [->|Hne].
    + rewrite deref_attach_eq. destruct (decide (key = k)) as [->|].
      * rewrite lookup_insert_eq. eauto.
      * by rewrite lookup_insert_ne.
    + by rewrite deref_attach_ne.
Qed.

Lemma grows_trans items1 items2 items st1 st2 st3 :
  grows items1 st1 st2 → grows items2 st2 st3 →
  items1 ⊆ items → items2 ⊆ items →
  grows items st1 st3.
Proof.
  intros H12 H23 Hs1 Hs2 l.
  destruct (H12 l) as (Ha & Hb & Hc), (H23 l) as (Ha' & Hb' & Hc').
  split_and!.
  - intros Hl. rewrite Ha', Ha; [done| |]; intros ?; apply Hl; auto.
  - intros k ? ?. rewrite Hb', Hb; done.
  - intros k ?. auto.
Qed.

Section Loop2.
Context {G : Type} {GW : Gateway G}.
Implicit Types (s : BankingDataCollector G) (gb gt : value → store → M G value).

Lemma for_each_account_grows gb gt items s out s' :
  for_each_account gb gt items s = (out, s') →
  grows items (objects s) (objects s').
Proof.
  revert s. induction items as [|a rest IH]; intros s Hrun.
  - injection Hrun as <- <-. apply grows_refl.
  - apply for_each_account_cons in Hrun
      as [(e & _ & _ & ->)|(l & -> & [(e & g1 & _ & _ & ->)|(b & g1 & _ & Hrun)])];
      [apply grows_refl..|].
    cbn zeta in Hrun.
    destruct Hrun as [(e & g2 & _ & _ & ->)|(t & g2 & _ & Hrun)].
    + cbn. eapply (grows_trans [VRef l] []);
        [by apply grows_attach; left|apply grows_refl|(intros x; rewrite ?elem_of_cons, ?elem_of_nil; tauto)..].
    + apply IH in Hrun. cbn in Hrun.
      eapply (grows_trans [VRef l] rest); [|exact Hrun|(intros x; rewrite ?elem_of_cons, ?elem_of_nil; tauto)..].
      eapply (grows_trans [VRef l] [VRef l]);
        [apply grows_attach; by left|apply grows_attach; by right|done..].
Qed.
End Loop2.

Lemma grows_account_id items st st' a :
  grows items st st' → account_id st' a = account_id st a.
Proof.
  intros Hg. destruct a; try done. cbn.
  destruct (Hg l) as (_ & Hk & _). by rewrite Hk.
Qed.

Lemma fetch_log_ext st st' items fetched :
  (∀ a, account_id st' a = account_id st a) →
  fetch_log st' items fetched = fetch_log st items fetched.
Proof.
  intros Hid. revert fetched.
  induction items as [|a items IH]; intros [|[b t] fetched]; try done.
  cbn. by rewrite Hid, IH.
Qed.

Lemma recorded_inv {G} f (m : store → M G value) st (r : Recorder G) o r' :
  recorded f m st r = (o, r') →
  ∃ g, m st (inner r) = (o, g) ∧
       r' = {| inner := g; journal := journal r ++ [(f, o)] |}.
Proof.
  unfold recorded. destruct (m st (inner r)) as [o' g].
  intros [= <- <-]. by exists g.
Qed.

Section Recorded.
Context {G : Type} {GW : Gateway G}.
Implicit Types (s : BankingDataCollector (Recorder G)).
Implicit Types (gb gt : value → store → M G value).

Lemma recorded_loop_returns gb gt items s s' :
  recorded_loop gb gt items s = (Returns tt, s') →
  ∃ fetched,
    length fetched = length items ∧
    journal (client s') =
      journal (client s) ++ fetch_log (objects s) items fetched ∧
    ∀ i a b t,
      items !! i = Some a → fetched !! i = Some (b, t) →
      ∃ l, a = VRef l ∧
           is_Some (deref (objects s') l !! "balances") ∧
           is_Some (deref (objects s') l !! "transactions") ∧
           (VRef l ∉ drop (S i) items →
            deref (objects s') l !! "balances" = Some b ∧
            deref (objects s') l !! "transactions" = Some t).
Proof.
  revert s. induction items as [|a rest IH]; intros s Hrun.
  - injection Hrun as <-. exists []. split_and!; [done|by rewrite app_nil_r|].
    intros i a b t Hi. by rewrite lookup_nil in Hi.
  - apply for_each_account_cons in Hrun
      as [(e & _ & [=] & _)|(l & -> & [(e & g1 & _ & [=] & _)|(b & g1 & Hb & Hrun)])].
    cbn zeta in Hrun.
    destruct Hrun as [(e & g2 & _ & [=] & _)|(t & g2 & Ht & Hrun)].
    apply recorded_inv in Hb as (g1' & Hb & ->).
    apply recorded_inv in Ht as (g2' & Ht & ->). cbn in Ht.
    pose proof (for_each_account_grows _ _ _ _ _ _ Hrun) as Hgrow.
    apply IH in Hrun as (fetched & Hlen & Hj & Hat). cbn in Hj, Hat, Hgrow.
    set (st2 := attach (attach (objects s) l "balances" b) l "transactions" t)
      in *.
    assert (grows [VRef l] (objects s) st2) as Hg2.
    { eapply (grows_trans [VRef l] [VRef l]);
        [apply grows_attach; by left|apply grows_attach; by right|done..]. }
    exists ((b, t) :: fetched). split_and!.
    + cbn. by rewrite Hlen.
    + rewrite Hj. cbn [fetch_log]. rewrite <- !app_assoc. cbn.
      do 3 f_equal. apply fetch_log_ext. intros a.
      eapply grows_account_id, Hg2.
    + intros [|i] a b' t' Hi Hf; cbn in Hi, Hf.
      * injection Hi as <-. injection Hf as <- <-. exists l.
        destruct (Hgrow l) as (Hother & _ & Hsome).
        assert (deref st2 l !! "balances" = Some b) as Hb2.
        { unfold st2. rewrite deref_attach_eq, lookup_insert_ne by done.
          by rewrite deref_attach_eq, lookup_insert_eq. }
        assert (deref st2 l !! "transactions" = Some t) as Ht2.
        { unfold st2. by rewrite deref_attach_eq, lookup_insert_eq. }
        split_and!; [done|apply Hsome; eauto..|].
        cbn. intros Hl.
        assert (deref (objects s') l = deref st2 l) as ->; [|done].
        unfold deref. by rewrite (Hother Hl).
      * apply (Hat i a b' t' Hi Hf).
Qed.

Lemma aborts_nil {A} (out : outcome A) : aborts_on_first_failure [] out.
Proof. intros [|??] ???; discriminate. Qed.

Lemma aborts_failure {A} f e : aborts_on_first_failure (A:=A) [(f, Raises e)] (Raises e).
Proof.
  intros [|? [|??]] f' e' post; cbn; intros [=]; subst; done.
Qed.

Lemma aborts_cons_returns {A} f v new (out : outcome A) :
  aborts_on_first_failure new out →
  aborts_on_first_failure ((f, Returns v) :: new) out.
Proof.
  intros Hnew [|c pre] f' e post; cbn; intros [=]; subst.
  eapply Hnew; done.
Qed.

Lemma recorded_loop_aborts gb gt items s out s' :
  recorded_loop gb gt items s = (out, s') →
  ∃ new, journal (client s') = journal (client s) ++ new ∧
         aborts_on_first_failure new out.
Proof.
  revert s. induction items as [|a rest IH]; intros s Hrun.
  - injection Hrun as <- <-. exists []. split; [by rewrite app_nil_r|].
    apply aborts_nil.
  - apply for_each_account_cons in Hrun
      as [(e & _ & -> & ->)|(l & -> & [(e & g1 & Hb & -> & ->)|(b & g1 & Hb & Hrun)])].
    + exists []. split; [by rewrite app_nil_r|apply aborts_nil].
    + apply recorded_inv in Hb as (g1' & Hb & ->). cbn.
      eexists. split; [done|apply aborts_failure].
    + cbn zeta in Hrun. apply recorded_inv in Hb as (g1' & Hb & ->).
      destruct Hrun as [(e & g2 & Ht & -> & ->)|(t & g2 & Ht & Hrun)];
        apply recorded_inv in Ht as (g2' & Ht & ->); cbn in Ht.
      * cbn. rewrite <- app_assoc. eexists. split; [done|].
        cbn. apply aborts_cons_returns, aborts_failure.
      * apply IH in Hrun as (new & Hj & Hnew). cbn in Hj.
        rewrite Hj, <- !app_assoc. eexists. split; [done|].
        cbn. by do 2 apply aborts_cons_returns.
Qed.
End Recorded.

Lemma account_fetches_ext st st' items :
  (∀ a, account_id st' a = account_id st a) →
  items ≫= account_fetches st' = items ≫= account_fetches st.
Proof.
  intros Hid. induction items as [|a items IH]; [done|].
  cbn. rewrite IH. unfold account_fetches. by rewrite Hid.
Qed.

Lemma fetch_log_fetches st items fetched :
  length fetched = length items →
  (fetch_log st items fetched).*1 = items ≫= account_fetches st.
Proof.
  revert fetched. induction items as [|a items IH]; intros [|[b t] fetched];
    try done.
  cbn. intros [= Hlen]. by rewrite IH.
Qed.

Section Aggregate.
Context {G : Type} {GW : Gateway G}.
Implicit Types (s : BankingDataCollector G).

Lemma collect_all_data_sync s :
  gw_use_async (client s) = false →
  collect_all_data s =
    aggregate gw_get_identity gw_get_accounts
              gw_get_balances gw_get_transactions s.
Proof.
  intros Hmode. unfold collect_all_data. unfold bind at 1, this.
  by rewrite Hmode.
Qed.

Lemma collect_all_data_async_async s :
  gw_use_async (client s) = true →
  collect_all_data_async s =
    aggregate gw_get_identity_async gw_get_accounts_async
              gw_get_balances_async gw_get_transactions_async s.
Proof.
  intros Hmode. unfold collect_all_data_async. unfold bind at 1, this.
  by rewrite Hmode.
Qed.

Lemma aggregate_inv gi ga gb gt s out s' :
  aggregate gi ga gb gt s = (out, s') →
  let st := objects s in
  (∃ e g1, gi st (client s) = (Raises e, g1) ∧ out = Raises e ∧
           s' = {| objects := st; client := g1 |})
  ∨ ∃ identity g1, gi st (client s) = (Returns identity, g1) ∧
      ((∃ e g2, ga st g1 = (Raises e, g2) ∧ out = Raises e ∧
                s' = {| objects := st; client := g2 |})
       ∨ ∃ accounts g2, ga st g1 = (Returns accounts, g2) ∧
           ((∃ e, py_iter st accounts = Raises e ∧ out = Raises e ∧
                  s' = {| objects := st; client := g2 |})
            ∨ ∃ items o, py_iter st accounts = Returns items ∧
                for_each_account gb gt items
                  {| objects := st; client := g2 |} = (o, s') ∧
                out = match o with
                      | Returns _ =>
                          Returns {[ "identity" := identity;
                                     "accounts" := accounts ]}
                      | Raises e => Raises e
                      end)).
Proof.
  intros Hrun st. unfold aggregate, bind, call, iterate, ret in Hrun.
  fold st in Hrun.
  destruct (gi st (client s)) as [[identity|e] g1] eqn:Hi.
  2:{ left. exists e, g1. by inversion Hrun. }
  right. exists identity, g1. split; [done|]. cbn in Hrun. fold st in Hrun.
  destruct (ga st g1) as [[accounts|e] g2] eqn:Ha.
  2:{ left. exists e, g2. by inversion Hrun. }
  right. exists accounts, g2. split; [done|]. cbn in Hrun. fold st in Hrun.
  destruct (py_iter st accounts) as [items|e] eqn:Hit.
  2:{ left. exists e. by inversion Hrun. }
  right. exists items.
  destruct (for_each_account gb gt items _) as [[[]|e] s1] eqn:Hloop.
  - exists (Returns tt). by inversion Hrun.
  - exists (Raises e). by inversion Hrun.
Qed.
End Aggregate.

Section RecordedAggregate.
Context {G : Type} {GW : Gateway G}.
Implicit Types (s : BankingDataCollector (Recorder G)).
Implicit Types (gi ga : store → M G value).
Implicit Types (gb gt : value → store → M G value).

Lemma recorded_aggregate_aborts gi ga gb gt s out s' :
  recorded_run gi ga gb gt s = (out, s') →
  ∃ new, journal (client s') = journal (client s) ++ new ∧
         aborts_on_first_failure new out.
Proof.
  intros Hrun. apply aggregate_inv in Hrun. cbn zeta in Hrun.
  destruct Hrun as [(e & g1 & Hi & -> & ->)|(identity & g1 & Hi & Hrun)];
    apply recorded_inv in Hi as (g1' & Hi & ->).
  { eexists. split; [done|apply aborts_failure]. }
  destruct Hrun as [(e & g2 & Ha & -> & ->)|(accounts & g2 & Ha & Hrun)];
    apply recorded_inv in Ha as (g2' & Ha & ->); cbn in Ha.
  { cbn. rewrite <- app_assoc. eexists. split; [done|].
    apply aborts_cons_returns, aborts_failure. }
  destruct Hrun as [(e & _ & -> & ->)|(items & o & _ & Hloop & ->)].
  { cbn. rewrite <- app_assoc. eexists. split; [done|].
    do 2 apply aborts_cons_returns. apply aborts_nil. }
  apply recorded_loop_aborts in Hloop as (new & Hj & Hnew). cbn in Hj.
  rewrite Hj, <- !app_assoc. eexists. split; [done|].
  cbn. do 2 apply aborts_cons_returns.
  intros pre f e post Heq. destruct (Hnew pre f e post Heq) as [-> ->].
  done.
Qed.
End RecordedAggregate.

Section LoopPresence.
Context {G : Type}.
Implicit Types (s : BankingDataCollector G).
Implicit Types (gb gt : value → store → M G value).

Lemma grows_attach_both st l b t :
  grows [VRef l] st (attach (attach st l "balances" b) l "transactions" t).
Proof.
  eapply (grows_trans [VRef l] [VRef l]);
    [apply grows_attach; by left|apply grows_attach; by right|done..].
Qed.

Lemma for_each_account_attaches gb gt items s s' :
  for_each_account gb gt items s = (Returns tt, s') →
  ∀ a, a ∈ items →
       ∃ l, a = VRef l ∧
            is_Some (deref (objects s') l !! "balances") ∧
            is_Some (deref (objects s') l !! "transactions").
Proof.
  revert s. induction items as [|a rest IH]; intros s Hrun a' Hin.
  { by apply elem_of_nil in Hin. }
  apply for_each_account_cons in Hrun
    as [(e & _ & [=] & _)|(l & -> & [(e & g1 & _ & [=] & _)|(b & g1 & _ & Hrun)])].
  cbn zeta in Hrun.
  destruct Hrun as [(e & g2 & _ & [=] & _)|(t & g2 & _ & Hrun)].
  apply elem_of_cons in Hin as [->|Hin]; [|by eapply IH].
  exists l. split; [done|].
  apply for_each_account_grows in Hrun. cbn in Hrun.
  destruct (Hrun l) as (_ & _ & Hsome).
  split; apply Hsome.
  - rewrite deref_attach_eq, lookup_insert_ne by done.
    rewrite deref_attach_eq, lookup_insert_eq. eauto.
  - rewrite deref_attach_eq, lookup_insert_eq. eauto.
Qed.

Lemma aggregate_in_place (gi ga : store → M G value) gb gt s r s' :
  aggregate gi ga gb gt s = (Returns r, s') →
  ∃ identity g1 accounts g2 items,
    gi (objects s) (client s) = (Returns identity, g1) ∧
    ga (objects s) g1 = (Returns accounts, g2) ∧
    r = {[ "identity" := identity; "accounts" := accounts ]} ∧
    py_iter (objects s) accounts = Returns items ∧
    grows items (objects s) (objects s') ∧
    ∀ a, a ∈ items →
         ∃ l, a = VRef l ∧
              is_Some (deref (objects s') l !! "balances") ∧
              is_Some (deref (objects s') l !! "transactions").
Proof.
  intros Hrun. apply aggregate_inv in Hrun. cbn zeta in Hrun.
  destruct Hrun as [(e & g1 & _ & [=] & _)|(identity & g1 & Hi & Hrun)].
  destruct Hrun as [(e & g2 & _ & [=] & _)|(accounts & g2 & Ha & Hrun)].
  destruct Hrun as [(e & _ & [=] & _)|(items & o & Hit & Hloop & Hout)].
  destruct o as [[]|e]; [|done]. injection Hout as ->.
  exists identity, g1, accounts, g2, items. split_and!; try done.
  - by apply for_each_account_grows in Hloop.
  - by eapply for_each_account_attaches.
Qed.
End LoopPresence.

Section RecordedOrder.
Context {G : Type}.
Implicit Types (s : BankingDataCollector (Recorder G)).
Implicit Types (gi ga : store → M G value).
Implicit Types (gb gt : value → store → M G value).

Lemma recorded_loop_order gb gt items s out s' :
  recorded_loop gb gt items s = (out, s') →
  ∃ new, journal (client s') = journal (client s) ++ new ∧
         new.*1 `prefix_of` items ≫= account_fetches (objects s) ∧
         (out = Returns tt → new.*1 = items ≫= account_fetches (objects s)).
Proof.
  revert s. induction items as [|a rest IH]; intros s Hrun.
  - injection Hrun as <- <-. exists []. by rewrite app_nil_r.
  - apply for_each_account_cons in Hrun
      as [(e & _ & -> & ->)|(l & -> & [(e & g1 & Hb & -> & ->)|(b & g1 & Hb & Hrun)])].
    + exists []. rewrite app_nil_r. split_and!; [done|apply prefix_nil|done].
    + apply recorded_inv in Hb as (g1' & Hb & ->). cbn.
      eexists. split_and!; [done| |done].
      cbn. apply prefix_cons, prefix_nil.
    + cbn zeta in Hrun. apply recorded_inv in Hb as (g1' & Hb & ->).
      destruct Hrun as [(e & g2 & Ht & -> & ->)|(t & g2 & Ht & Hrun)];
        apply recorded_inv in Ht as (g2' & Ht & ->); cbn in Ht.
      * cbn. rewrite <- app_assoc. eexists. split_and!; [done| |done].
        cbn. do 2 apply prefix_cons. apply prefix_nil.
      * apply IH in Hrun as (new & Hj & Hpre & Heq). cbn in Hj, Hpre, Heq.
        rewrite (account_fetches_ext (objects s)) in Hpre, Heq
          by (intros a; eapply grows_account_id, grows_attach_both).
        rewrite Hj, <- !app_assoc. eexists. split_and!; [done|..].
        -- cbn. by do 2 apply prefix_cons.
        -- intros Hout. cbn. by rewrite Heq.
Qed.

Lemma recorded_aggregate_order gi ga gb gt s out s' :
  recorded_run gi ga gb gt s = (out, s') →
  ∃ new items,
    journal (client s') = journal (client s) ++ new ∧
    new.*1 `prefix_of` fetch_order (objects s) items ∧
    (∀ accounts its,
       new !! 1 = Some (Accounts, Returns accounts) →
       py_iter (objects s) accounts = Returns its → items = its) ∧
    (∀ r, out = Returns r →
          new.*1 = fetch_order (objects s) items ∧
          ∃ accounts, r !! "accounts" = Some accounts ∧
                      py_iter (objects s) accounts = Returns items).
Proof.
  intros Hrun. apply aggregate_inv in Hrun. cbn zeta in Hrun.
  destruct Hrun as [(e & g1 & Hi & -> & ->)|(identity & g1 & Hi & Hrun)];
    apply recorded_inv in Hi as (g1' & Hi & ->).
  { exists [(Identity, Raises e)], []. split_and!; try done.
    cbn. apply prefix_cons, prefix_nil. }
  destruct Hrun as [(e & g2 & Ha & -> & ->)|(accounts & g2 & Ha & Hrun)];
    apply recorded_inv in Ha as (g2' & Ha & ->); cbn in Ha.
  { exists [(Identity, Returns identity); (Accounts, Raises e)], [].
    cbn. rewrite <- app_assoc. split_and!; try done. }
  destruct Hrun as [(e & Hit & -> & ->)|(items & o & Hit & Hloop & ->)].
  { exists [(Identity, Returns identity); (Accounts, Returns accounts)], [].
    cbn. rewrite <- app_assoc. split_and!; try done.
    intros ? ? [= <-]. by rewrite Hit. }
  apply recorded_loop_order in Hloop as (new & Hj & Hpre & Heq).
  cbn in Hj, Hpre, Heq.
  exists ((Identity, Returns identity) :: (Accounts, Returns accounts) :: new),
         items.
  rewrite Hj, <- !app_assoc. split_and!; [done|..].
  - cbn. by do 2 apply prefix_cons.
  - intros ? ? [= <-]. rewrite Hit. by intros [= <-].
  - intros r Hr. destruct o as [[]|e]; [|done]. injection Hr as <-.
    split; [cbn; by rewrite Heq|]. exists accounts. split; [|done].
    rewrite lookup_insert_ne by done. by rewrite lookup_singleton_eq.
Qed.

Lemma recorded_aggregate_returns gi ga gb gt s r s' :
  recorded_run gi ga gb gt s = (Returns r, s') →
  ∃ identity accounts items fetched,
    r = {[ "identity" := identity; "accounts" := accounts ]} ∧
    py_iter (objects s) accounts = Returns items ∧
    length fetched = length items ∧
    journal (client s') =
      journal (client s)
      ++ (Identity, Returns identity) :: (Accounts, Returns accounts)
      :: fetch_log (objects s) items fetched ∧
    ∀ i a b t,
      items !! i = Some a → fetched !! i = Some (b, t) →
      ∃ l, a = VRef l ∧
           is_Some (deref (objects s') l !! "balances") ∧
           is_Some (deref (objects s') l !! "transactions") ∧
           (VRef l ∉ drop (S i) items →
            deref (objects s') l !! "balances" = Some b ∧
            deref (objects s') l !! "transactions" = Some t).
Proof.
  intros Hrun. apply aggregate_inv in Hrun. cbn zeta in Hrun.
  destruct Hrun as [(e & g1 & _ & [=] & _)|(identity & g1 & Hi & Hrun)].
  apply recorded_inv in Hi as (g1' & Hi & ->).
  destruct Hrun as [(e & g2 & _ & [=] & _)|(accounts & g2 & Ha & Hrun)].
  apply recorded_inv in Ha as (g2' & Ha & ->); cbn in Ha.
  destruct Hrun as [(e & _ & [=] & _)|(items & o & Hit & Hloop & Hout)].
  destruct o as [[]|e]; [|done]. injection Hout as ->.
  apply recorded_loop_returns in Hloop as (fetched & Hlen & Hj & Hat).
  cbn in Hj, Hat.
  exists identity, accounts, items, fetched. split_and!; try done.
  by rewrite Hj, <- !app_assoc.
Qed.
End RecordedOrder.

Lemma aborts_prefix_returns {A} new (out : outcome A) pre f e post :
  aborts_on_first_failure new out →
  new = pre ++ (f, Raises e) :: post →
  Forall (λ c, ∃ v, c.2 = Returns v) pre.
Proof.
  intros Hnew ->. apply Forall_forall. intros [f' [v|e']] Hin; [by exists v|].
  apply list_elem_of_split in Hin as (p1 & p2 & ->).
  destruct (Hnew p1 f' e' (p2 ++ (f, Raises e) :: post)) as [Hnil _].
  { by rewrite <- app_assoc. }
  by destruct p2.
Qed.

Section RecordedProgress.
Context {G : Type}.
Implicit Types (s : BankingDataCollector (Recorder G)).
Implicit Types (gi ga : store → M G value).
Implicit Types (gb gt : value → store → M G value).

Lemma recorded_loop_stops gb gt items s out s' :
  recorded_loop gb gt items s = (out, s') →
  ∃ new, journal (client s') = journal (client s) ++ new ∧
         (Forall (λ a, ∃ l, a = VRef l) items →
          out = Returns tt ∨ ∃ pre f e, new = pre ++ [(f, Raises e)]).
Proof.
  revert s. induction items as [|a rest IH]; intros s Hrun.
  - injection Hrun as <- <-. exists []. by rewrite app_nil_r; auto.
  - apply for_each_account_cons in Hrun
      as [(e & He & -> & ->)|(l & -> & [(e & g1 & Hb & -> & ->)|(b & g1 & Hb & Hrun)])].
    + exists []. rewrite app_nil_r. split; [done|].
      intros [[l ->] _]%Forall_cons. discriminate He.
    + apply recorded_inv in Hb as (g1' & Hb & ->). cbn.
      eexists. split; [done|]. intros _. right. by eexists [], _, e.
    + cbn zeta in Hrun. apply recorded_inv in Hb as (g1' & Hb & ->).
      destruct Hrun as [(e & g2 & Ht & -> & ->)|(t & g2 & Ht & Hrun)];
        apply recorded_inv in Ht as (g2' & Ht & ->); cbn in Ht.
      * cbn. rewrite <- app_assoc. eexists. split; [done|]. intros _. right.
        by eexists [_], _, e.
      * apply IH in Hrun as (new & Hj & Hend). cbn in Hj.
        rewrite Hj, <- !app_assoc. eexists. split; [done|].
        intros [_ Hobj]%Forall_cons.
        destruct (Hend Hobj) as [->|(pre & f & e & ->)]; [by left|right].
        by eexists (_ :: _ :: pre), f, e.
Qed.

Lemma last_raises {A B} (pre : list (A * outcome B)) f e g v :
  last (pre ++ [(f, Raises e)]) ≠ Some (g, Returns v).
Proof. by rewrite last_snoc. Qed.

Lemma recorded_aggregate_stops gi ga gb gt s out s' :
  recorded_run gi ga gb gt s = (out, s') →
  ∃ new, journal (client s') = journal (client s) ++ new ∧
    (∃ o, new !! 0 = Some (Identity, o)) ∧
    ∀ f v, last new = Some (f, Returns v) →
      ∃ accounts,
        new !! 1 = Some (Accounts, Returns accounts) ∧
        ∀ its, py_iter (objects s) accounts = Returns its →
               Forall (λ a, ∃ l, a = VRef l) its →
               ∃ r, out = Returns r.
Proof.
  intros Hrun. apply aggregate_inv in Hrun. cbn zeta in Hrun.
  destruct Hrun as [(e & g1 & Hi & -> & ->)|(identity & g1 & Hi & Hrun)];
    apply recorded_inv in Hi as (g1' & Hi & ->).
  { eexists. split_and!; [done|by eexists|done]. }
  destruct Hrun as [(e & g2 & Ha & -> & ->)|(accounts & g2 & Ha & Hrun)];
    apply recorded_inv in Ha as (g2' & Ha & ->); cbn in Ha.
  { cbn. rewrite <- app_assoc. eexists. split_and!; [done|by eexists|done]. }
  destruct Hrun as [(e & Hit & -> & ->)|(items & o & Hit & Hloop & ->)].
  { cbn. rewrite <- app_assoc. eexists. split_and!; [done|by eexists|].
    intros f v _. exists accounts. split; [done|].
    intros its Hits. by rewrite Hit in Hits. }
  apply recorded_loop_stops in Hloop as (new & Hj & Hend). cbn in Hj.
  exists ((Identity, Returns identity) :: (Accounts, Returns accounts) :: new).
  rewrite Hj, <- !app_assoc. split_and!; [done|by eexists|].
  intros f v Hlast. exists accounts. split; [done|].
  intros its Hits Hobj. rewrite Hit in Hits. injection Hits as <-.
  destruct (Hend Hobj) as [->|(pre & f' & e & ->)]; [by eexists|].
  exfalso. revert Hlast.
  change (last (((Identity, Returns identity) :: (Accounts, Returns accounts)
                 :: pre) ++ [(f', Raises e)]) ≠ Some (f, Returns v)).
  apply last_raises.
Qed.

Lemma aborts_all_but_last_return {A} new (out : outcome A) i c :
  aborts_on_first_failure new out →
  new !! i = Some c → S i < length new → ∃ v, c.2 = Returns v.
Proof.
  intros Hnew Hi Hlt. destruct c as [f [v|e]]; [by exists v|].
  pose proof (take_drop_middle new i (f, Raises e) Hi) as Hsplit.
  destruct (Hnew _ f e _ (eq_sym Hsplit)) as [Hpost _].
  apply (f_equal length) in Hpost. rewrite length_drop in Hpost.
  cbn in Hpost. lia.
Qed.
End RecordedProgress.

Section CollectorProperties.
Context {G : Type} {GW : Gateway G}.

(** C1. Against any gateway, a fetch of [collect_all_data] that fails is
    the last fetch of the run: every fetch before it returned, none is
    made after it, and the collector ends by raising that very exception,
    so it returns no result at all. *)
Theorem collect_all_data_aborts_on_first_failure
    (s s' : BankingDataCollector (Recorder G)) (out : outcome dict)
    (pre post : list (fetch * outcome value)) (f : fetch) (e : exn) :
  gw_use_async (client s) = false →
  collect_all_data s = (out, s') →
  journal (client s') = journal (client s) ++ pre ++ (f, Raises e) :: post →
  Forall (λ c, ∃ v, c.2 = Returns v) pre ∧ post = [] ∧ out = Raises e.
Proof.
  intros Hmode Hrun Hj. rewrite collect_all_data_sync in Hrun by done.
  apply recorded_aggregate_aborts in Hrun as (new & Hj' & Hnew).
  rewrite Hj' in Hj. apply app_inv_head in Hj.
  split; [by eapply aborts_prefix_returns|by eapply Hnew].
Qed.

(** C2. Against any gateway, [collect_all_data] (and
    [collect_all_data_async]) makes its fetches one after the other in the
    order identity, account list, then for each account in list order its
    balances and then its transactions. The identity fetch is always made,
    and it is the first; each fetch is made once the one before it has
    returned, and a fetch that returned is followed by the next of the
    sequence until, for a list of account records, the sequence is complete
    and the run returns. So the fetches of any run are an initial part of
    the sequence, and those of a run that returns are the whole of it. *)
Theorem fetches_in_order
    (s s' : BankingDataCollector (Recorder G)) (out : outcome dict) :
  (gw_use_async (client s) = false ∧ collect_all_data s = (out, s')) ∨
  (gw_use_async (client s) = true ∧ collect_all_data_async s = (out, s')) →
  ∃ new items,
    journal (client s') = journal (client s) ++ new ∧
    new.*1 `prefix_of` fetch_order (objects s) items ∧
    (∀ accounts its,
       new !! 1 = Some (Accounts, Returns accounts) →
       py_iter (objects s) accounts = Returns its → items = its) ∧
    (∀ r, out = Returns r →
          new.*1 = fetch_order (objects s) items ∧
          ∃ accounts, r !! "accounts" = Some accounts ∧
                      py_iter (objects s) accounts = Returns items) ∧
    (∃ o, new !! 0 = Some (Identity, o)) ∧
    (∀ i c, new !! i = Some c → S i < length new → ∃ v, c.2 = Returns v) ∧
    (∀ f v, last new = Some (f, Returns v) →
       ∃ accounts,
         new !! 1 = Some (Accounts, Returns accounts) ∧
         ∀ its, py_iter (objects s) accounts = Returns its →
                Forall (λ a, ∃ l, a = VRef l) its →
                new.*1 = fetch_order (objects s) its ∧ ∃ r, out = Returns r).
Proof.
  intros Hrun.
  assert (recorded_run gw_get_identity gw_get_accounts gw_get_balances
            gw_get_transactions s = (out, s') ∨
          recorded_run gw_get_identity_async gw_get_accounts_async
            gw_get_balances_async gw_get_transactions_async s = (out, s'))
    as Hagg.
  { destruct Hrun as [[Hmode Hrun]|[Hmode Hrun]].
    - left. by rewrite collect_all_data_sync in Hrun.
    - right. by rewrite collect_all_data_async_async in Hrun. }
  clear Hrun.
  assert (∃ (gi ga : store → M G value) (gb gt : value → store → M G value),
            recorded_run gi ga gb gt s = (out, s'))
    as (gi & ga & gb & gt & Hrun) by (destruct Hagg; eauto 10).
  clear Hagg.
  destruct (recorded_aggregate_order _ _ _ _ _ _ _ Hrun)
    as (new & items & Hj & Hpre & Hitems & Hret).
  destruct (recorded_aggregate_aborts _ _ _ _ _ _ _ Hrun)
    as (new1 & Hj1 & Habort).
  destruct (recorded_aggregate_stops _ _ _ _ _ _ _ Hrun)
    as (new2 & Hj2 & Hfirst & Hgoes).
  rewrite Hj in Hj1, Hj2.
  apply app_inv_head in Hj1 as <-. apply app_inv_head in Hj2 as <-.
  exists new, items. split_and!; try done.
  - intros i c. by eapply aborts_all_but_last_return.
  - intros f v Hlast. destruct (Hgoes f v Hlast) as (accounts & Hacc & Hout).
    exists accounts. split; [done|]. intros its Hits Hobj.
    destruct (Hout its Hits Hobj) as [r ->]. split; [|by exists r].
    destruct (Hret r eq_refl) as [-> _]. f_equal. by eapply Hitems.
Qed.

(** C3. In the result of a run of [collect_all_data] that returns, every
    account record carries both keys [balances] and [transactions], and
    they hold exactly what the balances fetch and the transactions fetch
    made for that account returned (for a record listed more than once,
    what the fetches made at its last place in the list returned). *)
Theorem collected_accounts_carry_both_fetches
    (s s' : BankingDataCollector (Recorder G)) (r : dict) :
  gw_use_async (client s) = false →
  collect_all_data s = (Returns r, s') →
  ∃ identity accounts items fetched,
    r = {[ "identity" := identity; "accounts" := accounts ]} ∧
    py_iter (objects s) accounts = Returns items ∧
    length fetched = length items ∧
    journal (client s') =
      journal (client s)
      ++ (Identity, Returns identity) :: (Accounts, Returns accounts)
      :: fetch_log (objects s) items fetched ∧
    ∀ i a b t,
      items !! i = Some a → fetched !! i = Some (b, t) →
      ∃ l, a = VRef l ∧
           is_Some (deref (objects s') l !! "balances") ∧
           is_Some (deref (objects s') l !! "transactions") ∧
           (VRef l ∉ drop (S i) items →
            deref (objects s') l !! "balances" = Some b ∧
            deref (objects s') l !! "transactions" = Some t).
Proof.
  intros Hmode Hrun. rewrite collect_all_data_sync in Hrun by done.
  by apply recorded_aggregate_returns in Hrun.
Qed.

(** C4, as the code has it. [collect_all_data] attaches in place: the
    [accounts] of the result is the very value the gateway returned, no
    object outside that list is touched, and each listed record is the
    gateway's own dict object, in which the keys [balances] and
    [transactions] have been set and every other key is as it was. *)
Theorem collect_all_data_attaches_in_place
    (s s' : BankingDataCollector G) (r : dict) :
  gw_use_async (client s) = false →
  collect_all_data s = (Returns r, s') →
  ∃ identity g1 accounts g2 items,
    gw_get_identity (objects s) (client s) = (Returns identity, g1) ∧
    gw_get_accounts (objects s) g1 = (Returns accounts, g2) ∧
    r = {[ "identity" := identity; "accounts" := accounts ]} ∧
    py_iter (objects s) accounts = Returns items ∧
    (∀ l, VRef l ∉ items → objects s' !! l = objects s !! l) ∧
    (∀ l k, k ≠ "balances" → k ≠ "transactions" →
            deref (objects s') l !! k = deref (objects s) l !! k) ∧
    (∀ a, a ∈ items →
          ∃ l, a = VRef l ∧
               is_Some (deref (objects s') l !! "balances") ∧
               is_Some (deref (objects s') l !! "transactions")).
Proof.
  intros Hmode Hrun. rewrite collect_all_data_sync in Hrun by done.
  apply aggregate_in_place in Hrun
    as (identity & g1 & accounts & g2 & items & Hi & Ha & Hr & Hit & Hg & Hat).
  exists identity, g1, accounts, g2, items. split_and!; try done.
  - intros l. by destruct (Hg l) as (? & _ & _).
  - intros l. by destruct (Hg l) as (_ & ? & _).
Qed.
End CollectorProperties.

Lemma collect_all_data_aborts_on_first_failure_witness :
  let run := collect_all_data (GW := Recorder_Gateway (GW := Scripted_Gateway)) second_balances_fail in
  journal (client run.2) =
    [(Identity, Returns (VRef 1));
     (Accounts, Returns (VList [VRef 2; VRef 3; VRef 5]));
     (Balances (VStr "a1"), Returns (VList [VRef 4]));
     (Transactions (VStr "a1"), Returns (VList []));
     (Balances (VStr "a2"), Raises (HTTPError "500 Server Error"))] ∧
  run.1 = Raises (HTTPError "500 Server Error").
Proof.
  split; [vm_compute; reflexivity|].
  refine (proj2 (proj2 (collect_all_data_aborts_on_first_failure
    (GW := Scripted_Gateway) second_balances_fail _ _
    [(Identity, Returns (VRef 1));
     (Accounts, Returns (VList [VRef 2; VRef 3; VRef 5]));
     (Balances (VStr "a1"), Returns (VList [VRef 4]));
     (Transactions (VStr "a1"), Returns (VList []))]
    [] (Balances (VStr "a2")) (HTTPError "500 Server Error") _ _ _)));
    [reflexivity|apply surjective_pairing|vm_compute; reflexivity].
Defined.

Section ClientLemmas.
Context {W : Type} {SE : Session W} {PY : Builtins}.
Implicit Types (c : BankingAPIClient W) (st : store).

Lemma fetch_with_cases st url c :
  fetch_with st url c =
    match session c with
    | None => (Raises (AttributeError
                         "'NoneType' object has no attribute 'get'"), c)
    | Some w =>
        if truthy st (token c)
        then
          let '(o, w') :=
            session_get url (auth_headers st (token_type c) (token c)) w in
          (match o with
           | Raises e => Raises e
           | Returns r => match raise_for_status r with
                          | Some e => Raises e
                          | None => json r
                          end
           end, set_session c (Some w'))
        else (Raises NotAuthenticated, c)
    end.
Proof.
  unfold fetch_with, call_get, _get_headers, check_status, bind, this, put,
    raise, ret, lift_outcome.
  destruct (session c) as [w|]; [|done].
  destruct (truthy st (token c)); [|done]. cbn.
  fold (auth_headers st (token_type c) (token c)).
  destruct (session_get _ _ w) as [[r|e] w']; [|done].
  by destruct (raise_for_status r).
Qed.

Lemma blocking_fetches_shape id :
  Forall (λ op, ∃ (path : store → string) msg, ∀ st c,
              op st c = if use_async c
                        then (Raises (RuntimeError msg), c)
                        else fetch_with st (base_url c +:+ path st) c)
         (blocking_fetches id).
Proof.
  repeat constructor.
  - exists (λ _, "/stet/identity"). eexists. intros st c.
    unfold get_identity, bind at 1, this. by destruct (use_async c).
  - exists (λ _, "/stet/account"). eexists. intros st c.
    unfold get_accounts, bind at 1, this. by destruct (use_async c).
  - exists (λ st, "/stet/account/" +:+ py_str st id). eexists. intros st c.
    unfold get_account, bind at 1, this. by destruct (use_async c).
  - exists (λ st, "/stet/account/" +:+ py_str st id +:+ "/balance").
    eexists. intros st c.
    unfold get_balances, bind at 1, this. by destruct (use_async c).
  - exists (λ st, "/stet/account/" +:+ py_str st id +:+ "/transaction").
    eexists. intros st c.
    unfold get_transactions, bind at 1, this. by destruct (use_async c).
Qed.

Lemma suspending_fetches_shape id :
  Forall (λ op, ∃ (path : store → string) msg, ∀ st c,
              op st c = if use_async c
                        then fetch_with st (base_url c +:+ path st) c
                        else (Raises (RuntimeError msg), c))
         (suspending_fetches id).
Proof.
  repeat constructor.
  - exists (λ _, "/stet/identity"). eexists. intros st c.
    unfold get_identity_async, bind at 1, this. by destruct (use_async c).
  - exists (λ _, "/stet/account"). eexists. intros st c.
    unfold get_accounts_async, bind at 1, this. by destruct (use_async c).
  - exists (λ st, "/stet/account/" +:+ py_str st id). eexists. intros st c.
    unfold get_account_async, bind at 1, this. by destruct (use_async c).
  - exists (λ st, "/stet/account/" +:+ py_str st id +:+ "/balance").
    eexists. intros st c.
    unfold get_balances_async, bind at 1, this. by destruct (use_async c).
  - exists (λ st, "/stet/account/" +:+ py_str st id +:+ "/transaction").
    eexists. intros st c.
    unfold get_transactions_async, bind at 1, this.
    by destruct (use_async c).
Qed.
Lemma blocking_fetches_paths id st :
  Forall2 (λ op path, ∀ c, use_async c = false →
                           op st c = fetch_with st (base_url c +:+ path) c)
          (blocking_fetches id) (fetch_paths st id).
Proof.
  repeat constructor; intros c Hmode.
  - unfold get_identity, bind at 1, this. by rewrite Hmode.
  - unfold get_accounts, bind at 1, this. by rewrite Hmode.
  - unfold get_account, bind at 1, this. by rewrite Hmode.
  - unfold get_balances, bind at 1, this. by rewrite Hmode.
  - unfold get_transactions, bind at 1, this. by rewrite Hmode.
Qed.

Lemma suspending_fetches_paths id st :
  Forall2 (λ op path, ∀ c, use_async c = true →
                           op st c = fetch_with st (base_url c +:+ path) c)
          (suspending_fetches id) (fetch_paths st id).
Proof.
  repeat constructor; intros c Hmode.
  - unfold get_identity_async, bind at 1, this. by rewrite Hmode.
  - unfold get_accounts_async, bind at 1, this. by rewrite Hmode.
  - unfold get_account_async, bind at 1, this. by rewrite Hmode.
  - unfold get_balances_async, bind at 1, this. by rewrite Hmode.
  - unfold get_transactions_async, bind at 1, this. by rewrite Hmode.
Qed.
End ClientLemmas.

Section ClientLemmas2.
Context {W : Type} {SE : Session W} {PY : Builtins}.
Implicit Types (c : BankingAPIClient W) (st : store).

Lemma authenticate_cases st c :
  authenticate st c =
    if use_async c
    then (Raises (RuntimeError "Use authenticate_async for async mode"), c)
    else
      match session c with
      | None => (Raises (AttributeError
                           "'NoneType' object has no attribute 'post'"), c)
      | Some w =>
          let '(o, w') := session_post (base_url c +:+ "/oauth/token")
                                       (auth_data c) form_headers w in
          let c1 := set_session c (Some w') in
          match o with
          | Raises e => (Raises e, c1)
          | Returns r =>
              match raise_for_status r with
              | Some e => (Raises e, c1)
              | None =>
                  match json r with
                  | Raises e => (Raises e, c1)
                  | Returns (VRef l) =>
                      let tok := default VNone
                                   (deref st l !! "access_token") in
                      let tt := default (VStr "bearer")
                                  (deref st l !! "token_type") in
                      (Returns tok, set_token_type (set_token c1 tok) tt)
                  | Returns data =>
                      (Raises (AttributeError
                                 ("'" +:+ type_name data +:+
                                  "' object has no attribute 'get'")), c1)
                  end
              end
          end
      end.
Proof.
  unfold authenticate, call_post, check_status, bind, this, put, raise, ret,
    lift_outcome.
  destruct (use_async c); [done|].
  destruct (session c) as [w|]; [|done].
  fold (auth_data c). fold form_headers.
  destruct (session_post _ _ _ w) as [[r|e] w']; [|done]. cbn.
  destruct (raise_for_status r); [done|].
  destruct (json r) as [[]|]; try done; cbn;
    by destruct (deref st l !! "access_token"),
                (deref st l !! "token_type").
Qed.

Lemma authenticate_async_cases st c :
  authenticate_async st c =
    if use_async c
    then
      match session c with
      | None => (Raises (AttributeError
                           "'NoneType' object has no attribute 'post'"), c)
      | Some w =>
          let '(o, w') := session_post (base_url c +:+ "/oauth/token")
                                       (auth_data c) form_headers w in
          let c1 := set_session c (Some w') in
          match o with
          | Raises e => (Raises e, c1)
          | Returns r =>
              match raise_for_status r with
              | Some e => (Raises e, c1)
              | None =>
                  match json r with
                  | Raises e => (Raises e, c1)
                  | Returns (VRef l) =>
                      let tok := default VNone
                                   (deref st l !! "access_token") in
                      let tt := default (VStr "bearer")
                                  (deref st l !! "token_type") in
                      (Returns tok, set_token_type (set_token c1 tok) tt)
                  | Returns data =>
                      (Raises (AttributeError
                                 ("'" +:+ type_name data +:+
                                  "' object has no attribute 'get'")), c1)
                  end
              end
          end
      end
    else (Raises (RuntimeError "Use authenticate for sync mode"), c).
Proof.
  unfold authenticate_async, call_post, check_status, bind, this, put,
    raise, ret, lift_outcome.
  destruct (use_async c); [|done]. cbn [negb].
  destruct (session c) as [w|]; [|done].
  fold (auth_data c). fold form_headers.
  destruct (session_post _ _ _ w) as [[r|e] w']; [|done]. cbn.
  destruct (raise_for_status r); [done|].
  destruct (json r) as [[]|]; try done; cbn;
    by destruct (deref st l !! "access_token"),
                (deref st l !! "token_type").
Qed.

Lemma authenticate_keeps_mode st c :
  use_async (authenticate st c).2 = use_async c ∧
  use_async (authenticate_async st c).2 = use_async c.
Proof.
  rewrite authenticate_cases, authenticate_async_cases.
  destruct (use_async c) eqn:Hmode; (destruct (session c) as [w|]; [|done]);
    (destruct (session_post _ _ _ w) as [[r|e] w']; [|done]);
    (destruct (raise_for_status r); [done|]);
    destruct (json r) as [[]|]; done.
Qed.

Lemma fetch_with_keeps st url c :
  let c' := (fetch_with st url c).2 in
  token c' = token c ∧ token_type c' = token_type c ∧
  use_async c' = use_async c ∧ base_url c' = base_url c.
Proof.
  rewrite fetch_with_cases. destruct (session c) as [w|]; [|done].
  destruct (truthy st (token c)); [|done].
  by destruct (session_get _ _ w) as [o w'].
Qed.

Lemma fetches_keep id :
  Forall (λ op, ∀ st c, let c' := (op st c).2 in
              token c' = token c ∧ token_type c' = token_type c ∧
              use_async c' = use_async c ∧ base_url c' = base_url c)
         (blocking_fetches id ++ suspending_fetches id).
Proof.
  apply Forall_app. split.
  - eapply Forall_impl; [apply blocking_fetches_shape|].
    intros op (path & msg & Hop) st c. rewrite Hop.
    destruct (use_async c) eqn:Hmode; [done|].
    rewrite <- Hmode. apply fetch_with_keeps.
  - eapply Forall_impl; [apply suspending_fetches_shape|].
    intros op (path & msg & Hop) st c. rewrite Hop.
    destruct (use_async c) eqn:Hmode; [|done].
    rewrite <- Hmode. apply fetch_with_keeps.
Qed.

Lemma fetch_with_unauthenticated st url c :
  is_Some (session c) → truthy st (token c) = false →
  fetch_with st url c = (Raises NotAuthenticated, c).
Proof.
  intros [w Hw] Htok. by rewrite fetch_with_cases, Hw, Htok.
Qed.
End ClientLemmas2.

Section WiretapLemmas.
Context {W : Type} {SE : Session W} {PY : Builtins}.
Implicit Types (c : BankingAPIClient (Wiretap W)) (st : store).

Lemma fetch_with_sends st url c :
  let c' := (fetch_with st url c).2 in
  (requests_sent c' = requests_sent c ∧
   ((fetch_with st url c).1 = Raises NotAuthenticated ∨
    (fetch_with st url c).1 =
      Raises (AttributeError "'NoneType' object has no attribute 'get'")))
  ∨ (truthy st (token c) = true ∧
     requests_sent c' =
       requests_sent c
       ++ [GET url (auth_headers st (token_type c) (token c))]).
Proof.
  rewrite fetch_with_cases. unfold requests_sent.
  destruct (session c) as [t|] eqn:Hs; [|left; cbn; rewrite Hs; auto].
  destruct (truthy st (token c)); [|left; cbn; rewrite Hs; auto]. right.
  cbn. by destruct (session_get _ _ (wire t)).
Qed.

Lemma fetch_with_wiretap st url c t :
  session c = Some t → truthy st (token c) = true →
  ∃ o w, fetch_with st url c =
           (o, set_session c
                 (Some {| wire := w;
                          sent := sent t
                                  ++ [GET url (auth_headers st (token_type c)
                                                            (token c))] |})).
Proof.
  intros Hs Htok. rewrite fetch_with_cases, Hs, Htok. cbn.
  destruct (session_get _ _ (wire t)) as [o w]. eauto.
Qed.
End WiretapLemmas.

Section ClientLemmas3.
Context {W : Type} {SE : Session W} {PY : Builtins}.
Implicit Types (c : BankingAPIClient W) (st : store).

Lemma authenticate_returns st c tok c' :
  authenticate st c = (Returns tok, c') →
  ∃ w r w' l,
    use_async c = false ∧ session c = Some w ∧
    session_post (base_url c +:+ "/oauth/token") (auth_data c)
                 form_headers w = (Returns r, w') ∧
    raise_for_status r = None ∧ json r = Returns (VRef l) ∧
    tok = default VNone (deref st l !! "access_token") ∧
    c' = set_token_type (set_token (set_session c (Some w')) tok)
           (default (VStr "bearer") (deref st l !! "token_type")).
Proof.
  rewrite authenticate_cases.
  destruct (use_async c); [done|].
  destruct (session c) as [w|]; [|done].
  destruct (session_post _ _ _ w) as [[r|e] w'] eqn:Hpost; [|done].
  destruct (raise_for_status r) eqn:Hstatus; [done|].
  destruct (json r) as [[]|] eqn:Hjson; try done.
  cbn zeta. intros [= <- <-]. by exists w, r, w', l.
Qed.

Lemma fetches_unauthenticated id c st :
  is_Some (session c) → truthy st (token c) = false →
  Forall (λ op, op st c = (Raises NotAuthenticated, c))
         (if use_async c then suspending_fetches id
          else blocking_fetches id).
Proof.
  intros Hs Htok. destruct (use_async c) eqn:Hmode.
  - eapply Forall_impl; [apply suspending_fetches_shape|].
    intros op (path & msg & Hop). rewrite Hop, Hmode.
    by apply fetch_with_unauthenticated.
  - eapply Forall_impl; [apply blocking_fetches_shape|].
    intros op (path & msg & Hop). rewrite Hop, Hmode.
    by apply fetch_with_unauthenticated.
Qed.
End ClientLemmas3.

Section WiretapLemmas2.
Context {W : Type} {SE : Session W} {PY : Builtins}.
Implicit Types (c : BankingAPIClient (Wiretap W)) (st : store).

Lemma fetches_send id :
  Forall (λ op, ∃ path : store → string, ∀ st c,
              let c' := (op st c).2 in
              (requests_sent c' = requests_sent c ∧
               ∃ e, (op st c).1 = Raises e)
              ∨ (truthy st (token c) = true ∧
                 requests_sent c' =
                   requests_sent c
                   ++ [GET (base_url c +:+ path st)
                           (auth_headers st (token_type c) (token c))]))
         (blocking_fetches id ++ suspending_fetches id).
Proof.
  apply Forall_app. split.
  - eapply Forall_impl; [apply blocking_fetches_shape|].
    intros op (path & msg & Hop). exists path. intros st c. rewrite Hop.
    destruct (use_async c); [left; eauto|].
    destruct (fetch_with_sends st (base_url c +:+ path st) c)
      as [[Hsame [He|He]]|Hsent]; eauto.
  - eapply Forall_impl; [apply suspending_fetches_shape|].
    intros op (path & msg & Hop). exists path. intros st c. rewrite Hop.
    destruct (use_async c); [|left; eauto].
    destruct (fetch_with_sends st (base_url c +:+ path st) c)
      as [[Hsame [He|He]]|Hsent]; eauto.
Qed.

Lemma fetches_send_own id st (c : BankingAPIClient (Wiretap W)) :
  is_Some (session c) → truthy st (token c) = true →
  Forall2 (λ op path,
             requests_sent (op st c).2 =
               requests_sent c
               ++ [GET (base_url c +:+ path)
                       (auth_headers st (token_type c) (token c))])
          (if use_async c then suspending_fetches id else blocking_fetches id)
          (fetch_paths st id).
Proof.
  intros [t Hs] Htok.
  assert (∀ url, requests_sent (fetch_with st url c).2 =
                   requests_sent c
                   ++ [GET url (auth_headers st (token_type c) (token c))])
    as Hsent.
  { intros url.
    destruct (fetch_with_wiretap st url c t Hs Htok) as (o & w & ->).
    unfold requests_sent. cbn. by rewrite Hs. }
  destruct (use_async c) eqn:Hmode.
  - eapply Forall2_impl; [apply suspending_fetches_paths|].
    intros op path Hop. by rewrite Hop.
  - eapply Forall2_impl; [apply blocking_fetches_paths|].
    intros op path Hop. by rewrite Hop.
Qed.
End WiretapLemmas2.

Section ClientProperties.
Context {W : Type} {SE : Session W} {PY : Builtins}.

(** C5, as the code has it. With the session open, [authenticate] fails
    when the request itself fails, when the response is rejected by
    [raise_for_status] and when the body does not decode to a JSON object,
    each time with the error it met; on an object it returns and stores
    what [data.get("access_token")] yields, which for an object without
    [access_token] is [None]: it does not fail. *)
Theorem authenticate_outcome (c : BankingAPIClient W) (st : store) (w : W) :
  use_async c = false →
  session c = Some w →
  match session_post (base_url c +:+ "/oauth/token") (auth_data c)
                     form_headers w with
  | (Raises e, _) => (authenticate st c).1 = Raises e
  | (Returns r, _) =>
      match raise_for_status r, json r with
      | Some e, _ => (authenticate st c).1 = Raises e
      | None, Raises e => (authenticate st c).1 = Raises e
      | None, Returns (VRef l) =>
          (authenticate st c).1 =
            Returns (default VNone (deref st l !! "access_token")) ∧
          token (authenticate st c).2 =
            default VNone (deref st l !! "access_token")
      | None, Returns data =>
          (authenticate st c).1 =
            Raises (AttributeError ("'" +:+ type_name data +:+
                                    "' object has no attribute 'get'"))
      end
  end.
Proof.
  intros Hmode Hs. rewrite authenticate_cases, Hmode, Hs.
  destruct (session_post _ _ _ w) as [[r|e] w']; [|done].
  destruct (raise_for_status r); [done|].
  by destruct (json r) as [[]|].
Qed.

(** C6, as the code has it. Before a token is stored no fetch method sends
    a request: each raises and leaves the requests sent as they were. On a
    client whose session is open, a fetch method of the client's own mode
    raises [NotAuthenticated] and leaves the client as it was. *)
Theorem unauthenticated_fetch_is_refused
    (c : BankingAPIClient (Wiretap W)) (st : store) (id : value) :
  token c = VNone →
  Forall (λ op, (∃ e, (op st c).1 = Raises e) ∧
                requests_sent (op st c).2 = requests_sent c)
         (blocking_fetches id ++ suspending_fetches id) ∧
  (is_Some (session c) →
   Forall (λ op, op st c = (Raises NotAuthenticated, c))
          (if use_async c then suspending_fetches id
           else blocking_fetches id)).
Proof.
  intros Htok. split.
  - eapply Forall_impl; [apply fetches_send|].
    intros op (path & Hop). destruct (Hop st c) as [[Hsame He]|[Ht _]].
    + done.
    + by rewrite Htok in Ht.
  - intros Hs. apply fetches_unauthenticated; [done|]. by rewrite Htok.
Qed.

(** C7. When [authenticate] returns, the token endpoint answered with a
    JSON object; the stored token is that object's [access_token] and the
    stored token type its [token_type], or [bearer] if it has none; the
    token is also the value returned, and the client is left in blocking
    mode with its session open. From then on [_get_headers] returns
    [Authorization: {token_type} {token}] and
    [Content-Type: application/json] (for a token Python takes for true;
    another one is refused). As long as the client holds that token and
    token type, a fetch method keeps them; a fetch method of the client's
    mode, its session open, sends one request, to its own path and with
    exactly these headers; and no fetch method sends anything else. *)
Theorem authenticate_stores_token
    (c c' : BankingAPIClient (Wiretap W)) (st : store) (tok : value) :
  authenticate st c = (Returns tok, c') →
  ∃ t r t' l,
    session c = Some t ∧
    session_post (base_url c +:+ "/oauth/token") (auth_data c)
                 form_headers t = (Returns r, t') ∧
    json r = Returns (VRef l) ∧
    token c' = default VNone (deref st l !! "access_token") ∧
    token_type c' = default (VStr "bearer") (deref st l !! "token_type") ∧
    tok = token c' ∧
    session c' = Some t' ∧ use_async c' = false ∧
    (∀ st2, truthy st2 tok = true →
            _get_headers st2 c' =
              (Returns [("Authorization",
                         py_str st2 (token_type c') +:+ " "
                         +:+ py_str st2 tok);
                        ("Content-Type", "application/json")], c')) ∧
    ∀ (c2 : BankingAPIClient (Wiretap W)) (st2 : store) (id : value),
      token c2 = token c' → token_type c2 = token_type c' →
      let hdrs := [("Authorization",
                    py_str st2 (token_type c') +:+ " "
                    +:+ py_str st2 (token c'));
                   ("Content-Type", "application/json")] in
      Forall (λ op, let c3 := (op st2 c2).2 in
                token c3 = token c' ∧ token_type c3 = token_type c' ∧
                (requests_sent c3 = requests_sent c2 ∨
                 ∃ url, requests_sent c3 = requests_sent c2 ++ [GET url hdrs]))
             (blocking_fetches id ++ suspending_fetches id) ∧
      (is_Some (session c2) → truthy st2 tok = true →
       Forall2 (λ op path,
                  requests_sent (op st2 c2).2 =
                    requests_sent c2 ++ [GET (base_url c2 +:+ path) hdrs])
               (if use_async c2 then suspending_fetches id
                else blocking_fetches id)
               (fetch_paths st2 id)).
Proof.
  intros Hauth.
  apply authenticate_returns in Hauth
    as (t & r & t' & l & Hmode & Hs & Hpost & Hstatus & Hjson & -> & ->).
  exists t, r, t', l. split_and!; try done.
  { intros st2 Htok. unfold _get_headers, bind, this, raise, ret.
    cbn [token token_type set_token set_token_type set_session].
    by rewrite Htok. }
  intros c2 st2 id Htok Htt hdrs. split.
  - pose proof (fetches_keep (W := Wiretap W) id) as Hkeep.
    pose proof (fetches_send id) as Hsend.
    rewrite Forall_forall in Hkeep, Hsend. apply Forall_forall.
    intros op Hop. destruct (Hkeep op Hop st2 c2) as (Hk1 & Hk2 & _).
    destruct (Hsend op Hop) as (path & Hsent).
    cbn zeta. rewrite Hk1, Hk2. split_and!; try done.
    destruct (Hsent st2 c2) as [[Hsame _]|[_ Hmore]]; [by left|right].
    exists (base_url c2 +:+ path st2). rewrite Hmore.
    unfold auth_headers, hdrs. by rewrite Htok, Htt.
  - intros Hs2 Htruthy.
    eapply Forall2_impl; [apply fetches_send_own; [done|]|].
    + by rewrite Htok.
    + intros op path ->. unfold auth_headers, hdrs. by rewrite Htok, Htt.
Qed.

(** C9. If the token endpoint answers 2xx with a JSON object that has no
    [access_token], [authenticate] returns [None] and the client holds no
    token; every fetch method then raises [NotAuthenticated] and leaves the
    client as it is, which is what it does on a client that never
    authenticated. *)
Theorem authenticate_without_access_token
    (c : BankingAPIClient W) (st : store) (w w' : W) (r : response)
    (l : loc) :
  use_async c = false →
  session c = Some w →
  session_post (base_url c +:+ "/oauth/token") (auth_data c)
               form_headers w = (Returns r, w') →
  raise_for_status r = None →
  json r = Returns (VRef l) →
  deref st l !! "access_token" = None →
  ∃ c', authenticate st c = (Returns VNone, c') ∧
        token c' = VNone ∧
        ∀ st2 id,
          Forall (λ op, op st2 c' = (Raises NotAuthenticated, c') ∧
                        (token c = VNone →
                         op st2 c = (Raises NotAuthenticated, c)))
                 (blocking_fetches id).
Proof.
  intros Hmode Hs Hpost Hstatus Hjson Hnone.
  rewrite authenticate_cases, Hmode, Hs, Hpost, Hstatus, Hjson, Hnone.
  cbn zeta. eexists. split_and!; [done..|].
  intros st2 id.
  set (c' := set_token_type _ _).
  pose proof (fetches_unauthenticated id c' st2) as Hafter.
  pose proof (fetches_unauthenticated id c st2) as Hbefore.
  change (use_async c') with (use_async c) in Hafter.
  rewrite Hmode in Hafter, Hbefore.
  rewrite Forall_forall in Hafter, Hbefore. apply Forall_forall.
  intros op Hop. split.
  - apply Hafter; [by eexists|done|done].
  - intros Htok. apply Hbefore; [by eexists|by rewrite Htok|done].
Qed.
End ClientProperties.

Section LoopInvariant.
Context {G : Type}.
Implicit Types (s : BankingDataCollector G).
Implicit Types (gi ga : store → M G value).
Implicit Types (gb gt : value → store → M G value).

Lemma for_each_account_client_inv (P : G → Prop) gb gt :
  (∀ id st g, P g → P (gb id st g).2) →
  (∀ id st g, P g → P (gt id st g).2) →
  ∀ items s, P (client s) →
             P (client (for_each_account gb gt items s).2).
Proof.
  intros Hgb Hgt items. induction items as [|a rest IH]; intros s HP.
  { done. }
  destruct (for_each_account gb gt (a :: rest) s) as [out s'] eqn:Hrun.
  apply for_each_account_cons in Hrun
    as [(e & _ & _ & ->)|(l & -> & [(e & g1 & Hb & _ & ->)|(b & g1 & Hb & Hrun)])].
  - done.
  - cbn. apply (Hgb (account_id (objects s) (VRef l)) (objects s)) in HP.
    by rewrite Hb in HP.
  - cbn zeta in Hrun.
    apply (Hgb (account_id (objects s) (VRef l)) (objects s)) in HP.
    rewrite Hb in HP. cbn in HP.
    apply (Hgt (account_id (objects s) (VRef l))
               (attach (objects s) l "balances" b)) in HP.
    destruct Hrun as [(e & g2 & Ht & _ & ->)|(t & g2 & Ht & Hrun)];
      rewrite Ht in HP; [done|].
    specialize (IH {| objects := attach (attach (objects s) l "balances" b)
                                        l "transactions" t;
                      client := g2 |} HP).
    by rewrite Hrun in IH.
Qed.

Lemma aggregate_client_inv (P : G → Prop) gi ga gb gt :
  (∀ st g, P g → P (gi st g).2) →
  (∀ st g, P g → P (ga st g).2) →
  (∀ id st g, P g → P (gb id st g).2) →
  (∀ id st g, P g → P (gt id st g).2) →
  ∀ s, P (client s) → P (client (aggregate gi ga gb gt s).2).
Proof.
  intros Hgi Hga Hgb Hgt s HP.
  destruct (aggregate gi ga gb gt s) as [out s'] eqn:Hrun.
  apply aggregate_inv in Hrun. cbn zeta in Hrun.
  apply (Hgi (objects s)) in HP.
  destruct Hrun as [(e & g1 & Hi & _ & ->)|(identity & g1 & Hi & Hrun)];
    rewrite Hi in HP; cbn in HP; [done|].
  apply (Hga (objects s)) in HP.
  destruct Hrun as [(e & g2 & Ha & _ & ->)|(accounts & g2 & Ha & Hrun)];
    rewrite Ha in HP; cbn in HP; [done|].
  destruct Hrun as [(e & _ & _ & ->)|(items & o & _ & Hloop & _)]; [done|].
  pose proof (for_each_account_client_inv P gb gt Hgb Hgt items
                {| objects := objects s; client := g2 |} HP) as Hinv.
  by rewrite Hloop in Hinv.
Qed.

Lemma for_each_account_step gb gt l rest s :
  for_each_account gb gt (VRef l :: rest) s =
    let st := objects s in
    let id := account_id st (VRef l) in
    match gb id st (client s) with
    | (Raises e, g1) => (Raises e, {| objects := st; client := g1 |})
    | (Returns b, g1) =>
        let st1 := attach st l "balances" b in
        match gt id st1 g1 with
        | (Raises e, g2) => (Raises e, {| objects := st1; client := g2 |})
        | (Returns t, g2) =>
            for_each_account gb gt rest
              {| objects := attach st1 l "transactions" t; client := g2 |}
        end
    end.
Proof.
  cbn [for_each_account]. unfold bind, get_item, call, set_item. cbn.
  unfold default.
  destruct (gb _ (objects s) (client s)) as [[b|e] g1]; [|done]. cbn.
  by destruct (gt _ _ g1) as [[t|e] g2].
Qed.
End LoopInvariant.

Lemma truthy_attach st l key x v :
  truthy st v = true → truthy (attach st l key x) v = true.
Proof.
  destruct v; try done. cbn. intros Hne.
  destruct (decide (l = l0)) as [->|Hl].
  - rewrite deref_attach_eq. apply negb_true_iff, bool_decide_eq_false.
    apply insert_non_empty.
  - by rewrite deref_attach_ne.
Qed.

Section ClientProperties2.
Context {W : Type} {SE : Session W} {PY : Builtins}.

Lemma client_ops_keep_mode id :
  Forall (λ op, ∀ st (c : BankingAPIClient W),
              use_async (op st c).2 = use_async c)
         (authenticate :: authenticate_async ::
          blocking_fetches id ++ suspending_fetches id).
Proof.
  constructor; [intros; apply authenticate_keeps_mode|].
  constructor; [intros; apply authenticate_keeps_mode|].
  eapply Forall_impl; [apply fetches_keep|].
  intros op Hop st c. apply Hop.
Qed.

Lemma gateway_fetches_keep_mode (mode : bool) :
  (∀ st (g : BankingAPIClient W), use_async g = mode →
           use_async (get_identity st g).2 = mode) ∧
  (∀ st (g : BankingAPIClient W), use_async g = mode →
           use_async (get_accounts st g).2 = mode) ∧
  (∀ id st (g : BankingAPIClient W), use_async g = mode →
              use_async (get_balances id st g).2 = mode) ∧
  (∀ id st (g : BankingAPIClient W), use_async g = mode →
              use_async (get_transactions id st g).2 = mode) ∧
  (∀ st (g : BankingAPIClient W), use_async g = mode →
           use_async (get_identity_async st g).2 = mode) ∧
  (∀ st (g : BankingAPIClient W), use_async g = mode →
           use_async (get_accounts_async st g).2 = mode) ∧
  (∀ id st (g : BankingAPIClient W), use_async g = mode →
              use_async (get_balances_async id st g).2 = mode) ∧
  (∀ id st (g : BankingAPIClient W), use_async g = mode →
              use_async (get_transactions_async id st g).2 = mode).
Proof.
  assert (∀ id op, op ∈ blocking_fetches id ++ suspending_fetches id →
                   ∀ st (g : BankingAPIClient W), use_async g = mode →
                           use_async (op st g).2 = mode) as Hkeep.
  { intros id op Hop st g <-. revert op Hop. apply Forall_forall.
    eapply Forall_impl; [apply fetches_keep|]. intros op Hop. apply Hop. }
  assert (∀ id (op : store → M (BankingAPIClient W) value),
            In op (blocking_fetches id ++ suspending_fetches id) →
            op ∈ blocking_fetches id ++ suspending_fetches id) as Hin.
  { intros id op. apply list_elem_of_In. }
  split_and!.
  - intros st. apply (Hkeep VNone), Hin. cbn. auto 15.
  - intros st. apply (Hkeep VNone), Hin. cbn. auto 15.
  - intros id st. apply (Hkeep id), Hin. cbn. auto 15.
  - intros id st. apply (Hkeep id), Hin. cbn. auto 15.
  - intros st. apply (Hkeep VNone), Hin. cbn. auto 15.
  - intros st. apply (Hkeep VNone), Hin. cbn. auto 15.
  - intros id st. apply (Hkeep id), Hin. cbn. auto 15.
  - intros id st. apply (Hkeep id), Hin. cbn. auto 15.
Qed.

(** C8. On every client, each operation of the other mode (the fetch
    methods, [authenticate] and the collector) raises [RuntimeError] and
    leaves the client as it was; and no method changes [use_async], which
    is the value the constructor was given. *)
Theorem wrong_mode_is_refused
    (c : BankingAPIClient W) (st : store) (id : value) :
  Forall (λ op, ∃ msg, op st c = (Raises (RuntimeError msg), c))
         (if use_async c then authenticate :: blocking_fetches id
          else authenticate_async :: suspending_fetches id) ∧
  (∃ msg, (if use_async c then collect_all_data
           else collect_all_data_async)
            {| objects := st; client := c |}
          = (Raises (RuntimeError msg), {| objects := st; client := c |})) ∧
  Forall (λ op, use_async (op st c).2 = use_async c)
         (authenticate :: authenticate_async ::
          blocking_fetches id ++ suspending_fetches id) ∧
  Forall (λ op : M (BankingAPIClient W) unit,
            use_async (op c).2 = use_async c)
         [__enter__; __exit__; __aenter__; __aexit__] ∧
  use_async (client (collect_all_data
                       {| objects := st; client := c |}).2) = use_async c ∧
  use_async (client (collect_all_data_async
                       {| objects := st; client := c |}).2) = use_async c ∧
  ∀ url user pass mode,
    use_async (__init__ (W := W) url user pass mode) = mode.
Proof.
  split_and!.
  - destruct (use_async c) eqn:Hmode; constructor.
    + eexists. by rewrite authenticate_cases, Hmode.
    + eapply Forall_impl; [apply blocking_fetches_shape|].
      intros op (path & msg & Hop). exists msg. by rewrite Hop, Hmode.
    + eexists. by rewrite authenticate_async_cases, Hmode.
    + eapply Forall_impl; [apply suspending_fetches_shape|].
      intros op (path & msg & Hop). exists msg. by rewrite Hop, Hmode.
  - destruct (use_async c) eqn:Hmode;
      unfold collect_all_data, collect_all_data_async, bind, this; cbn;
      rewrite Hmode; eexists; done.
  - eapply Forall_impl; [apply client_ops_keep_mode|].
    intros op Hop. apply Hop.
  - unfold __enter__, __exit__, __aenter__, __aexit__, bind, this, put, ret.
    repeat constructor; destruct (use_async c) eqn:Hmode;
      try destruct (session c); done.
  - destruct (use_async c) eqn:Hmode.
    { unfold collect_all_data, bind, this. cbn. by rewrite Hmode. }
    rewrite collect_all_data_sync by done.
    destruct (gateway_fetches_keep_mode false) as (? & ? & ? & ? & _).
    by apply (aggregate_client_inv (λ g, use_async g = false)).
  - destruct (use_async c) eqn:Hmode.
    2:{ unfold collect_all_data_async, bind, this. cbn. by rewrite Hmode. }
    rewrite collect_all_data_async_async by done.
    destruct (gateway_fetches_keep_mode true) as (_ & _ & _ & _ & ? & ? & ? & ?).
    by apply (aggregate_client_inv (λ g, use_async g = true)).
  - done.
Qed.
End ClientProperties2.

Section CollectorEdges.
Context {G : Type}.
Implicit Types (s : BankingDataCollector G).
Implicit Types (gi ga : store → M G value).
Implicit Types (gb gt : value → store → M G value).

Lemma for_each_account_non_object gb gt a rest s :
  (∀ l, a ≠ VRef l) →
  for_each_account gb gt (a :: rest) s =
    (Raises (AttributeError ("'" +:+ type_name a +:+
                             "' object has no attribute 'get'")), s).
Proof.
  intros Ha. cbn [for_each_account]. unfold bind, get_item.
  destruct a; try done. by destruct (Ha l).
Qed.

Lemma for_each_account_app gb gt items1 items2 s :
  for_each_account gb gt (items1 ++ items2) s =
    match for_each_account gb gt items1 s with
    | (Returns _, s1) => for_each_account gb gt items2 s1
    | (Raises e, s1) => (Raises e, s1)
    end.
Proof.
  revert s. induction items1 as [|a items1 IH]; intros s; [done|].
  assert ((∃ l, a = VRef l) ∨ ∀ l, a ≠ VRef l) as [[l ->]|Ha]
    by (destruct a; eauto).
  - cbn [app]. rewrite !for_each_account_step. cbn zeta.
    destruct (gb _ _ _) as [[b|e] g1]; [|done].
    destruct (gt _ _ _) as [[t|e] g2]; [|done].
    apply IH.
  - cbn [app]. by rewrite !for_each_account_non_object.
Qed.

Lemma aggregate_loop gi ga gb gt s identity g1 accounts g2 items :
  gi (objects s) (client s) = (Returns identity, g1) →
  ga (objects s) g1 = (Returns accounts, g2) →
  py_iter (objects s) accounts = Returns items →
  aggregate gi ga gb gt s =
    match for_each_account gb gt items
            {| objects := objects s; client := g2 |} with
    | (Returns _, s') =>
        (Returns {[ "identity" := identity; "accounts" := accounts ]}, s')
    | (Raises e, s') => (Raises e, s')
    end.
Proof.
  intros Hi Ha Hit. unfold aggregate, bind, call, iterate, ret.
  rewrite Hi. cbn. rewrite Ha. cbn. rewrite Hit.
  by destruct (for_each_account gb gt items _) as [[[]|e] s'].
Qed.

Lemma aggregate_not_iterable gi ga gb gt s identity g1 accounts g2 e :
  gi (objects s) (client s) = (Returns identity, g1) →
  ga (objects s) g1 = (Returns accounts, g2) →
  py_iter (objects s) accounts = Raises e →
  aggregate gi ga gb gt s =
    (Raises e, {| objects := objects s; client := g2 |}).
Proof.
  intros Hi Ha Hit. unfold aggregate, bind, call, iterate, ret.
  rewrite Hi. cbn. rewrite Ha. cbn. by rewrite Hit.
Qed.
End CollectorEdges.

Lemma truthy_grows items st st' v :
  grows items st st' → truthy st v = true → truthy st' v = true.
Proof.
  intros Hg. destruct v; try done. cbn.
  rewrite !negb_true_iff, !bool_decide_eq_false. intros Hne Hempty.
  apply map_choose in Hne as (k & x & Hk).
  destruct (Hg l) as (_ & _ & Hsome).
  destruct (Hsome k (mk_is_Some _ _ Hk)) as [y Hy].
  by rewrite Hempty in Hy.
Qed.

Section ClientLemmas4.
Context {W : Type} {SE : Session W} {PY : Builtins}.
Implicit Types (c : BankingAPIClient W) (st : store).

Lemma fetch_with_returns st url c v c' :
  fetch_with st url c = (Returns v, c') →
  is_Some (session c) ∧ truthy st (token c) = true.
Proof.
  rewrite fetch_with_cases. destruct (session c) as [w|]; [|done].
  by destruct (truthy st (token c)).
Qed.

Lemma blocking_fetch_returns id :
  Forall (λ op, ∀ st c v c',
              op st c = (Returns v, c') →
              use_async c = false ∧ is_Some (session c) ∧
              truthy st (token c) = true)
         (blocking_fetches id).
Proof.
  eapply Forall_impl; [apply blocking_fetches_shape|].
  intros op (path & msg & Hop) st c v c'. rewrite Hop.
  destruct (use_async c); [done|]. intros Hrun. split; [done|].
  by eapply fetch_with_returns.
Qed.

Lemma fetch_with_keeps_session st url c :
  is_Some (session c) → is_Some (session (fetch_with st url c).2).
Proof.
  intros [w Hs]. rewrite fetch_with_cases, Hs.
  destruct (truthy st (token c)); [|by exists w].
  by destruct (session_get _ _ w) as [o w'].
Qed.

Lemma fetches_keep_session id :
  Forall (λ op, ∀ st c, is_Some (session c) →
                        is_Some (session (op st c).2))
         (blocking_fetches id ++ suspending_fetches id).
Proof.
  apply Forall_app. split.
  - eapply Forall_impl; [apply blocking_fetches_shape|].
    intros op (path & msg & Hop) st c Hs. rewrite Hop.
    destruct (use_async c); [done|]. by apply fetch_with_keeps_session.
  - eapply Forall_impl; [apply suspending_fetches_shape|].
    intros op (path & msg & Hop) st c Hs. rewrite Hop.
    destruct (use_async c); [|done]. by apply fetch_with_keeps_session.
Qed.

(** What the fetch methods keep of a client that is in use. *)
Lemma fetches_keep_ready id (c0 : BankingAPIClient W) :
  Forall (λ op, ∀ st c,
              (is_Some (session c) ∧ use_async c = use_async c0 ∧
               base_url c = base_url c0 ∧ token c = token c0 ∧
               token_type c = token_type c0) →
              let c' := (op st c).2 in
              is_Some (session c') ∧ use_async c' = use_async c0 ∧
              base_url c' = base_url c0 ∧ token c' = token c0 ∧
              token_type c' = token_type c0)
         (blocking_fetches id ++ suspending_fetches id).
Proof.
  pose proof (fetches_keep id) as Hkeep.
  pose proof (fetches_keep_session id) as Hsess.
  rewrite Forall_forall in Hkeep, Hsess. apply Forall_forall.
  intros op Hop st c (Hs & Hm & Hb & Ht & Htt). cbn zeta.
  destruct (Hkeep op Hop st c) as (-> & -> & -> & ->).
  split; [by apply Hsess|done].
Qed.
End ClientLemmas4.

Section MissingId.
Context {W : Type} {SE : Session W} {PY : Builtins}.
Implicit Types (c : BankingAPIClient (Wiretap W)) (st : store).

Lemma requests_grow id (base : list request) :
  (∀ st c, (∃ more, requests_sent c = base ++ more) →
           ∃ more, requests_sent (get_balances id st c).2 = base ++ more) ∧
  (∀ st c, (∃ more, requests_sent c = base ++ more) →
           ∃ more, requests_sent (get_transactions id st c).2 = base ++ more).
Proof.
  assert (∀ op, In op (blocking_fetches id ++ suspending_fetches id) →
                ∀ st c, (∃ more, requests_sent c = base ++ more) →
                        ∃ more, requests_sent (op st c).2 = base ++ more)
    as Hgrow.
  { intros op Hop%list_elem_of_In st c [more Hc]. revert op Hop.
    apply Forall_forall.
    eapply Forall_impl; [apply fetches_send|].
    intros op (path & Hop).
    destruct (Hop st c) as [[-> _]|[_ ->]]; rewrite Hc; [eauto|].
    rewrite <- app_assoc. eauto. }
  split; intros st c; apply Hgrow; cbn; auto 15.
Qed.

(** The loop at a record without [id], on an authenticated blocking client
    whose session is open. *)
Lemma for_each_account_missing_id
    (s : BankingDataCollector (BankingAPIClient (Wiretap W)))
    (l : loc) (rest : list value) (t : Wiretap W) :
  let c := client s in
  let st := objects s in
  use_async c = false →
  session c = Some t →
  truthy st (token c) = true →
  deref st l !! "id" = None →
  get_item (VRef l) "id" s = (Returns VNone, s) ∧
  ∃ more,
    requests_sent
      (client (for_each_account get_balances get_transactions
                                (VRef l :: rest) s).2)
    = sent t
      ++ GET (base_url c +:+ "/stet/account/None/balance")
             (auth_headers st (token_type c) (token c)) :: more ∧
    ∀ b c1,
      get_balances VNone st c = (Returns b, c1) →
      let st1 := attach st l "balances" b in
      (∃ more',
         more = GET (base_url c +:+ "/stet/account/None/transaction")
                    (auth_headers st1 (token_type c) (token c)) :: more') ∧
      ∀ tr c2,
        get_transactions VNone st1 c1 = (Returns tr, c2) →
        for_each_account get_balances get_transactions (VRef l :: rest) s
        = for_each_account get_balances get_transactions rest
            {| objects := attach st1 l "transactions" tr; client := c2 |}.
Proof.
  intros c st Hmode Hs Htok Hid.
  split.
  { unfold get_item. cbn. fold st. by rewrite Hid. }
  rewrite for_each_account_step. fold st c. cbn zeta.
  assert (account_id st (VRef l) = VNone) as -> by (cbn; by rewrite Hid).
  assert (get_balances VNone st c =
          fetch_with st (base_url c +:+ "/stet/account/None/balance") c)
    as Hbal.
  { unfold get_balances, bind at 1, this. by rewrite Hmode. }
  destruct (fetch_with_wiretap st (base_url c +:+ "/stet/account/None/balance")
              c t Hs Htok) as (o1 & w1 & Hf1).
  rewrite Hbal, Hf1.
  set (req1 := GET (base_url c +:+ "/stet/account/None/balance")
                   (auth_headers st (token_type c) (token c))) in *.
  set (c1 := set_session c _) in *.
  destruct o1 as [b|e].
  2:{ exists []. split; [done|]. intros ? ? [=]. }
  set (st1 := attach st l "balances" b).
  assert (get_transactions VNone st1 c1 =
          fetch_with st1 (base_url c +:+ "/stet/account/None/transaction") c1)
    as Htr.
  { unfold get_transactions, bind at 1, this. by cbn; rewrite Hmode. }
  destruct (fetch_with_wiretap st1
              (base_url c +:+ "/stet/account/None/transaction") c1
              {| wire := w1; sent := sent t ++ [req1] |} eq_refl
              (truthy_attach _ _ _ _ _ Htok)) as (o2 & w2 & Hf2).
  rewrite Htr, Hf2. cbn [sent token token_type set_session c1] in *.
  set (req2 := GET (base_url c +:+ "/stet/account/None/transaction")
                   (auth_headers st1 (token_type c) (token c))) in *.
  set (c2 := set_session c1 _) in *.
  assert (∃ more, requests_sent
                    (client (match o2 with
                             | Returns tr =>
                                 for_each_account get_balances
                                   get_transactions rest
                                   {| objects := attach st1 l
                                                   "transactions" tr;
                                      client := c2 |}
                             | Raises e =>
                                 (Raises e,
                                  {| objects := st1; client := c2 |})
                             end).2)
                  = (sent t ++ [req1; req2]) ++ more) as [more Hmore].
  { destruct o2 as [tr|e].
    - apply (for_each_account_client_inv
               (λ g, ∃ more, requests_sent g
                             = (sent t ++ [req1; req2]) ++ more)).
      + intros id st' g. by apply (requests_grow id).
      + intros id st' g. by apply (requests_grow id).
      + exists []. cbn. by rewrite app_nil_r, <- app_assoc.
    - exists []. cbn. by rewrite app_nil_r, <- app_assoc. }
  exists (req2 :: more). split.
  { destruct o2; rewrite Hmore, <- app_assoc; done. }
  intros b' c1' [= <- <-]. split; [by exists more|].
  intros tr c2'. fold st1. rewrite Htr, Hf2. by intros [= -> <-].
Qed.

(** C10. A record of the account list without an [id] key does not make
    [collect_all_data] fail. When the run reaches such a record (the
    identity and account fetches returned, and the accounts listed before it
    are done), [account.get("id")] yields [None] without raising; the next
    request the run sends is the balances request for the path
    [/stet/account/None/balance], with the client's authorization headers;
    if that fetch returns, the request after it is the one for
    [/stet/account/None/transaction]; and if that returns as well, both
    values are attached to the record and the run goes on with the accounts
    listed after it, returning its result when they are done. *)
Theorem account_without_id_is_fetched_as_None
    (s s1 : BankingDataCollector (BankingAPIClient (Wiretap W)))
    (identity accounts : value) (c1 c2 : BankingAPIClient (Wiretap W))
    (pre post : list value) (l : loc) :
  get_identity (objects s) (client s) = (Returns identity, c1) →
  get_accounts (objects s) c1 = (Returns accounts, c2) →
  py_iter (objects s) accounts = Returns (pre ++ VRef l :: post) →
  for_each_account get_balances get_transactions pre
    {| objects := objects s; client := c2 |} = (Returns tt, s1) →
  deref (objects s) l !! "id" = None →
  let run := collect_all_data s in
  let base := base_url (client s) in
  let hdrs st := auth_headers st (token_type (client s)) (token (client s)) in
  let st1 := objects s1 in
  get_item (VRef l) "id" s1 = (Returns VNone, s1) ∧
  ∃ more,
    requests_sent (client run.2)
    = requests_sent (client s1)
      ++ GET (base +:+ "/stet/account/None/balance") (hdrs st1) :: more ∧
    ∀ b c3,
      get_balances VNone st1 (client s1) = (Returns b, c3) →
      let st2 := attach st1 l "balances" b in
      (∃ more',
         more = GET (base +:+ "/stet/account/None/transaction") (hdrs st2)
                :: more') ∧
      ∀ tr c4,
        get_transactions VNone st2 c3 = (Returns tr, c4) →
        let st3 := attach st2 l "transactions" tr in
        deref st3 l !! "balances" = Some b ∧
        deref st3 l !! "transactions" = Some tr ∧
        run =
          match for_each_account get_balances get_transactions post
                  {| objects := st3; client := c4 |} with
          | (Returns _, s') =>
              (Returns {[ "identity" := identity; "accounts" := accounts ]},
               s')
          | (Raises e, s') => (Raises e, s')
          end.
Proof.
  intros Hi Ha Hit Hpre Hid run base hdrs st1.
  pose proof (blocking_fetch_returns (W := Wiretap W) VNone) as Hret.
  apply Forall_cons in Hret as [Hret _].
  destruct (Hret _ _ _ _ Hi) as (Hmode & Hs & Htok). clear Hret.
  (* the client the loop works with is the one the run started with *)
  set (P := λ g : BankingAPIClient (Wiretap W),
              is_Some (session g) ∧ use_async g = use_async (client s) ∧
              base_url g = base_url (client s) ∧ token g = token (client s) ∧
              token_type g = token_type (client s)).
  assert (∀ id op, In op (blocking_fetches id) → ∀ st g, P g → P (op st g).2)
    as Hkeep.
  { intros id op Hop%list_elem_of_In st g HP.
    pose proof (fetches_keep_ready id (client s)) as Hk.
    rewrite Forall_forall in Hk.
    apply (Hk op); [|done]. apply elem_of_app. by left. }
  assert (P (client s)) as H0 by done.
  assert (P c1) as H1.
  { apply (Hkeep VNone get_identity) with (st := objects s) in H0;
      [|cbn; auto]. by rewrite Hi in H0. }
  assert (P c2) as H2.
  { apply (Hkeep VNone get_accounts) with (st := objects s) in H1;
      [|cbn; auto]. by rewrite Ha in H1. }
  assert (P (client s1)) as (Hs1 & Hm1 & Hb1 & Ht1 & Htt1).
  { pose proof (for_each_account_client_inv P get_balances get_transactions)
      as Hinv.
    specialize (Hinv (λ id, Hkeep id (get_balances id) ltac:(cbn; auto 10))
                     (λ id, Hkeep id (get_transactions id)
                                  ltac:(cbn; auto 10))
                     pre {| objects := objects s; client := c2 |} H2).
    by rewrite Hpre in Hinv. }
  pose proof (for_each_account_grows _ _ _ _ _ _ Hpre) as Hgrows.
  cbn [objects] in Hgrows.
  assert (deref st1 l !! "id" = None) as Hid1.
  { destruct (Hgrows l) as (_ & Hk & _). unfold st1. by rewrite Hk. }
  assert (truthy st1 (token (client s1)) = true) as Htok1.
  { rewrite Ht1. by eapply truthy_grows. }
  destruct Hs1 as [t1 Hs1]. rewrite Hmode in Hm1.
  destruct (for_each_account_missing_id s1 l post t1 Hm1 Hs1 Htok1 Hid1)
    as (Hget & more & Hsent & Hnext).
  rewrite Hb1, Ht1, Htt1 in Hsent, Hnext. fold base in Hsent, Hnext.
  assert (run =
          match for_each_account get_balances get_transactions
                  (VRef l :: post) s1 with
          | (Returns _, s') =>
              (Returns {[ "identity" := identity; "accounts" := accounts ]},
               s')
          | (Raises e, s') => (Raises e, s')
          end) as Hrun.
  { unfold run. rewrite collect_all_data_sync by done.
    erewrite aggregate_loop; [|exact Hi|exact Ha|exact Hit].
    cbn [gw_get_balances gw_get_transactions BankingAPIClient_Gateway].
    by rewrite for_each_account_app, Hpre. }
  split; [done|]. exists more. split.
  { assert (requests_sent (client s1) = sent t1) as ->
      by (unfold requests_sent; by rewrite Hs1).
    unfold hdrs, st1. rewrite <- Hsent, Hrun.
    by destruct (for_each_account _ _ (VRef l :: post) s1) as [[[]|e] s']. }
  intros b c3 Hb. destruct (Hnext b c3 Hb) as [Hmore Hgo].
  split; [done|]. intros tr c4 Htr. cbn zeta. split_and!.
  - rewrite deref_attach_eq, lookup_insert_ne by done.
    by rewrite deref_attach_eq, lookup_insert_eq.
  - by rewrite deref_attach_eq, lookup_insert_eq.
  - by rewrite Hrun, (Hgo tr c4 Htr).
Qed.
End MissingId.

(** *** The properties at work on the scenarios *)

Lemma fetches_in_order_witness :
  let order := [Identity; Accounts;
                Balances (VStr "a1"); Transactions (VStr "a1");
                Balances (VStr "a2"); Transactions (VStr "a2")] in
  let s := roundtrip_recorded in
  let run := collect_all_data (GW := Recorder_Gateway (GW := Scripted_Gateway))
               s in
  let sa := roundtrip_async_recorded in
  let run_async :=
    collect_all_data_async (GW := Recorder_Gateway (GW := Scripted_Gateway))
      sa in
  (scripted_async (inner (client s)) = false ∧
   ∃ new, journal (client run.2) = journal (client s) ++ new ∧
          new.*1 = order) ∧
  (scripted_async (inner (client sa)) = true ∧
   ∃ new, journal (client run_async.2) = journal (client sa) ++ new ∧
          new.*1 = order).
Proof.
  intros order s run sa run_async. split; (split; [reflexivity|]).
  - destruct (fetches_in_order (GW := Scripted_Gateway) s run.2 run.1)
      as (new & items & Hj & _ & _ & Hret & _).
    { left. split; [reflexivity|apply surjective_pairing]. }
    exists new. split; [exact Hj|].
    destruct (Hret {[ "identity" := VRef 1;
                      "accounts" := VList [VRef 2; VRef 3] ]})
      as (Hnew & accounts & Hacc & Hit).
    { vm_compute. reflexivity. }
    vm_compute in Hacc. injection Hacc as <-.
    cbn in Hit. injection Hit as <-.
    rewrite Hnew. vm_compute. reflexivity.
  - destruct (fetches_in_order (GW := Scripted_Gateway) sa run_async.2
                run_async.1)
      as (new & items & Hj & _ & _ & Hret & _).
    { right. split; [reflexivity|apply surjective_pairing]. }
    exists new. split; [exact Hj|].
    destruct (Hret {[ "identity" := VRef 1;
                      "accounts" := VList [VRef 2; VRef 3] ]})
      as (Hnew & accounts & Hacc & Hit).
    { vm_compute. reflexivity. }
    vm_compute in Hacc. injection Hacc as <-.
    cbn in Hit. injection Hit as <-.
    rewrite Hnew. vm_compute. reflexivity.
Defined.

Lemma collected_accounts_carry_both_fetches_witness :
  let s := roundtrip_recorded in
  let run := collect_all_data (GW := Recorder_Gateway (GW := Scripted_Gateway))
               s in
  scripted_async (inner (client s)) = false ∧
  run.1 = Returns {[ "identity" := VRef 1;
                     "accounts" := VList [VRef 2; VRef 3] ]} ∧
  ∃ identity accounts items fetched,
    py_iter (objects s) accounts = Returns items ∧
    length fetched = length items ∧
    journal (client run.2) =
      journal (client s)
      ++ (Identity, Returns identity) :: (Accounts, Returns accounts)
      :: fetch_log (objects s) items fetched.
Proof.
  intros s run. split; [reflexivity|]. split; [vm_compute; reflexivity|].
  destruct (collected_accounts_carry_both_fetches (GW := Scripted_Gateway)
              s run.2 {[ "identity" := VRef 1;
                         "accounts" := VList [VRef 2; VRef 3] ]})
    as (identity & accounts & items & fetched & _ & Hit & Hlen & Hj & _).
  { reflexivity. }
  { vm_compute. reflexivity. }
  by exists identity, accounts, items, fetched.
Defined.

(** C4, refuted on the round trip: the gateway hands out the dict object at
    address 2 as the first account; the run returns, and afterwards that very
    object, which held only [id], holds [balances] and [transactions] as
    well. *)
Lemma account_record_is_mutated :
  let run := collect_all_data (GW := Scripted_Gateway) roundtrip in
  run.1 = Returns {[ "identity" := VRef 1;
                     "accounts" := VList [VRef 2; VRef 3] ]} ∧
  deref (objects roundtrip) 2 = {[ "id" := VStr "a1" ]} ∧
  deref (objects run.2) 2 = {[ "id" := VStr "a1";
                               "balances" := VList [VRef 4];
                               "transactions" := VList [] ]} ∧
  deref (objects run.2) 2 ≠ deref (objects roundtrip) 2.
Proof.
  split_and!; try (vm_compute; reflexivity).
  intros Heq. apply (f_equal (λ d : dict, d !! "balances")) in Heq.
  vm_compute in Heq. discriminate Heq.
Qed.

Lemma collect_all_data_attaches_in_place_witness :
  let run := collect_all_data (GW := Scripted_Gateway) roundtrip in
  scripted_async (client roundtrip) = false ∧
  run.1 = Returns {[ "identity" := VRef 1;
                     "accounts" := VList [VRef 2; VRef 3] ]} ∧
  deref (objects run.2) 2 !! "id" = deref (objects roundtrip) 2 !! "id".
Proof.
  intros run. split; [reflexivity|]. split; [vm_compute; reflexivity|].
  destruct (collect_all_data_attaches_in_place (GW := Scripted_Gateway)
              roundtrip run.2 {[ "identity" := VRef 1;
                                 "accounts" := VList [VRef 2; VRef 3] ]})
    as (identity & g1 & accounts & g2 & items & _ & _ & _ & _ & _ & Hkey & _).
  { reflexivity. }
  { vm_compute. reflexivity. }
  by apply Hkey.
Defined.

(** C5, refuted: the token endpoint answers 200 with an object that has no
    [access_token]; [authenticate] does not fail, it returns [None]. *)
Lemma authenticate_succeeds_without_access_token :
  let run := authenticate (SE := Scripted_Session)
               tokenless_objects tokenless_client in
  run.1 = Returns VNone ∧ token run.2 = VNone ∧
  ¬ ∃ e, run.1 = Raises e.
Proof.
  split_and!; try (vm_compute; reflexivity).
  intros [e He]. vm_compute in He. discriminate He.
Qed.

Lemma authenticate_outcome_witness :
  use_async tokenless_client = false ∧
  session tokenless_client = Some tokenless_session ∧
  (authenticate (SE := Scripted_Session)
     tokenless_objects tokenless_client).1 = Returns VNone ∧
  token (authenticate (SE := Scripted_Session)
           tokenless_objects tokenless_client).2 = VNone.
Proof.
  split; [reflexivity|]. split; [reflexivity|].
  exact (authenticate_outcome (SE := Scripted_Session)
           tokenless_client tokenless_objects tokenless_session
           eq_refl eq_refl).
Defined.

(** C6, refuted twice over: on a client used without entering its context
    the fetch raises [AttributeError], and on a suspending-mode client the
    blocking fetch raises [RuntimeError]; neither is [NotAuthenticated]. *)
Lemma unauthenticated_fetch_raises_other_errors :
  let run1 := get_identity (SE := Scripted_Session) (PY := Opaque_Builtins)
                ∅ unentered_client in
  let run2 := get_identity (SE := Scripted_Session) (PY := Opaque_Builtins)
                ∅ suspending_client in
  token unentered_client = VNone ∧
  run1.1 = Raises (AttributeError "'NoneType' object has no attribute 'get'") ∧
  run1.1 ≠ Raises NotAuthenticated ∧
  token suspending_client = VNone ∧
  run2.1 = Raises (RuntimeError "Use get_identity_async for async mode") ∧
  run2.1 ≠ Raises NotAuthenticated.
Proof.
  split_and!; try (vm_compute; reflexivity);
    intros Heq; vm_compute in Heq; discriminate Heq.
Qed.

Lemma unauthenticated_fetch_is_refused_witness :
  let c := set_token_type (set_token login_client VNone) (VStr "bearer") in
  token c = VNone ∧
  get_identity (SE := Wiretap_Session (SE := Scripted_Session))
               (PY := Opaque_Builtins) ∅ c
  = (Raises NotAuthenticated, c).
Proof.
  intros c. split; [reflexivity|].
  destruct (unauthenticated_fetch_is_refused (SE := Scripted_Session)
              (PY := Opaque_Builtins) c ∅ VNone eq_refl) as [_ Hown].
  specialize (Hown (ex_intro _ login_session eq_refl)).
  apply Forall_cons in Hown as [Hid _]. exact Hid.
Defined.

Lemma authenticate_stores_token_witness :
  let run := authenticate (SE := Wiretap_Session (SE := Scripted_Session))
               login_objects login_client in
  let hdrs := [("Authorization", "bearer tok-1");
               ("Content-Type", "application/json")] in
  run.1 = Returns (VStr "tok-1") ∧
  VStr "tok-1" = token run.2 ∧
  token_type run.2 = VStr "bearer" ∧
  _get_headers (PY := Opaque_Builtins) login_objects run.2
  = (Returns hdrs, run.2) ∧
  requests_sent
    (get_identity (SE := Wiretap_Session (SE := Scripted_Session))
                  (PY := Opaque_Builtins) login_objects run.2).2
  = requests_sent run.2 ++ [GET "https://bank.example/stet/identity" hdrs].
Proof.
  intros run hdrs. split; [vm_compute; reflexivity|].
  destruct (authenticate_stores_token (SE := Scripted_Session)
              (PY := Opaque_Builtins) login_client run.2 login_objects
              (VStr "tok-1"))
    as (t & r & t' & l & Hs & Hpost & Hjson & Htok & Htt & Hret & Hopen
        & Hmode & Hhdrs & Hsent).
  { vm_compute. reflexivity. }
  split; [exact Hret|]. split; [vm_compute; reflexivity|].
  split.
  - rewrite (Hhdrs login_objects eq_refl). vm_compute. reflexivity.
  - destruct (Hsent run.2 login_objects VNone eq_refl eq_refl)
      as [_ Hown].
    specialize (Hown (ex_intro _ t' Hopen) eq_refl).
    rewrite Hmode in Hown. apply Forall2_cons_1 in Hown as [Hid _].
    etrans; [exact Hid|]. vm_compute. reflexivity.
Defined.

Lemma authenticate_without_access_token_witness :
  deref tokenless_objects 1 !! "access_token" = None ∧
  ∃ c', authenticate (SE := Scripted_Session)
          tokenless_objects tokenless_client = (Returns VNone, c') ∧
        token c' = VNone ∧
        get_accounts (SE := Scripted_Session) (PY := Opaque_Builtins)
          tokenless_objects c' = (Raises NotAuthenticated, c').
Proof.
  split; [vm_compute; reflexivity|].
  destruct (authenticate_without_access_token (SE := Scripted_Session)
              (PY := Opaque_Builtins) tokenless_client tokenless_objects
              tokenless_session []
              {| raise_for_status := None; json := Returns (VRef 1) |} 1%positive)
    as (c' & Hauth & Htok & Hafter); try reflexivity.
  exists c'. split; [exact Hauth|]. split; [exact Htok|].
  specialize (Hafter tokenless_objects VNone).
  apply Forall_cons in Hafter as [_ Hafter].
  apply Forall_cons in Hafter as [[Hacc _] _]. exact Hacc.
Defined.

Lemma account_without_id_is_fetched_as_None_witness :
  let s := anonymous_roundtrip in
  let run := collect_all_data
               (GW := BankingAPIClient_Gateway
                        (SE := Wiretap_Session (SE := Scripted_Session))
                        (PY := Opaque_Builtins)) s in
  let hdrs := [("Authorization", "bearer tok-1");
               ("Content-Type", "application/json")] in
  deref (objects s) 1 !! "id" = None ∧
  run.1 = Returns {[ "identity" := VRef 2; "accounts" := VList [VRef 1] ]} ∧
  (∃ more,
     requests_sent (client run.2) =
       [GET "https://bank.example/stet/identity" hdrs;
        GET "https://bank.example/stet/account" hdrs;
        GET "https://bank.example/stet/account/None/balance" hdrs;
        GET "https://bank.example/stet/account/None/transaction" hdrs]
       ++ more) ∧
  deref (objects run.2) 1 !! "balances" = Some (VList []) ∧
  deref (objects run.2) 1 !! "transactions" = Some (VList []).
Proof.
  intros s run hdrs. split; [vm_compute; reflexivity|].
  set (i := get_identity (SE := Wiretap_Session (SE := Scripted_Session))
              (PY := Opaque_Builtins) (objects s) (client s)).
  set (a := get_accounts (SE := Wiretap_Session (SE := Scripted_Session))
              (PY := Opaque_Builtins) (objects s) i.2).
  destruct (account_without_id_is_fetched_as_None (SE := Scripted_Session)
              (PY := Opaque_Builtins) s
              {| objects := objects s; client := a.2 |}
              (VRef 2) (VList [VRef 1]) i.2 a.2 [] [] 1%positive)
    as (_ & more & Hsent & Hnext);
    [vm_compute; reflexivity..|].
  set (b := get_balances (SE := Wiretap_Session (SE := Scripted_Session))
              (PY := Opaque_Builtins) VNone (objects s) a.2).
  destruct (Hnext (VList []) b.2) as [[more' ->] Hgo];
    [vm_compute; reflexivity|].
  set (st2 := attach (objects s) 1%positive "balances" (VList [])) in Hgo.
  set (t := get_transactions (SE := Wiretap_Session (SE := Scripted_Session))
              (PY := Opaque_Builtins) VNone st2 b.2).
  destruct (Hgo (VList []) t.2) as (Hbal & Htr & Hrun);
    [vm_compute; reflexivity|].
  fold run in Hsent, Hrun. cbn [for_each_account ret] in Hrun.
  split; [by rewrite Hrun|]. split.
  - exists more'. etrans; [exact Hsent|]. vm_compute. reflexivity.
  - rewrite Hrun. cbn [snd objects]. split; [exact Hbal|exact Htr].
Defined.

(** * Further properties *)

(** ** The base URL *)

Lemma rstrip_split c s : ∃ n, s = rstrip c s +:+ repeat_char c n.
Proof.
  induction s as [|a s [n IH]]; [by exists 0|].
  cbn [rstrip]. destruct (rstrip c s) as [|b r] eqn:Hr.
  - destruct (Ascii.eqb_spec a c) as [->|Hne].
    + exists (S n). cbn. by rewrite IH at 1.
    + exists n. cbn. by rewrite IH at 1.
  - exists n. cbn. by rewrite IH at 1.
Qed.

Lemma append_nil_inv (s1 s2 : string) : s1 +:+ s2 = "" → s1 = "" ∧ s2 = "".
Proof. destruct s1; [done|discriminate]. Qed.

Lemma rstrip_no_trailing c s s' : rstrip c s ≠ s' +:+ String c "".
Proof.
  revert s'. induction s as [|a s IH]; intros s' Heq.
  - by apply eq_sym, append_nil_inv in Heq as [_ ?].
  - cbn [rstrip] in Heq. destruct (rstrip c s) as [|b r] eqn:Hr.
    + destruct (Ascii.eqb_spec a c) as [->|Hne].
      * by apply eq_sym, append_nil_inv in Heq as [_ ?].
      * destruct s' as [|a' s'']; cbn in Heq.
        -- by injection Heq as ->.
        -- injection Heq as _ Heq.
           by apply eq_sym, append_nil_inv in Heq as [_ ?].
    + destruct s' as [|a' s'']; cbn in Heq.
      * by injection Heq.
      * injection Heq as _ Heq. by apply (IH s'').
Qed.

(** X1. The constructor stores the base URL without its trailing slashes,
    however many there are, and changes nothing else of it: the given URL is
    the stored one followed by slashes only, and the stored one does not end
    in a slash. *)
Theorem base_url_has_no_trailing_slash {W : Type}
    (url user pass : string) (mode : bool) :
  let c := __init__ (W := W) url user pass mode in
  (∃ n, url = base_url c +:+ repeat_char "/"%char n) ∧
  (∀ s, base_url c ≠ s +:+ "/").
Proof.
  cbn. split; [apply rstrip_split|intros s; apply rstrip_no_trailing].
Qed.

(** ** The fetch methods and [authenticate] *)

Section FetchContract.
Context {W : Type} {SE : Session W} {PY : Builtins}.
Implicit Types (c : BankingAPIClient W) (st : store).

Lemma fetch_with_authenticated st url c w :
  session c = Some w → truthy st (token c) = true →
  fetch_with st url c =
    let '(o, w') :=
      session_get url (auth_headers st (token_type c) (token c)) w in
    (fetch_result o, set_session c (Some w')).
Proof.
  intros Hs Htok. rewrite fetch_with_cases, Hs, Htok.
  by destruct (session_get _ _ w) as [[r|e] w'].
Qed.

(** X2. On a client that holds a token and whose session is open, each fetch
    method of the client's own mode makes one call of [session.get], to the
    base URL followed by the path of its resource and with the
    authorization headers; it raises what the session raised, else what
    [raise_for_status] raised, and else returns the decoded body or raises
    the decoding error. Nothing of the client changes but the session. *)
Theorem fetch_contract (st : store) (id : value) (c : BankingAPIClient W)
    (w : W) :
  session c = Some w →
  truthy st (token c) = true →
  Forall2 (λ op path,
             op st c =
               let '(o, w') :=
                 session_get (base_url c +:+ path)
                             (auth_headers st (token_type c) (token c)) w in
               (fetch_result o, set_session c (Some w')))
          (if use_async c then suspending_fetches id else blocking_fetches id)
          (fetch_paths st id).
Proof.
  intros Hs Htok. destruct (use_async c) eqn:Hmode.
  - eapply Forall2_impl; [apply suspending_fetches_paths|].
    intros op path Hop. rewrite Hop by done.
    by apply fetch_with_authenticated.
  - eapply Forall2_impl; [apply blocking_fetches_paths|].
    intros op path Hop. rewrite Hop by done.
    by apply fetch_with_authenticated.
Qed.

(** X4. [authenticate] and [authenticate_async] change the stored token and
    token type together or not at all: when the call raises, whatever the
    reason, both are what they were, so a client that held a token still
    holds it; when it returns, the stored token is the value returned. The
    base URL, the user name, the password and the mode never change. *)
Theorem authenticate_keeps_credentials_on_failure
    (c : BankingAPIClient W) (st : store) :
  Forall (λ op,
            let c' := (op st c).2 in
            match (op st c).1 with
            | Raises _ => token c' = token c ∧ token_type c' = token_type c
            | Returns tok => token c' = tok
            end ∧
            base_url c' = base_url c ∧ username c' = username c ∧
            password c' = password c ∧ use_async c' = use_async c)
         [authenticate; authenticate_async].
Proof.
  apply List.Forall_cons; [|apply List.Forall_cons; [|apply List.Forall_nil]];
    cbn zeta;
    rewrite ?authenticate_cases, ?authenticate_async_cases;
    destruct (use_async c) eqn:Hmode; cbn; rewrite ?Hmode; try done;
    (destruct (session c) as [w|]; cbn; rewrite ?Hmode; [|done]);
    (destruct (session_post _ _ _ w) as [[r|e] w']; cbn; rewrite ?Hmode;
       [|done]);
    (destruct (raise_for_status r); cbn; rewrite ?Hmode; [done|]);
    destruct (json r) as [[]|]; cbn; rewrite ?Hmode; done.
Qed.

Lemma fetch_with_mode st url c (b : bool) :
  fetch_with st url (set_use_async c b) =
    let '(o, c') := fetch_with st url c in (o, set_use_async c' b).
Proof.
  rewrite !fetch_with_cases. cbn [session token token_type set_use_async].
  destruct (session c) as [w|]; [|done].
  destruct (truthy st (token c)); [|done].
  by destruct (session_get _ _ w) as [o w'].
Qed.

Lemma set_use_async_id c : set_use_async c (use_async c) = c.
Proof. by destruct c. Qed.

Lemma authenticate_mode st c :
  authenticate_async st (set_use_async c true) =
    let '(o, c') := authenticate st (set_use_async c false) in
    (o, set_use_async c' true).
Proof.
  rewrite authenticate_cases, authenticate_async_cases. cbn.
  destruct (session c) as [w|]; [|done].
  unfold auth_data. cbn.
  destruct (session_post _ _ _ w) as [[r|e] w']; [|done].
  destruct (raise_for_status r); [done|].
  destruct (json r) as [[]|]; done.
Qed.

(** X5. The suspending methods are the blocking methods of the other mode:
    [authenticate_async] and each suspending fetch, on a client in
    suspending mode, make the same calls and end with the same outcome and
    the same client as their blocking counterparts on that client in
    blocking mode. *)
Theorem suspending_methods_mirror_blocking
    (c : BankingAPIClient W) (st : store) (id : value) :
  Forall2 (λ op op_async,
             op_async st (set_use_async c true) =
               let '(o, c') := op st (set_use_async c false) in
               (o, set_use_async c' true))
          (authenticate :: blocking_fetches id)
          (authenticate_async :: suspending_fetches id).
Proof.
  constructor; [apply authenticate_mode|].
  pose proof (blocking_fetches_paths id st) as Hb.
  pose proof (suspending_fetches_paths id st) as Hs.
  unfold blocking_fetches, suspending_fetches, fetch_paths in *.
  repeat match goal with
         | H : Forall2 _ (_ :: _) (_ :: _) |- _ =>
             apply Forall2_cons_1 in H as [? H]
         end.
  repeat constructor;
    match goal with
    | Hb' : ∀ c, _ → ?op st c = _, Hs' : ∀ c, _ → ?op' st c = _
      |- ?op' st _ = let '(_, _) := ?op st _ in _ =>
        rewrite (Hb' (set_use_async c false) eq_refl),
                (Hs' (set_use_async c true) eq_refl);
        cbn [base_url set_use_async];
        rewrite (fetch_with_mode st _ c true), (fetch_with_mode st _ c false);
        by destruct (fetch_with st _ c)
    end.
Qed.

(** X17. Entering the context manager of the other mode opens no session
    ([__enter__] on a suspending client, [__aenter__] on a blocking one,
    leave the client as it is), and [authenticate] and the fetch methods of
    the client's own mode then raise [AttributeError] and change nothing;
    entering the context manager of the client's own mode stores a new
    session. *)
Theorem other_context_opens_no_session
    (c : BankingAPIClient W) (st : store) (id : value) :
  session c = None →
  ((if use_async c then __enter__ else __aenter__) c).2 = c ∧
  Forall (λ op, ∃ msg, op st c = (Raises (AttributeError msg), c))
         (if use_async c then authenticate_async :: suspending_fetches id
          else authenticate :: blocking_fetches id) ∧
  session ((if use_async c then __aenter__ else __enter__) c).2
  = Some new_session.
Proof.
  intros Hs. split_and!.
  - unfold __enter__, __aenter__, bind, this, ret.
    by destruct (use_async c) eqn:Hmode; rewrite Hmode.
  - destruct (use_async c) eqn:Hmode; constructor.
    + eexists. by rewrite authenticate_async_cases, Hmode, Hs.
    + eapply Forall_impl; [apply suspending_fetches_shape|].
      intros op (path & msg & Hop). eexists.
      by rewrite Hop, Hmode, fetch_with_cases, Hs.
    + eexists. by rewrite authenticate_cases, Hmode, Hs.
    + eapply Forall_impl; [apply blocking_fetches_shape|].
      intros op (path & msg & Hop). eexists.
      by rewrite Hop, Hmode, fetch_with_cases, Hs.
  - unfold __enter__, __aenter__, bind, this, put.
    by destruct (use_async c) eqn:Hmode; rewrite Hmode.
Qed.

(** X18. Leaving the context closes the session but does not forget it,
    nor the token: [__exit__] on a blocking client ([__aexit__] on a
    suspending one) with an open session replaces the session by the closed
    one and changes nothing else, the exit method of the other mode changes
    nothing at all, and a fetch made after leaving still calls
    [session.get] on the closed session, with the same authorization
    headers, and ends as that call does. *)
Theorem client_outlives_its_context
    (c : BankingAPIClient W) (st : store) (id : value) (w : W) :
  session c = Some w →
  let c' := ((if use_async c then __aexit__ else __exit__) c).2 in
  c' = set_session c (Some (session_close w)) ∧
  ((if use_async c then __exit__ else __aexit__) c).2 = c ∧
  (truthy st (token c) = true →
   Forall2 (λ op path,
              op st c' =
                let '(o, w') :=
                  session_get (base_url c +:+ path)
                              (auth_headers st (token_type c) (token c))
                              (session_close w) in
                (fetch_result o, set_session c (Some w')))
           (if use_async c then suspending_fetches id
            else blocking_fetches id)
           (fetch_paths st id)).
Proof.
  intros Hs. cbn zeta.
  assert (((if use_async c then __aexit__ else __exit__) c).2
          = set_session c (Some (session_close w))) as ->.
  { unfold __exit__, __aexit__, bind, this, put, ret.
    by destruct (use_async c) eqn:Hmode; rewrite Hs, Hmode. }
  split_and!; [done| |].
  - unfold __exit__, __aexit__, bind, this, put, ret.
    by destruct (use_async c) eqn:Hmode; rewrite Hs, Hmode.
  - intros Htok. destruct (use_async c) eqn:Hmode.
    + eapply Forall2_impl; [apply suspending_fetches_paths|].
      intros op path Hop. rewrite Hop by done.
      by rewrite (fetch_with_authenticated st _ _ (session_close w)).
    + eapply Forall2_impl; [apply blocking_fetches_paths|].
      intros op path Hop. rewrite Hop by done.
      by rewrite (fetch_with_authenticated st _ _ (session_close w)).
Qed.

(** X7. A token that Python takes for false (the empty string, zero,
    [false], [null], an empty list or object) counts as no token:
    [authenticate] returns it without complaint, and every fetch method then
    raises [NotAuthenticated] and leaves the client as it is. *)
Theorem falsy_token_is_not_authenticated
    (c c' : BankingAPIClient W) (st st2 : store) (tok id : value) :
  authenticate st c = (Returns tok, c') →
  truthy st2 tok = false →
  token c' = tok ∧
  Forall (λ op, op st2 c' = (Raises NotAuthenticated, c'))
         (blocking_fetches id).
Proof.
  intros Hauth Htok.
  apply authenticate_returns in Hauth
    as (w & r & w' & l & Hmode & Hs & _ & _ & _ & -> & ->).
  split; [done|].
  pose proof (fetches_unauthenticated id
                (set_token_type
                   (set_token (set_session c (Some w'))
                      (default VNone (deref st l !! "access_token")))
                   (default (VStr "bearer") (deref st l !! "token_type")))
                st2) as Hun.
  cbn [use_async set_token_type set_token set_session] in Hun.
  rewrite Hmode in Hun. apply Hun; [by eexists|done].
Qed.

(** X8. The default [bearer] applies only to an absent [token_type]: when
    the token endpoint answers with an object whose [token_type] is [null],
    [authenticate] stores [None] as the token type, and the headers built
    from then on carry [Authorization: None {token}]. *)
Theorem null_token_type_is_kept
    (c c' : BankingAPIClient W) (st st2 : store) (tok : value)
    (w w' : W) (r : response) (l : loc) :
  authenticate st c = (Returns tok, c') →
  session c = Some w →
  session_post (base_url c +:+ "/oauth/token") (auth_data c) form_headers w
  = (Returns r, w') →
  json r = Returns (VRef l) →
  deref st l !! "token_type" = Some VNone →
  truthy st2 tok = true →
  token_type c' = VNone ∧
  _get_headers st2 c' =
    (Returns [("Authorization", "None " +:+ py_str st2 tok);
              ("Content-Type", "application/json")], c').
Proof.
  intros Hauth Hs Hpost Hjson Htt Htok.
  apply authenticate_returns in Hauth
    as (w0 & r0 & w0' & l0 & Hmode & Hs0 & Hpost0 & _ & Hjson0 & -> & ->).
  rewrite Hs in Hs0. injection Hs0 as <-.
  rewrite Hpost in Hpost0. injection Hpost0 as <- <-.
  rewrite Hjson in Hjson0. injection Hjson0 as <-.
  rewrite Htt. cbn. split; [done|].
  unfold _get_headers, bind, this, raise, ret. cbn. by rewrite Htok.
Qed.
End FetchContract.

Section AuthenticateRequest.
Context {W : Type} {SE : Session W}.

(** X3. Whatever the outcome, [authenticate] (and [authenticate_async] on a
    suspending client) with the session open sends exactly one request: a
    POST to the base URL followed by [/oauth/token], with the form fields
    [username], [password] and [scope=stet] and the header
    [Content-Type: application/x-www-form-urlencoded]. *)
Theorem authenticate_sends_one_form_post
    (c : BankingAPIClient (Wiretap W)) (st : store) (t : Wiretap W) :
  session c = Some t →
  requests_sent ((if use_async c then authenticate_async else authenticate)
                   st c).2
  = sent t ++ [POST (base_url c +:+ "/oauth/token")
                    [("username", username c); ("password", password c);
                     ("scope", "stet")]
                    [("Content-Type", "application/x-www-form-urlencoded")]].
Proof.
  intros Hs.
  destruct (use_async c) eqn:Hmode;
    rewrite ?authenticate_cases, ?authenticate_async_cases, Hmode, Hs;
    unfold requests_sent; cbn;
    (destruct (session_post _ _ _ (wire t)) as [[r|e] w'] eqn:Hpost;
       [|done]);
    (destruct (raise_for_status r); [done|]);
    destruct (json r) as [[]|]; done.
Qed.
End AuthenticateRequest.

(** ** The collectors *)

Section CollectorEdgeProperties.
Context {G : Type} {GW : Gateway G}.

(** X10. What [collect_all_data] does when the account endpoint does not
    answer with a non-empty list of objects. For [null], a boolean or a
    number it raises [TypeError]; for an empty list, an empty string or an
    empty object it returns the result with that value as [accounts]; for a
    non-empty string or object, or a list whose first element is not an
    object, it raises [AttributeError]. In all these cases only the two
    fetches for identity and accounts are made and no object is changed. *)
Theorem degenerate_account_list
    (s : BankingDataCollector G) (identity accounts : value) (g1 g2 : G) :
  gw_use_async (client s) = false →
  gw_get_identity (objects s) (client s) = (Returns identity, g1) →
  gw_get_accounts (objects s) g1 = (Returns accounts, g2) →
  let s' := {| objects := objects s; client := g2 |} in
  let result := {[ "identity" := identity; "accounts" := accounts ]} in
  let not_iterable :=
    TypeError ("'" +:+ type_name accounts +:+ "' object is not iterable") in
  let no_get (a : value) :=
    AttributeError ("'" +:+ type_name a +:+
                    "' object has no attribute 'get'") in
  match accounts with
  | VNone | VBool _ | VInt _ | VFloat _ =>
      collect_all_data s = (Raises not_iterable, s')
  | VList [] | VStr "" => collect_all_data s = (Returns result, s')
  | VList (VRef _ :: _) => True
  | VList (a :: _) => collect_all_data s = (Raises (no_get a), s')
  | VStr _ => collect_all_data s = (Raises (no_get (VStr "")), s')
  | VRef l =>
      collect_all_data s =
        if decide (deref (objects s) l = ∅) then (Returns result, s')
        else (Raises (no_get (VStr "")), s')
  end.
Proof.
  intros Hmode Hi Ha. cbn zeta.
  rewrite collect_all_data_sync by done.
  destruct accounts as [| | | |str|items|l];
    try (by eapply aggregate_not_iterable).
  - destruct str as [|a str]; (erewrite aggregate_loop; [|done..]);
      cbn -[for_each_account].
    + done.
    + by rewrite for_each_account_non_object.
  - destruct items as [|a items].
    + by erewrite aggregate_loop; [|done..].
    + destruct a; try done;
        (erewrite aggregate_loop; [|done..]);
        by rewrite for_each_account_non_object.
  - erewrite aggregate_loop; [|done..]. cbn -[for_each_account].
    destruct (decide (deref (objects s) l = ∅)) as [->|Hne].
    + by rewrite map_to_list_empty.
    + destruct (map_to_list (deref (objects s) l)) as [|[k v] kvs] eqn:Hl.
      { by apply map_to_list_empty_iff in Hl. }
      cbn -[for_each_account]. by rewrite for_each_account_non_object.
Qed.

(** X11. An element of the account list that is not an object stops
    [collect_all_data] where the loop reaches it: once the accounts before
    it are done, the collector raises [AttributeError] without making any
    fetch for that element or for the ones after it, and the objects stay as
    the earlier accounts left them. *)
Theorem non_object_account_stops_the_run
    (s s1 : BankingDataCollector G) (identity accounts a : value) (g1 g2 : G)
    (pre post : list value) :
  gw_use_async (client s) = false →
  gw_get_identity (objects s) (client s) = (Returns identity, g1) →
  gw_get_accounts (objects s) g1 = (Returns accounts, g2) →
  py_iter (objects s) accounts = Returns (pre ++ a :: post) →
  (∀ l, a ≠ VRef l) →
  for_each_account gw_get_balances gw_get_transactions pre
    {| objects := objects s; client := g2 |} = (Returns tt, s1) →
  collect_all_data s =
    (Raises (AttributeError ("'" +:+ type_name a +:+
                             "' object has no attribute 'get'")), s1).
Proof.
  intros Hmode Hi Ha Hit Hobj Hpre.
  rewrite collect_all_data_sync by done.
  erewrite aggregate_loop; [|done..].
  by rewrite for_each_account_app, Hpre, for_each_account_non_object.
Qed.

(** X12. A failed run is not undone. When, for some account, the balances
    fetch returns and the transactions fetch raises, [collect_all_data]
    raises that exception and returns nothing, but the account's dict
    object has already been given the new [balances] (its [transactions]
    are what they were), and the accounts before it keep both of their
    keys. *)
Theorem failed_run_leaves_balances_attached
    (s s1 : BankingDataCollector G) (identity accounts b : value)
    (g1 g2 g3 g4 : G) (pre post : list value) (l : loc) (e : exn) :
  gw_use_async (client s) = false →
  gw_get_identity (objects s) (client s) = (Returns identity, g1) →
  gw_get_accounts (objects s) g1 = (Returns accounts, g2) →
  py_iter (objects s) accounts = Returns (pre ++ VRef l :: post) →
  for_each_account gw_get_balances gw_get_transactions pre
    {| objects := objects s; client := g2 |} = (Returns tt, s1) →
  let id := account_id (objects s1) (VRef l) in
  gw_get_balances id (objects s1) (client s1) = (Returns b, g3) →
  gw_get_transactions id (attach (objects s1) l "balances" b) g3
  = (Raises e, g4) →
  let after := attach (objects s1) l "balances" b in
  collect_all_data s = (Raises e, {| objects := after; client := g4 |}) ∧
  deref after l !! "balances" = Some b ∧
  deref after l !! "transactions" = deref (objects s1) l !! "transactions" ∧
  ∀ a, a ∈ pre →
       ∃ l', a = VRef l' ∧ is_Some (deref after l' !! "balances") ∧
             is_Some (deref after l' !! "transactions").
Proof.
  intros Hmode Hi Ha Hit Hpre id Hb Ht after. split_and!.
  - rewrite collect_all_data_sync by done.
    erewrite aggregate_loop; [|done..].
    rewrite for_each_account_app, Hpre, for_each_account_step.
    subst id after. cbv zeta. rewrite Hb. cbv beta iota. by rewrite Ht.
  - unfold after. by rewrite deref_attach_eq, lookup_insert_eq.
  - unfold after. by rewrite deref_attach_eq, lookup_insert_ne.
  - intros a Hin.
    destruct (for_each_account_attaches _ _ _ _ _ Hpre a Hin)
      as (l' & -> & Hbal & Htr).
    exists l'. split; [done|].
    destruct (grows_attach (objects s1) l "balances" b (or_introl eq_refl) l')
      as (_ & _ & Hsome).
    split; by apply Hsome.
Qed.
End CollectorEdgeProperties.

Section SuspendingCollector.
Context {G : Type} {GW : Gateway G}.

(** X13. [collect_all_data_async] stops at the first fetch that fails:
    against any gateway, a fetch of the run that raised is the last fetch of
    the run, every fetch before it returned, and the collector ends by
    raising that very exception. *)
Theorem collect_all_data_async_aborts_on_first_failure
    (s s' : BankingDataCollector (Recorder G)) (out : outcome dict)
    (pre post : list (fetch * outcome value)) (f : fetch) (e : exn) :
  gw_use_async (client s) = true →
  collect_all_data_async s = (out, s') →
  journal (client s') = journal (client s) ++ pre ++ (f, Raises e) :: post →
  Forall (λ c, ∃ v, c.2 = Returns v) pre ∧ post = [] ∧ out = Raises e.
Proof.
  intros Hmode Hrun Hj. rewrite collect_all_data_async_async in Hrun by done.
  apply recorded_aggregate_aborts in Hrun as (new & Hj' & Hnew).
  rewrite Hj' in Hj. apply app_inv_head in Hj.
  split; [by eapply aborts_prefix_returns|by eapply Hnew].
Qed.

(** X14. In the result of a run of [collect_all_data_async] that returns,
    every account record carries both [balances] and [transactions], holding
    exactly what the two fetches awaited for that account returned (for a
    record listed more than once, those of its last place in the list). *)
Theorem collected_accounts_carry_both_fetches_async
    (s s' : BankingDataCollector (Recorder G)) (r : dict) :
  gw_use_async (client s) = true →
  collect_all_data_async s = (Returns r, s') →
  ∃ identity accounts items fetched,
    r = {[ "identity" := identity; "accounts" := accounts ]} ∧
    py_iter (objects s) accounts = Returns items ∧
    length fetched = length items ∧
    journal (client s') =
      journal (client s)
      ++ (Identity, Returns identity) :: (Accounts, Returns accounts)
      :: fetch_log (objects s) items fetched ∧
    ∀ i a b t,
      items !! i = Some a → fetched !! i = Some (b, t) →
      ∃ l, a = VRef l ∧
           is_Some (deref (objects s') l !! "balances") ∧
           is_Some (deref (objects s') l !! "transactions") ∧
           (VRef l ∉ drop (S i) items →
            deref (objects s') l !! "balances" = Some b ∧
            deref (objects s') l !! "transactions" = Some t).
Proof.
  intros Hmode Hrun. rewrite collect_all_data_async_async in Hrun by done.
  by apply recorded_aggregate_returns in Hrun.
Qed.

(** X15. [collect_all_data_async] attaches in place, like its blocking
    twin: the [accounts] of the result is the value the gateway returned,
    each listed record is the gateway's own dict object with [balances] and
    [transactions] set, every other key is as it was, and no object outside
    the list is touched. *)
Theorem collect_all_data_async_attaches_in_place
    (s s' : BankingDataCollector G) (r : dict) :
  gw_use_async (client s) = true →
  collect_all_data_async s = (Returns r, s') →
  ∃ identity g1 accounts g2 items,
    gw_get_identity_async (objects s) (client s) = (Returns identity, g1) ∧
    gw_get_accounts_async (objects s) g1 = (Returns accounts, g2) ∧
    r = {[ "identity" := identity; "accounts" := accounts ]} ∧
    py_iter (objects s) accounts = Returns items ∧
    (∀ l, VRef l ∉ items → objects s' !! l = objects s !! l) ∧
    (∀ l k, k ≠ "balances" → k ≠ "transactions" →
            deref (objects s') l !! k = deref (objects s) l !! k) ∧
    (∀ a, a ∈ items →
          ∃ l, a = VRef l ∧
               is_Some (deref (objects s') l !! "balances") ∧
               is_Some (deref (objects s') l !! "transactions")).
Proof.
  intros Hmode Hrun. rewrite collect_all_data_async_async in Hrun by done.
  apply aggregate_in_place in Hrun
    as (identity & g1 & accounts & g2 & items & Hi & Ha & Hr & Hit & Hg & Hat).
  exists identity, g1, accounts, g2, items. split_and!; try done.
  - intros l. by destruct (Hg l) as (? & _ & _).
  - intros l. by destruct (Hg l) as (_ & ? & _).
Qed.
End SuspendingCollector.

Section CollectorOnClient.
Context {W : Type} {SE : Session W} {PY : Builtins}.
Implicit Types (c : BankingAPIClient W) (st : store).

Lemma get_identity_unauthenticated st c :
  is_Some (session c) → truthy st (token c) = false →
  (use_async c = false →
   get_identity st c = (Raises NotAuthenticated, c)) ∧
  (use_async c = true →
   get_identity_async st c = (Raises NotAuthenticated, c)).
Proof.
  intros Hs Htok. split; intros Hmode.
  - unfold get_identity, bind at 1, this. rewrite Hmode.
    by apply fetch_with_unauthenticated.
  - unfold get_identity_async, bind at 1, this. rewrite Hmode.
    by apply fetch_with_unauthenticated.
Qed.

(** X9. A collector handed a client that holds no token (or a token Python
    takes for false) raises [NotAuthenticated] from its first fetch: with
    the session open, the collector of the client's mode sends no request
    and changes neither the client nor any object. *)
Theorem collector_needs_a_token (c : BankingAPIClient W) (st : store) :
  is_Some (session c) →
  truthy st (token c) = false →
  (if use_async c then collect_all_data_async else collect_all_data)
    {| objects := st; client := c |}
  = (Raises NotAuthenticated, {| objects := st; client := c |}).
Proof.
  intros Hs Htok.
  destruct (get_identity_unauthenticated st c Hs Htok) as [Hsync Hasync].
  destruct (use_async c) eqn:Hmode.
  - rewrite collect_all_data_async_async by done.
    unfold aggregate, bind at 1, call at 1. cbn [objects client].
    change (gw_get_identity_async st c) with (get_identity_async st c).
    by rewrite (Hasync eq_refl).
  - rewrite collect_all_data_sync by done.
    unfold aggregate, bind at 1, call at 1. cbn [objects client].
    change (gw_get_identity st c) with (get_identity st c).
    by rewrite (Hsync eq_refl).
Qed.
End CollectorOnClient.

Section Simulation.
Context {G G' : Type} (R : G → G' → Prop).
Implicit Types (gi ga : store → M G value) (hi ha : store → M G' value).
Implicit Types (gb gt : value → store → M G value).
Implicit Types (hb ht : value → store → M G' value).

Lemma for_each_account_sim gb gt hb ht :
  (∀ id, simulates R (gb id) (hb id)) →
  (∀ id, simulates R (gt id) (ht id)) →
  ∀ items st g g',
    R g g' →
    let r := for_each_account gb gt items {| objects := st; client := g |} in
    let r' := for_each_account hb ht items
                {| objects := st; client := g' |} in
    r.1 = r'.1 ∧ objects r.2 = objects r'.2 ∧ R (client r.2) (client r'.2).
Proof.
  intros Hgb Hgt items. induction items as [|a rest IH]; intros st g g' HR.
  { done. }
  assert ((∃ l, a = VRef l) ∨ ∀ l, a ≠ VRef l) as [[l ->]|Ha]
    by (destruct a; eauto).
  2:{ cbn zeta. by rewrite !for_each_account_non_object. }
  cbn zeta. rewrite !for_each_account_step. cbn [objects client]. cbv zeta.
  destruct (Hgb (account_id st (VRef l)) st g g' HR) as [Hb1 Hb2].
  destruct (gb _ st g) as [[b|e] g1], (hb _ st g') as [[b'|e'] g1'];
    cbn in Hb1, Hb2; try discriminate Hb1; injection Hb1 as <-; [|done].
  destruct (Hgt (account_id st (VRef l)) (attach st l "balances" b) g1 g1' Hb2)
    as [Ht1 Ht2].
  destruct (gt _ _ g1) as [[t|e] g2], (ht _ _ g1') as [[t'|e'] g2'];
    cbn in Ht1, Ht2; try discriminate Ht1; injection Ht1 as <-; [|done].
  by apply IH.
Qed.

Lemma aggregate_sim gi ga gb gt hi ha hb ht :
  simulates R gi hi → simulates R ga ha →
  (∀ id, simulates R (gb id) (hb id)) →
  (∀ id, simulates R (gt id) (ht id)) →
  ∀ st g g',
    R g g' →
    let r := aggregate gi ga gb gt {| objects := st; client := g |} in
    let r' := aggregate hi ha hb ht {| objects := st; client := g' |} in
    r.1 = r'.1 ∧ objects r.2 = objects r'.2 ∧ R (client r.2) (client r'.2).
Proof.
  intros Hgi Hga Hgb Hgt st g g' HR. cbn zeta.
  unfold aggregate, bind, call, iterate, ret. cbn [objects client].
  destruct (Hgi st g g' HR) as [Hi1 Hi2].
  destruct (gi st g) as [[identity|e] g1], (hi st g') as [[identity'|e'] g1'];
    cbn in Hi1, Hi2; try discriminate Hi1; injection Hi1 as <-;
    cbn -[for_each_account py_iter]; [|done].
  destruct (Hga st g1 g1' Hi2) as [Ha1 Ha2].
  destruct (ga st g1) as [[accounts|e] g2],
           (ha st g1') as [[accounts'|e'] g2'];
    cbn in Ha1, Ha2; try discriminate Ha1; injection Ha1 as <-;
    cbn -[for_each_account py_iter]; [|done].
  destruct (py_iter st accounts) as [items|e]; [|done].
  destruct (for_each_account_sim gb gt hb ht Hgb Hgt items st g2 g2' Ha2)
    as (Hl1 & Hl2 & Hl3).
  destruct (for_each_account gb gt items _) as [[[]|e] s1],
           (for_each_account hb ht items _) as [[[]|e'] s1'];
    cbn in Hl1, Hl2, Hl3; try discriminate Hl1; cbn; [done|].
  by injection Hl1 as <-.
Qed.
End Simulation.

Section Mirror.
Context {W : Type} {SE : Session W} {PY : Builtins}.
Implicit Types (c : BankingAPIClient W) (st : store).

Lemma fetches_simulate id :
  Forall2 (simulates mirror) (blocking_fetches id) (suspending_fetches id).
Proof.
  assert (∀ path : store → string,
            ∀ op op' : store → M (BankingAPIClient W) value,
              (∀ st c, use_async c = false →
                       op st c = fetch_with st (base_url c +:+ path st) c) →
              (∀ st c, use_async c = true →
                       op' st c = fetch_with st (base_url c +:+ path st) c) →
              simulates mirror op op') as Hsim.
  { intros path op op' Hop Hop' st c c' [Hmode ->].
    rewrite (Hop st c Hmode), (Hop' st (set_use_async c true) eq_refl).
    cbn [base_url set_use_async]. rewrite fetch_with_mode.
    pose proof (fetch_with_keeps st (base_url c +:+ path st) c)
      as (_ & _ & Hkeep & _).
    destruct (fetch_with st _ c) as [o c1]. cbn in *.
    split; [done|]. split; [congruence|done]. }
  unfold blocking_fetches, suspending_fetches. repeat apply Forall2_cons_2;
    [..|apply Forall2_nil_2].
  - apply (Hsim (λ _, "/stet/identity")); intros st c Hmode.
    + unfold get_identity, bind at 1, this. by rewrite Hmode.
    + unfold get_identity_async, bind at 1, this. by rewrite Hmode.
  - apply (Hsim (λ _, "/stet/account")); intros st c Hmode.
    + unfold get_accounts, bind at 1, this. by rewrite Hmode.
    + unfold get_accounts_async, bind at 1, this. by rewrite Hmode.
  - apply (Hsim (λ st, "/stet/account/" +:+ py_str st id)); intros st c Hmode.
    + unfold get_account, bind at 1, this. by rewrite Hmode.
    + unfold get_account_async, bind at 1, this. by rewrite Hmode.
  - apply (Hsim (λ st, "/stet/account/" +:+ py_str st id +:+ "/balance"));
      intros st c Hmode.
    + unfold get_balances, bind at 1, this. by rewrite Hmode.
    + unfold get_balances_async, bind at 1, this. by rewrite Hmode.
  - apply (Hsim (λ st, "/stet/account/" +:+ py_str st id +:+ "/transaction"));
      intros st c Hmode.
    + unfold get_transactions, bind at 1, this. by rewrite Hmode.
    + unfold get_transactions_async, bind at 1, this. by rewrite Hmode.
Qed.

(** X6. The suspending collector is the blocking collector of the other
    mode: on a client in suspending mode [collect_all_data_async] ends with
    the same outcome, the same objects and the same client as
    [collect_all_data] on that client in blocking mode. *)
Theorem collect_all_data_async_mirrors_blocking
    (c : BankingAPIClient W) (st : store) :
  use_async c = false →
  let run := collect_all_data {| objects := st; client := c |} in
  collect_all_data_async {| objects := st; client := set_use_async c true |}
  = (run.1, {| objects := objects run.2;
               client := set_use_async (client run.2) true |}).
Proof.
  intros Hmode. cbn zeta.
  rewrite collect_all_data_sync, collect_all_data_async_async by done.
  assert (∀ id, simulates mirror (gw_get_identity (G := BankingAPIClient W))
                          gw_get_identity_async ∧
                simulates mirror (gw_get_accounts (G := BankingAPIClient W))
                          gw_get_accounts_async ∧
                simulates mirror
                  (gw_get_balances (G := BankingAPIClient W) id)
                  (gw_get_balances_async id) ∧
                simulates mirror
                  (gw_get_transactions (G := BankingAPIClient W) id)
                  (gw_get_transactions_async id)) as Hsim.
  { intros id. pose proof (fetches_simulate id) as H.
    unfold blocking_fetches, suspending_fetches in H.
    apply Forall2_cons_1 in H as [Hi H].
    apply Forall2_cons_1 in H as [Ha H].
    apply Forall2_cons_1 in H as [_ H].
    apply Forall2_cons_1 in H as [Hb H].
    apply Forall2_cons_1 in H as [Ht _]. done. }
  destruct (aggregate_sim mirror _ _ _ _ _ _ _ _
              (proj1 (Hsim VNone)) (proj1 (proj2 (Hsim VNone)))
              (λ id, proj1 (proj2 (proj2 (Hsim id))))
              (λ id, proj2 (proj2 (proj2 (Hsim id))))
              st c (set_use_async c true) (conj Hmode eq_refl))
    as (H1 & H2 & _ & H3).
  destruct (aggregate gw_get_identity_async _ _ _ _) as [o' [st' c']].
  cbn [fst snd objects client] in H1, H2, H3. by rewrite H1, H2, H3.
Qed.
End Mirror.

Lemma py_str_scalar {PY : Builtins} st st' v :
  scalar v = true → py_str st' v = py_str st v.
Proof. by destruct v. Qed.

Lemma account_requests_ext {PY : Builtins} base hdrs st st' a :
  account_id st' a = account_id st a →
  scalar (account_id st a) = true →
  account_requests base hdrs st' a = account_requests base hdrs st a.
Proof.
  intros Hid Hsc. unfold account_requests.
  by rewrite Hid, (py_str_scalar st st').
Qed.

Lemma account_requests_bind_ext {PY : Builtins} base hdrs st st' items :
  (∀ a, account_id st' a = account_id st a) →
  Forall (λ a, scalar (account_id st a) = true) items →
  items ≫= account_requests base hdrs st'
  = items ≫= account_requests base hdrs st.
Proof.
  intros Hid Hsc. induction Hsc as [|a rest Ha _ IH]; [done|].
  rewrite !bind_cons, IH. f_equal. by apply account_requests_ext.
Qed.

Section RequestsOfARun.
Context {W : Type} {SE : Session W} {PY : Builtins}.
Implicit Types (c : BankingAPIClient (Wiretap W)) (st : store).
Implicit Types (s : BankingDataCollector (BankingAPIClient (Wiretap W))).

Lemma ready_fetch_with base kind tok st url c v c' :
  tok ≠ "" → ready base kind tok c →
  fetch_with st url c = (Returns v, c') →
  ready base kind tok c' ∧
  requests_sent c' =
    requests_sent c
    ++ [GET url [("Authorization", kind +:+ " " +:+ tok);
                 ("Content-Type", "application/json")]].
Proof.
  intros Hne (Hmode & Hbase & Hkind & Htok).
  rewrite fetch_with_cases, Hkind, Htok. unfold requests_sent.
  destruct (session c) as [t|] eqn:Hs; [|done].
  cbn [truthy]. destruct (String.eqb_spec tok "") as [|_]; [done|].
  cbn. destruct (session_get _ _ (wire t)) as [o w]. intros [= _ <-].
  done.
Qed.

Lemma ready_fetches base kind tok st id c v c' :
  tok ≠ "" → ready base kind tok c →
  let hdrs := [("Authorization", kind +:+ " " +:+ tok);
               ("Content-Type", "application/json")] in
  Forall2 (λ op path,
             op st c = (Returns v, c') →
             ready base kind tok c' ∧
             requests_sent c' = requests_sent c ++ [GET (base +:+ path) hdrs])
          (blocking_fetches id) (fetch_paths st id).
Proof.
  intros Hne Hready. cbn zeta.
  eapply Forall2_impl; [apply blocking_fetches_paths|].
  intros op path Hop. rewrite Hop by apply Hready.
  destruct Hready as (? & <- & ? & ?). by apply ready_fetch_with.
Qed.

Lemma ready_loop base kind tok items s s' :
  tok ≠ "" → ready base kind tok (client s) →
  Forall (λ a, scalar (account_id (objects s) a) = true) items →
  for_each_account get_balances get_transactions items s = (Returns tt, s') →
  let hdrs := [("Authorization", kind +:+ " " +:+ tok);
               ("Content-Type", "application/json")] in
  ready base kind tok (client s') ∧
  requests_sent (client s') =
    requests_sent (client s)
    ++ (items ≫= account_requests base hdrs (objects s)).
Proof.
  intros Hne. revert s. induction items as [|a rest IH];
    intros s Hready Hsc Hrun; cbn zeta.
  { injection Hrun as <-. by rewrite app_nil_r. }
  apply Forall_cons in Hsc as [Ha Hrest].
  apply for_each_account_cons in Hrun
    as [(e & _ & [=] & _)|(l & -> & [(e & g1 & _ & [=] & _)|(b & g1 & Hb & Hrun)])].
  cbn zeta in Hrun.
  destruct Hrun as [(e & g2 & _ & [=] & _)|(t & g2 & Ht & Hrun)].
  set (st := objects s) in *. set (id := account_id st (VRef l)) in *.
  set (st1 := attach st l "balances" b) in *.
  pose proof (ready_fetches base kind tok st id (client s) b g1 Hne Hready)
    as Hfb.
  pose proof (λ H, ready_fetches base kind tok st1 id g1 t g2 Hne H) as Hft.
  unfold blocking_fetches, fetch_paths in Hfb, Hft. cbn zeta in Hfb, Hft.
  do 3 apply Forall2_cons_1 in Hfb as [_ Hfb].
  apply Forall2_cons_1 in Hfb as [Hfb _].
  destruct (Hfb Hb) as [Hready1 Hsent1].
  specialize (Hft Hready1).
  do 4 apply Forall2_cons_1 in Hft as [_ Hft].
  apply Forall2_cons_1 in Hft as [Hft _].
  destruct (Hft Ht) as [Hready2 Hsent2].
  assert (∀ a', account_id (attach st1 l "transactions" t) a'
                = account_id st a') as Hid.
  { intros a'. eapply grows_account_id, grows_attach_both. }
  destruct (IH {| objects := attach st1 l "transactions" t; client := g2 |})
    as [Hready' Hsent']; [done| |done|].
  { cbn. eapply Forall_impl; [exact Hrest|]. intros a' Ha'. by rewrite Hid. }
  split; [done|]. cbn in Hsent'. rewrite Hsent', Hsent2, Hsent1.
  rewrite <- !app_assoc. f_equal. cbn [mbind list_bind app].
  rewrite (py_str_scalar st st1) by done. unfold account_requests at 2.
  fold st id. cbn [app]. do 2 f_equal.
  by apply account_requests_bind_ext.
Qed.

(** X16. The requests of a complete run. On a blocking client that holds a
    string token and token type, a run of [collect_all_data] that returns
    has sent, in this order and with the client's authorization headers on
    each: GET [/stet/identity], GET [/stet/account], and for each account of
    the list, in list order, GET [/stet/account/{id}/balance] and then GET
    [/stet/account/{id}/transaction], where [{id}] is the text of the
    account's [id] (a string, a number, a boolean or [None]). *)
Theorem requests_of_a_complete_run
    (s s' : BankingDataCollector (BankingAPIClient (Wiretap W)))
    (r : dict) (kind tok : string) :
  use_async (client s) = false →
  token_type (client s) = VStr kind →
  token (client s) = VStr tok →
  tok ≠ "" →
  collect_all_data s = (Returns r, s') →
  ∃ accounts items,
    r !! "accounts" = Some accounts ∧
    py_iter (objects s) accounts = Returns items ∧
    (Forall (λ a, scalar (account_id (objects s) a) = true) items →
     let base := base_url (client s) in
     let hdrs := [("Authorization", kind +:+ " " +:+ tok);
                  ("Content-Type", "application/json")] in
     requests_sent (client s') =
       requests_sent (client s)
       ++ GET (base +:+ "/stet/identity") hdrs
       :: GET (base +:+ "/stet/account") hdrs
       :: (items ≫= account_requests base hdrs (objects s))).
Proof.
  intros Hmode Hkind Htok Hne Hrun.
  rewrite collect_all_data_sync in Hrun by done.
  apply aggregate_inv in Hrun. cbn zeta in Hrun.
  destruct Hrun as [(e & g1 & _ & [=] & _)|(identity & g1 & Hi & Hrun)].
  destruct Hrun as [(e & g2 & _ & [=] & _)|(accounts & g2 & Ha & Hrun)].
  destruct Hrun as [(e & _ & [=] & _)|(items & o & Hit & Hloop & Hout)].
  destruct o as [[]|e]; [|done]. injection Hout as ->.
  exists accounts, items. split_and!; [|done|].
  { rewrite lookup_insert_ne by done. by rewrite lookup_singleton_eq. }
  intros Hsc. cbn zeta.
  assert (ready (base_url (client s)) kind tok (client s)) as Hready by done.
  pose proof (ready_fetches _ kind tok (objects s) VNone (client s)
                identity g1 Hne Hready) as Hfi.
  pose proof (λ H, ready_fetches (base_url (client s)) kind tok (objects s)
                     VNone g1 accounts g2 Hne H) as Hfa.
  unfold blocking_fetches, fetch_paths in Hfi, Hfa. cbn zeta in Hfi, Hfa.
  apply Forall2_cons_1 in Hfi as [Hfi _].
  destruct (Hfi Hi) as [Hready1 Hsent1].
  specialize (Hfa Hready1).
  apply Forall2_cons_1 in Hfa as [_ Hfa].
  apply Forall2_cons_1 in Hfa as [Hfa _].
  destruct (Hfa Ha) as [Hready2 Hsent2].
  destruct (ready_loop (base_url (client s)) kind tok items
              {| objects := objects s; client := g2 |} s'
              Hne Hready2 Hsc Hloop) as [_ Hsent].
  cbn in Hsent. rewrite Hsent, Hsent2, Hsent1. by rewrite <- !app_assoc.
Qed.
End RequestsOfARun.

(** *** The further properties at work on the scenarios *)

Lemma fetch_contract_witness :
  let run := get_balances (SE := Wiretap_Session (SE := Scripted_Session))
               (PY := Opaque_Builtins) (VStr "a1") ∅ authenticated_client in
  truthy ∅ (token authenticated_client) = true ∧
  run.1 = Returns (VList []) ∧
  requests_sent run.2 =
    [GET "https://bank.example/stet/account/a1/balance"
         [("Authorization", "bearer tok-1");
          ("Content-Type", "application/json")]].
Proof.
  intros run. split; [reflexivity|].
  pose proof (fetch_contract (SE := Wiretap_Session (SE := Scripted_Session))
                (PY := Opaque_Builtins) ∅ (VStr "a1") authenticated_client _
                eq_refl eq_refl) as H.
  change (use_async authenticated_client) with false in H.
  unfold blocking_fetches, fetch_paths in H.
  do 3 apply Forall2_cons_1 in H as [_ H].
  apply Forall2_cons_1 in H as [H _].
  unfold run. rewrite H. split; vm_compute; reflexivity.
Defined.

Lemma authenticate_sends_one_form_post_witness :
  session login_client = Some login_session ∧
  requests_sent
    (authenticate (SE := Wiretap_Session (SE := Scripted_Session))
       login_objects login_client).2
  = [POST "https://bank.example/oauth/token"
          [("username", "mdupuis"); ("password", "111111"); ("scope", "stet")]
          [("Content-Type", "application/x-www-form-urlencoded")]].
Proof.
  split; [reflexivity|].
  exact (authenticate_sends_one_form_post (SE := Scripted_Session)
           login_client login_objects login_session eq_refl).
Defined.

Lemma collect_all_data_async_mirrors_blocking_witness :
  let c := client wired_roundtrip in
  use_async c = false ∧
  (collect_all_data_async
     (GW := BankingAPIClient_Gateway
              (SE := Wiretap_Session (SE := Scripted_Session))
              (PY := Opaque_Builtins))
     {| objects := roundtrip_objects; client := set_use_async c true |}).1
  = Returns {[ "identity" := VRef 1;
               "accounts" := VList [VRef 2; VRef 3] ]}.
Proof.
  intros c. split; [reflexivity|].
  rewrite (collect_all_data_async_mirrors_blocking
             (SE := Wiretap_Session (SE := Scripted_Session))
             (PY := Opaque_Builtins) c roundtrip_objects eq_refl).
  vm_compute. reflexivity.
Defined.

Lemma falsy_token_is_not_authenticated_witness :
  let run := authenticate (SE := Scripted_Session)
               empty_token_objects tokenless_client in
  run.1 = Returns (VStr "") ∧
  get_identity (SE := Scripted_Session) (PY := Opaque_Builtins)
    empty_token_objects run.2
  = (Raises NotAuthenticated, run.2).
Proof.
  intros run. split; [vm_compute; reflexivity|].
  destruct (falsy_token_is_not_authenticated (SE := Scripted_Session)
              (PY := Opaque_Builtins) tokenless_client run.2
              empty_token_objects empty_token_objects (VStr "") VNone)
    as [_ Hun]; [vm_compute; reflexivity|reflexivity|].
  apply Forall_cons in Hun as [Hid _]. exact Hid.
Defined.

Lemma null_token_type_is_kept_witness :
  let run := authenticate (SE := Scripted_Session)
               null_type_objects tokenless_client in
  run.1 = Returns (VStr "tok-1") ∧
  deref null_type_objects 1 !! "token_type" = Some VNone ∧
  _get_headers (PY := Opaque_Builtins) null_type_objects run.2 =
    (Returns [("Authorization", "None tok-1");
              ("Content-Type", "application/json")], run.2).
Proof.
  intros run. split; [vm_compute; reflexivity|].
  split; [vm_compute; reflexivity|].
  refine (proj2 (null_token_type_is_kept (SE := Scripted_Session)
                   (PY := Opaque_Builtins) tokenless_client run.2
                   null_type_objects null_type_objects (VStr "tok-1")
                   tokenless_session []
                   {| raise_for_status := None; json := Returns (VRef 1) |}
                   1%positive _ eq_refl eq_refl eq_refl _ eq_refl));
    vm_compute; reflexivity.
Defined.

Lemma collector_needs_a_token_witness :
  let s := {| objects := roundtrip_objects;
              client := set_token (client wired_roundtrip) VNone |} in
  is_Some (session (client s)) ∧
  collect_all_data
    (GW := BankingAPIClient_Gateway
             (SE := Wiretap_Session (SE := Scripted_Session))
             (PY := Opaque_Builtins)) s
  = (Raises NotAuthenticated, s).
Proof.
  intros s. split; [by eexists|].
  exact (collector_needs_a_token
           (SE := Wiretap_Session (SE := Scripted_Session))
           (PY := Opaque_Builtins) (client s) roundtrip_objects
           (ex_intro _ _ eq_refl) eq_refl).
Defined.

Lemma degenerate_account_list_witness :
  scripted_async (client null_account_list) = false ∧
  (collect_all_data (GW := Scripted_Gateway) null_account_list).1
  = Raises (TypeError "'NoneType' object is not iterable").
Proof.
  split; [reflexivity|].
  pose proof (degenerate_account_list (GW := Scripted_Gateway)
                null_account_list (VRef 1) VNone
                {| scripted_async := false; replies := [Returns VNone] |}
                {| scripted_async := false; replies := [] |}
                eq_refl eq_refl eq_refl) as H.
  cbn zeta in H. by rewrite H.
Defined.

Lemma non_object_account_stops_the_run_witness :
  scripted_async (client string_in_list) = false ∧
  (collect_all_data (GW := Scripted_Gateway) string_in_list).1
  = Raises (AttributeError "'str' object has no attribute 'get'") ∧
  replies (client (collect_all_data (GW := Scripted_Gateway)
                     string_in_list).2) = [].
Proof.
  split; [reflexivity|].
  pose proof (non_object_account_stops_the_run (GW := Scripted_Gateway)
                string_in_list
                (for_each_account
                   (gw_get_balances (Gateway := Scripted_Gateway))
                   (gw_get_transactions (Gateway := Scripted_Gateway))
                   [VRef 2]
                   {| objects := roundtrip_objects;
                      client := {| scripted_async := false;
                                   replies := [Returns (VList [VRef 4]);
                                               Returns (VList [])] |} |}).2
                (VRef 1) (VList [VRef 2; VStr "a2"]) (VStr "a2")
                {| scripted_async := false;
                   replies := [Returns (VList [VRef 2; VStr "a2"]);
                               Returns (VList [VRef 4]);
                               Returns (VList [])] |}
                {| scripted_async := false;
                   replies := [Returns (VList [VRef 4]);
                               Returns (VList [])] |}
                [VRef 2] [] eq_refl eq_refl eq_refl eq_refl) as H.
  rewrite H; [split; vm_compute; reflexivity|done|vm_compute; reflexivity].
Defined.

Lemma failed_run_leaves_balances_attached_witness :
  let run := collect_all_data (GW := Scripted_Gateway) transactions_fail in
  scripted_async (client transactions_fail) = false ∧
  run.1 = Raises (HTTPError "500 Server Error") ∧
  deref (objects run.2) 2 !! "balances" = Some (VList [VRef 4]) ∧
  deref (objects run.2) 2 !! "transactions" = None.
Proof.
  intros run. split; [reflexivity|].
  destruct (failed_run_leaves_balances_attached (GW := Scripted_Gateway)
              transactions_fail
              {| objects := roundtrip_objects;
                 client := {| scripted_async := false;
                              replies :=
                                [Returns (VList [VRef 4]);
                                 Raises (HTTPError "500 Server Error")] |} |}
              (VRef 1) (VList [VRef 2]) (VList [VRef 4])
              {| scripted_async := false;
                 replies := [Returns (VList [VRef 2]);
                             Returns (VList [VRef 4]);
                             Raises (HTTPError "500 Server Error")] |}
              {| scripted_async := false;
                 replies := [Returns (VList [VRef 4]);
                             Raises (HTTPError "500 Server Error")] |}
              {| scripted_async := false;
                 replies := [Raises (HTTPError "500 Server Error")] |}
              {| scripted_async := false; replies := [] |}
              [] [] 2%positive (HTTPError "500 Server Error")
              eq_refl eq_refl eq_refl eq_refl eq_refl eq_refl eq_refl)
    as (Hrun & Hbal & Htr & _).
  unfold run. rewrite Hrun. cbn [fst snd objects].
  split; [reflexivity|]. split; [exact Hbal|].
  etrans; [exact Htr|]. vm_compute. reflexivity.
Defined.

Lemma collect_all_data_async_aborts_on_first_failure_witness :
  let run := collect_all_data_async
               (GW := Recorder_Gateway (GW := Scripted_Gateway))
               second_balances_fail_async in
  scripted_async (inner (client second_balances_fail_async)) = true ∧
  run.1 = Raises (HTTPError "500 Server Error").
Proof.
  intros run. split; [reflexivity|].
  refine (proj2 (proj2 (collect_all_data_async_aborts_on_first_failure
    (GW := Scripted_Gateway) second_balances_fail_async _ _
    [(Identity, Returns (VRef 1));
     (Accounts, Returns (VList [VRef 2; VRef 3; VRef 5]));
     (Balances (VStr "a1"), Returns (VList [VRef 4]));
     (Transactions (VStr "a1"), Returns (VList []))]
    [] (Balances (VStr "a2")) (HTTPError "500 Server Error") _ _ _)));
    [reflexivity|apply surjective_pairing|vm_compute; reflexivity].
Defined.

Lemma collected_accounts_carry_both_fetches_async_witness :
  let s := roundtrip_async_recorded in
  let run := collect_all_data_async
               (GW := Recorder_Gateway (GW := Scripted_Gateway)) s in
  scripted_async (inner (client s)) = true ∧
  run.1 = Returns {[ "identity" := VRef 1;
                     "accounts" := VList [VRef 2; VRef 3] ]} ∧
  ∃ identity accounts items fetched,
    py_iter (objects s) accounts = Returns items ∧
    length fetched = length items ∧
    journal (client run.2) =
      journal (client s)
      ++ (Identity, Returns identity) :: (Accounts, Returns accounts)
      :: fetch_log (objects s) items fetched.
Proof.
  intros s run. split; [reflexivity|]. split; [vm_compute; reflexivity|].
  destruct (collected_accounts_carry_both_fetches_async
              (GW := Scripted_Gateway)
              s run.2 {[ "identity" := VRef 1;
                         "accounts" := VList [VRef 2; VRef 3] ]})
    as (identity & accounts & items & fetched & _ & Hit & Hlen & Hj & _).
  { reflexivity. }
  { vm_compute. reflexivity. }
  by exists identity, accounts, items, fetched.
Defined.

Lemma collect_all_data_async_attaches_in_place_witness :
  let run := collect_all_data_async (GW := Scripted_Gateway)
               roundtrip_async in
  scripted_async (client roundtrip_async) = true ∧
  run.1 = Returns {[ "identity" := VRef 1;
                     "accounts" := VList [VRef 2; VRef 3] ]} ∧
  deref (objects run.2) 2 !! "id" = deref (objects roundtrip_async) 2 !! "id".
Proof.
  intros run. split; [reflexivity|]. split; [vm_compute; reflexivity|].
  destruct (collect_all_data_async_attaches_in_place (GW := Scripted_Gateway)
              roundtrip_async run.2
              {[ "identity" := VRef 1;
                 "accounts" := VList [VRef 2; VRef 3] ]})
    as (identity & g1 & accounts & g2 & items & _ & _ & _ & _ & _ & Hkey & _).
  { reflexivity. }
  { vm_compute. reflexivity. }
  by apply Hkey.
Defined.

Lemma requests_of_a_complete_run_witness :
  let run := collect_all_data
               (GW := BankingAPIClient_Gateway
                        (SE := Wiretap_Session (SE := Scripted_Session))
                        (PY := Opaque_Builtins)) wired_roundtrip in
  let hdrs := [("Authorization", "bearer tok-1");
               ("Content-Type", "application/json")] in
  token (client wired_roundtrip) = VStr "tok-1" ∧
  requests_sent (client run.2) =
    [GET "https://bank.example/stet/identity" hdrs;
     GET "https://bank.example/stet/account" hdrs;
     GET "https://bank.example/stet/account/a1/balance" hdrs;
     GET "https://bank.example/stet/account/a1/transaction" hdrs;
     GET "https://bank.example/stet/account/a2/balance" hdrs;
     GET "https://bank.example/stet/account/a2/transaction" hdrs].
Proof.
  intros run hdrs. split; [reflexivity|].
  destruct (requests_of_a_complete_run (SE := Scripted_Session)
              (PY := Opaque_Builtins) wired_roundtrip run.2
              {[ "identity" := VRef 1;
                 "accounts" := VList [VRef 2; VRef 3] ]}
              "bearer" "tok-1")
    as (accounts & items & Hacc & Hit & Hsent);
    [reflexivity|reflexivity|reflexivity|done|vm_compute; reflexivity|].
  vm_compute in Hacc. injection Hacc as <-.
  cbn in Hit. injection Hit as <-.
  rewrite Hsent; [vm_compute; reflexivity|].
  repeat constructor.
Defined.

Lemma other_context_opens_no_session_witness :
  session unentered_client = None ∧
  (__aenter__ (SE := Scripted_Session) unentered_client).2
  = unentered_client ∧
  session (__enter__ (SE := Scripted_Session) unentered_client).2 = Some [].
Proof.
  split; [reflexivity|].
  destruct (other_context_opens_no_session (SE := Scripted_Session)
              (PY := Opaque_Builtins) unentered_client ∅ VNone eq_refl)
    as (Hother & _ & Hown).
  split; [exact Hother|exact Hown].
Defined.

Lemma client_outlives_its_context_witness :
  let c := authenticated_client in
  is_Some (session c) ∧
  token (__exit__ (SE := Wiretap_Session (SE := Scripted_Session)) c).2
  = token c ∧
  is_Some (session
             (__exit__ (SE := Wiretap_Session (SE := Scripted_Session)) c).2).
Proof.
  intros c. split; [by eexists|].
  destruct (client_outlives_its_context
              (SE := Wiretap_Session (SE := Scripted_Session))
              (PY := Opaque_Builtins) c ∅ VNone _ eq_refl) as (Hexit & _ & _).
  change (use_async c) with false in Hexit. rewrite Hexit.
  split; [reflexivity|by eexists].
Defined.
